(** * PortfolioAPI: response envelope, pagination, validation wiring,
      duplicate checks and image lifecycle of the REST controllers.

    Shallow embedding of
      - src/utils/responseFormatter.js
      - src/middleware/upload.js, src/middleware/validateRequest.js
      - src/routes/projects.js, src/routes/journey.js,
        src/routes/certifications.js
      - src/controllers/projectsController.js, journeyController.js,
        certificationsController.js
      - the SQL views of the schema (journey_items_view).

    Model boundaries: request bodies are typed (texts, optional texts,
    dates); query parameters [page] and [limit] are the numbers their
    texts denote; the libraries (express, express-validator, multer,
    supabase-js) are given the behaviour their documentation states.

    The relational store and the blob store are external services: they
    are modelled as tables (lists of rows) and a list of blob names inside
    a [World], with an [Env] of oracles saying which external calls
    succeed.  Every call that reaches one of them is recorded in a trace. *)

From Stdlib Require Import String Ascii List ZArith Bool Lia.
Import ListNotations.
Local Open Scope string_scope.
Local Open Scope Z_scope.

(* ================================================================== *)
(** ** JavaScript values *)
(* ================================================================== *)

Module Js.

(** The values that flow through the response formatter.  Numbers are
    the integers the controllers compute with, plus [NaN] (what
    [parseInt] gives on a non-number). Objects keep their keys in
    insertion order. *)
#[warnings="-register-all"]
Inductive value : Type :=
| Undefined
| Null
| Bool (b : bool)
| Num (n : Z)
| NaN
| Str (s : string)
| Arr (items : list value)
| Obj (fields : list (string * value)).

(** ToBoolean. *)
Definition truthy (v : value) : bool :=
  match v with
  | Undefined | Null | NaN => false
  | Bool b => b
  | Num n => negb (n =? 0)
  | Str s => negb (s =? "")%string
  | Arr _ | Obj _ => true
  end.

(** [a || b]. *)
Definition or (a b : value) : value := if truthy a then a else b.

Fixpoint assoc (k : string) (fields : list (string * value)) : option value :=
  match fields with
  | [] => None
  | (k', v) :: rest => if (k =? k')%string then Some v else assoc k rest
  end.

(** Writing the own key [k]: replaces the value of an existing key, else
    adds the key at the end. *)
Fixpoint set_own (k : string) (v : value) (fields : list (string * value))
    : list (string * value) :=
  match fields with
  | [] => [(k, v)]
  | (k', v') :: rest =>
      if (k =? k')%string then (k, v) :: rest else (k', v') :: set_own k v rest
  end.

(** [o[k] = v] on the fields of an object created by a literal.  The
    key [__proto__] is the accessor inherited from [Object.prototype]:
    assigning to it adds no own key (it replaces the prototype when [v]
    is an object or [null]; prototypes are not modelled, [get] reads own
    keys). *)
Definition set (k : string) (v : value) (fields : list (string * value))
    : list (string * value) :=
  if (k =? "__proto__")%string then fields else set_own k v fields.

(** [o.k]: [undefined] when the key is missing or [o] is no object. *)
Definition get (k : string) (o : value) : value :=
  match o with
  | Obj fields => match assoc k fields with Some v => v | None => Undefined end
  | _ => Undefined
  end.

(** [k in o] for own keys. *)
Definition has (k : string) (o : value) : bool :=
  match o with
  | Obj fields => match assoc k fields with Some _ => true | None => false end
  | _ => false
  end.

Definition keys (o : value) : list string :=
  match o with
  | Obj fields => map fst fields
  | _ => []
  end.

Definition length (v : value) : Z :=
  match v with
  | Arr items => Z.of_nat (List.length items)
  | _ => 0
  end.

End Js.

(* ================================================================== *)
(** ** src/utils/responseFormatter.js *)
(* ================================================================== *)

Module ResponseFormatter.
Import Js.

Section Formatter.
(** [new Date().toISOString()] at the time of the call. *)
Variable now : string.

(** What every formatter returns: [{ statusCode, json: response }]. *)
Definition wrap (statusCode : Z) (response : list (string * value)) : value :=
  Obj [("statusCode", Num statusCode); ("json", Obj response)].

(** [data] defaults to [null] when the caller passes [undefined]. *)
Definition sendSuccess (data : value) (message : string) (statusCode : Z) : value :=
  let data := match data with Undefined => Null | d => d end in
  let response :=
    [("success", Bool true); ("message", Str message); ("timestamp", Str now)] in
  let response :=
    match data with
    | Null => response
    | _ => (response ++ [("data", data)])%list
    end in
  wrap statusCode response.

(** [errors] defaults to [null] when the caller leaves it out. *)
Definition sendError (message : string) (statusCode : Z) (errors : value) : value :=
  let errors := match errors with Undefined => Null | e => e end in
  let response :=
    [("success", Bool false); ("message", Str message); ("timestamp", Str now)] in
  let response :=
    if truthy errors then (response ++ [("errors", errors)])%list else response in
  wrap statusCode response.

Definition sendPaginatedResponse (data pagination : value) (message : string) : value :=
  wrap 200
    [("success", Bool true); ("message", Str message); ("timestamp", Str now);
     ("data", data);
     ("pagination", Obj
        [("page", or (get "page" pagination) (Num 1));
         ("limit", or (get "limit" pagination) (Num 10));
         ("total", or (get "total" pagination) (Num 0));
         ("pages", or (get "pages" pagination) (Num 1));
         ("hasNext", or (get "hasNext" pagination) (Bool false));
         ("hasPrev", or (get "hasPrev" pagination) (Bool false))])].

(** [validationErrors.details] is [None] when the argument has no such
    property; each detail is a path and a message. *)
Definition sendValidationError (details : option (list (list string * string))) : value :=
  let errors :=
    match details with
    | Some ds =>
        fold_left (fun errors d => set (String.concat "." (fst d)) (Str (snd d)) errors) ds []
    | None => []
    end in
  sendError "Validation failed" 400 (Obj errors).

Definition sendDeleteResponse (message : string) : value :=
  sendSuccess Null message 200.

Definition sendSearchResponse (results searchInfo pagination : value) : value :=
  wrap 200
    [("success", Bool true); ("message", Str "Search completed successfully");
     ("timestamp", Str now);
     ("data", results);
     ("search", Obj
        [("query", or (get "query" searchInfo) (Str ""));
         ("filters", or (get "filters" searchInfo) (Obj []));
         ("totalResults", Num (length results))]);
     ("pagination", Obj
        [("page", or (get "page" pagination) (Num 1));
         ("limit", or (get "limit" pagination) (Num 10));
         ("total", or (get "total" pagination) (Num (length results)));
         ("pages", or (get "pages" pagination) (Num 1))])].

End Formatter.

(** [Math.ceil(total / limit)] on integers with [0 < limit]: the
    quotient, plus one when the division leaves a remainder (exact for
    the counts a store returns, which are far below 2^53).  For
    [limit = 0] JavaScript yields [Infinity] or [NaN], which this
    definition does not give: it is used under [0 < limit] only, and
    every property below that reads a computed [pages] assumes it. *)
Definition Math_ceil_div (total limit : Z) : Z :=
  if total mod limit =? 0 then total / limit else total / limit + 1.

(** [calculatePagination(page, limit, total)] on numbers. *)
Definition calculatePagination (page limit total : Z) : value :=
  let totalPages := Math_ceil_div total limit in
  let hasNext := page <? totalPages in
  let hasPrev := page >? 1 in
  Obj [("page", Num page); ("limit", Num limit); ("total", Num total);
       ("pages", Num totalPages); ("hasNext", Bool hasNext); ("hasPrev", Bool hasPrev)].

End ResponseFormatter.

(* ================================================================== *)
(** ** Strings *)
(* ================================================================== *)

Module Text.

(** The ASCII white space [String.prototype.trim] removes. *)
Definition is_space (c : ascii) : bool :=
  match nat_of_ascii c with
  | 9%nat | 10%nat | 11%nat | 12%nat | 13%nat | 32%nat => true
  | _ => false
  end.

Fixpoint trimStart (s : string) : string :=
  match s with
  | String c rest => if is_space c then trimStart rest else s
  | EmptyString => EmptyString
  end.

Fixpoint trimEnd (s : string) : string :=
  match s with
  | String c rest =>
      let rest' := trimEnd rest in
      if is_space c && (rest' =? "")%string then "" else String c rest'
  | EmptyString => EmptyString
  end.

Definition trim (s : string) : string := trimEnd (trimStart s).

(** [s.split(sep)] for a one-character separator. *)
Fixpoint split (sep : ascii) (s : string) : list string :=
  match s with
  | EmptyString => [""]
  | String c rest =>
      if Ascii.eqb c sep then "" :: split sep rest
      else match split sep rest with
           | first :: others => String c first :: others
           | [] => [String c ""]
           end
  end.

Definition len (s : string) : Z := Z.of_nat (String.length s).

Definition truthy (s : string) : bool := negb (s =? "")%string.

(** [opt?.trim() || null] and [opt || null] on an optional text. *)
Definition trim_or_null (o : option string) : option string :=
  match o with
  | Some s => if truthy (trim s) then Some (trim s) else None
  | None => None
  end.

Definition or_null (o : option string) : option string :=
  match o with
  | Some s => if truthy s then Some s else None
  | None => None
  end.

End Text.

(* ================================================================== *)
(** ** The external world: relational store, blob store, HTTP *)
(* ================================================================== *)

(** Rows of the three tables of the schema.  The server-managed columns
    [created_at] and [updated_at] are left out.  Dates are stored with
    day precision ([DATE] columns): a day number since the epoch. *)
Record Project := mkProject {
  p_id : Z;
  p_name : string;
  p_details : string;
  p_skills : list string;
  p_demo_link : option string;
  p_github_link : option string;
  p_image_url : option string
}.

Record Certification := mkCertification {
  c_id : Z;
  c_title : string;
  c_issuer : string;
  c_issued_date : Z;
  c_certification_id : option string;
  c_details : option string;
  c_link_url : option string
}.

Record JourneyItem := mkJourneyItem {
  j_id : Z;
  j_title : string;
  j_company_name : string;
  j_start_date : Z;
  j_end_date : option Z;
  j_details : string;
  j_journey_type : string
}.

(** Every call that leaves the process. *)
Inductive Event : Type :=
| DbSelect (table : string)
| DbInsert (table : string) (ok : bool)
| DbUpdate (table : string) (id : Z) (ok : bool)
| BlobUpload (name : string) (ok : bool)
| BlobRemove (name : string) (ok : bool).

Record World := mkWorld {
  projects : list Project;
  certifications : list Certification;
  journey_items : list JourneyItem;
  blobs : list string;
  next_id : Z;
  trace : list Event
}.

(** What the environment decides for one request: the clock, which
    external calls succeed, the generated file name
    ([`${uuidv4()}${path.extname(originalName)}`]) and the public URL the
    blob store derives from a name.  A list query is answered by the
    store itself (filters, order and range are passed through to it):
    [page_rows] is its [data] and [match_count] its exact [count]. *)
Record Env := mkEnv {
  now : string;
  db_select_ok : bool;
  page_rows : Js.value;
  match_count : option Z;
  db_write_ok : bool;
  storage_upload_ok : bool;
  storage_remove_ok : string -> bool;
  generated_name : string -> string;
  getPublicUrl : string -> string;
  (* process.env *)
  MAX_FILE_SIZE : option Z;          (* parseInt(..): [None] is NaN *)
  ALLOWED_IMAGE_TYPES : option string;
  (* validator.js *)
  isURL : string -> bool
}.

Definition is_write (e : Event) : bool :=
  match e with
  | DbInsert _ _ | DbUpdate _ _ _ => true
  | _ => false
  end.

(** The request's own computation: a state monad over the world. *)
Definition M (A : Type) : Type := World -> A * World.

Definition ret {A : Type} (a : A) : M A := fun w => (a, w).

Definition bind {A B : Type} (m : M A) (k : A -> M B) : M B :=
  fun w => let (a, w') := m w in k a w'.

Notation "x <- m ;; k" := (bind m (fun x => k))
  (at level 61, m at next level, right associativity).

Definition log (e : Event) : M unit :=
  fun w => (tt, mkWorld (projects w) (certifications w) (journey_items w)
                        (blobs w) (next_id w) (trace w ++ [e])%list).

Definition set_projects (rows : list Project) : M unit :=
  fun w => (tt, mkWorld rows (certifications w) (journey_items w)
                        (blobs w) (next_id w) (trace w)).

Definition set_certifications (rows : list Certification) : M unit :=
  fun w => (tt, mkWorld (projects w) rows (journey_items w)
                        (blobs w) (next_id w) (trace w)).

Definition set_journey_items (rows : list JourneyItem) : M unit :=
  fun w => (tt, mkWorld (projects w) (certifications w) rows
                        (blobs w) (next_id w) (trace w)).

Definition set_blobs (names : list string) : M unit :=
  fun w => (tt, mkWorld (projects w) (certifications w) (journey_items w)
                        names (next_id w) (trace w)).

(** [BIGSERIAL]: hands out the next identifier. *)
Definition fresh_id : M Z :=
  fun w => (next_id w, mkWorld (projects w) (certifications w) (journey_items w)
                       (blobs w) (next_id w + 1) (trace w)).

Definition read {A : Type} (f : World -> A) : M A := fun w => (f w, w).

(** [.single()]: the row when the filter leaves exactly one, else no
    data (the store answers with error PGRST116 for none or several). *)
Definition single {R : Type} (rows : list R) : option R :=
  match rows with
  | [r] => Some r
  | _ => None
  end.

(** [await supabase.from(table).select(..).<filters>.single()], keeping
    only [data]. *)
Definition select_single {R : Type} (env : Env) (table : string)
    (rows : World -> list R) (keep : R -> bool) : M (option R) :=
  _ <- log (DbSelect table) ;;
  all <- read rows ;;
  ret (if db_select_ok env then single (filter keep all) else None).

(** An HTTP response: [res.status(s).json(b)]. *)
Record Response := mkResponse {
  status : Z;
  payload : Js.value
}.

Record File := mkFile {
  fieldname : string;
  originalname : string;
  mimetype : string;
  size : Z
}.

(** The request as the handlers see it: [req.params.id], [req.body],
    [req.files] and [req.file] (set by the upload middleware), whether the
    bearer credential is valid, and the errors the express-validator
    chains have recorded so far. *)
Record Req (B : Type) := mkReq {
  params_id : Z;
  body : B;
  files : list File;
  file : option File;
  authenticated : bool;
  validation : list (string * string)
}.
Arguments mkReq {B}.
Arguments params_id {B}.
Arguments body {B}.
Arguments files {B}.
Arguments file {B}.
Arguments authenticated {B}.
Arguments validation {B}.

(* ================================================================== *)
(** ** src/middleware/upload.js: blob store calls *)
(* ================================================================== *)

Record UploadResult := mkUploadResult {
  fileName : string;
  publicUrl : string
}.

(** [uploadToSupabaseStorage]: [None] stands for the thrown error.  The
    oracle [storage_upload_ok] covers every reason the service refuses. *)
Definition uploadToSupabaseStorage (env : Env) (f : File) : M (option UploadResult) :=
  let name := generated_name env (originalname f) in
  if storage_upload_ok env then
    _ <- log (BlobUpload name true) ;;
    stored <- read blobs ;;
    _ <- set_blobs (stored ++ [name])%list ;;
    ret (Some (mkUploadResult name (getPublicUrl env name)))
  else
    _ <- log (BlobUpload name false) ;;
    ret None.

(** [deleteFromSupabaseStorage]: [false] stands for the thrown error. *)
Definition deleteFromSupabaseStorage (env : Env) (name : string) : M bool :=
  if storage_remove_ok env name then
    _ <- log (BlobRemove name true) ;;
    stored <- read blobs ;;
    _ <- set_blobs (filter (fun n => negb (n =? name)%string) stored) ;;
    ret true
  else
    _ <- log (BlobRemove name false) ;;
    ret false.

(* ================================================================== *)
(** ** src/controllers/projectsController.js: projects *)
(* ================================================================== *)

Import Js ResponseFormatter.

Definition js_text (o : option string) : value :=
  match o with
  | Some s => Str s
  | None => Null
  end.

Definition project_json (p : Project) : value :=
  Obj [("id", Num (p_id p)); ("name", Str (p_name p)); ("details", Str (p_details p));
       ("image_url", js_text (p_image_url p));
       ("skills", Arr (map Str (p_skills p)));
       ("demo_link", js_text (p_demo_link p));
       ("github_link", js_text (p_github_link p))].

(** [res.status(s).json(b)] and [res.json(b)]. *)
Definition res_status_json (s : Z) (b : value) : M Response := ret (mkResponse s b).
Definition res_json (b : value) : M Response := ret (mkResponse 200 b).

(** The query string of a list route: the numeric values of [page] and
    [limit] ([None] when the parameter is absent).  The arithmetic and the
    comparisons of the controllers coerce the parameter to this number. *)
Record ListQuery := mkListQuery {
  q_page : option Z;
  q_limit : option Z
}.

Definition default {A : Type} (o : option A) (d : A) : A :=
  match o with
  | Some a => a
  | None => d
  end.

(** The block every list controller repeats after its query:
    [total = count || 0], [totalPages = Math.ceil(total / limit)] and the
    [pagination] object. *)
Definition listPagination (page limit : Z) (count : option Z) : value :=
  let total := default count 0 in
  let totalPages := Math_ceil_div total limit in
  Obj [("page", Num page); ("limit", Num limit); ("total", Num total);
       ("pages", Num totalPages);
       ("hasNext", Bool (page <? totalPages));
       ("hasPrev", Bool (page >? 1))].

(** A list controller: run the query on a view, answer 500 on a store
    error, else the paginated envelope. *)
Definition list_controller (view failure success : string)
    (env : Env) (q : ListQuery) : M Response :=
  let page := default (q_page q) 1 in
  let limit := default (q_limit q) 10 in
  _ <- log (DbSelect view) ;;
  if negb (db_select_ok env) then
    res_status_json 500 (sendError (now env) failure 500 Undefined)
  else
    let pagination := listPagination page limit (match_count env) in
    res_json (sendPaginatedResponse (now env) (or (page_rows env) (Arr [])) pagination success).

Definition getAllProjects : Env -> ListQuery -> M Response :=
  list_controller "projects_view" "Failed to fetch projects" "Projects retrieved successfully".

Definition searchProjects (env : Env) (query : string) (q : ListQuery) : M Response :=
  let page := default (q_page q) 1 in
  let limit := default (q_limit q) 10 in
  _ <- log (DbSelect "projects_view") ;;
  if negb (db_select_ok env) then
    res_status_json 500 (sendError (now env) "Search failed" 500 Undefined)
  else
    let pagination := listPagination page limit (match_count env) in
    res_json (sendSearchResponse (now env) (or (page_rows env) (Arr []))
                (Obj [("query", Str query)]) pagination).

(** [extractFilenameFromUrl]: the last piece of [url.split('/')]. *)
Definition extractFilenameFromUrl (url : string) : string :=
  last (Text.split "/" url) "".

(** The clean-up block of the controllers:
    [try { fileName = extract(url); if (fileName) await delete(fileName) }
     catch (e) { console.error(..) }]. *)
Definition cleanup_image (env : Env) (url : string) : M unit :=
  let name := extractFilenameFromUrl url in
  if Text.truthy name then
    _ <- deleteFromSupabaseStorage env name ;;
    ret tt
  else ret tt.

Definition url_truthy (o : option string) : bool :=
  match o with
  | Some u => Text.truthy u
  | None => false
  end.

Record ProjectCreateBody := mkProjectCreateBody {
  pc_name : string;
  pc_details : string;
  pc_skills : option (list string);
  pc_demo_link : option string;
  pc_github_link : option string
}.

(** [insert([row]).select().single()] on [projects]. *)
Definition insert_project (env : Env) (mk : Z -> Project) : M (option Project) :=
  if db_write_ok env then
    id <- fresh_id ;;
    rows <- read projects ;;
    _ <- set_projects (rows ++ [mk id])%list ;;
    _ <- log (DbInsert "projects" true) ;;
    ret (Some (mk id))
  else
    _ <- log (DbInsert "projects" false) ;;
    ret None.

Definition createProject (env : Env) (req : Req ProjectCreateBody) : M Response :=
  let b := body req in
  existingProject <-
    select_single env "projects" projects (fun p => (p_name p =? pc_name b)%string) ;;
  match existingProject with
  | Some _ =>
      res_status_json 400 (sendError (now env) "Project with this name already exists" 400 Undefined)
  | None =>
      uploaded <-
        match file req with
        | Some f =>
            r <- uploadToSupabaseStorage env f ;;
            ret (match r with
                 | Some u => inr (Some (publicUrl u))
                 | None => inl tt
                 end)
        | None => ret (inr None)
        end ;;
      match uploaded with
      | inl _ =>
          res_status_json 400
            (sendError (now env)
               "Failed to upload image. Please ensure the file is a valid image and under 10MB."
               400 Undefined)
      | inr image_url =>
          let projectData id :=
            mkProject id (pc_name b) (pc_details b) (default (pc_skills b) [])
                      (Text.or_null (pc_demo_link b)) (Text.or_null (pc_github_link b))
                      image_url in
          inserted <- insert_project env projectData ;;
          match inserted with
          | None =>
              _ <- (if url_truthy image_url
                    then cleanup_image env (default image_url "")
                    else ret tt) ;;
              res_status_json 500 (sendError (now env) "Failed to create project" 500 Undefined)
          | Some data =>
              res_status_json 201
                (sendSuccess (now env) (project_json data) "Project created successfully" 201)
          end
      end
  end.

Record ProjectUpdateBody := mkProjectUpdateBody {
  pu_name : option string;
  pu_details : option string;
  pu_skills : option (list string);
  pu_demo_link : option string;
  pu_github_link : option string
}.

(** [updateData] applied to a row: only the supplied fields change;
    [image_url] is always written (it is never [undefined]). *)
Definition project_updateData (b : ProjectUpdateBody) (image_url : option string)
    (p : Project) : Project :=
  mkProject (p_id p)
    (match pu_name b with Some n => Text.trim n | None => p_name p end)
    (match pu_details b with Some d => Text.trim d | None => p_details p end)
    (match pu_skills b with Some l => l | None => p_skills p end)
    (match pu_demo_link b with Some _ => Text.trim_or_null (pu_demo_link b) | None => p_demo_link p end)
    (match pu_github_link b with Some _ => Text.trim_or_null (pu_github_link b) | None => p_github_link p end)
    image_url.

Definition patch_rows {R : Type} (id_of : R -> Z) (id : Z) (patch : R -> R)
    (rows : list R) : list R :=
  map (fun r => if id_of r =? id then patch r else r) rows.

(** [update(updateData).eq('id', id).select().single()] on [projects]:
    the statement is applied when the store accepts it and exactly one
    row carries the id. *)
Definition update_project (env : Env) (id : Z) (patch : Project -> Project)
    : M (option Project) :=
  rows <- read projects ;;
  match (if db_write_ok env
         then single (filter (fun r => p_id r =? id) (patch_rows p_id id patch rows))
         else None) with
  | Some row =>
      _ <- set_projects (patch_rows p_id id patch rows) ;;
      _ <- log (DbUpdate "projects" id true) ;;
      ret (Some row)
  | None =>
      _ <- log (DbUpdate "projects" id false) ;;
      ret None
  end.

Definition updateProject (env : Env) (req : Req ProjectUpdateBody) : M Response :=
  let id := params_id req in
  let b := body req in
  existingProject <- select_single env "projects" projects (fun p => p_id p =? id) ;;
  match existingProject with
  | None => res_status_json 404 (sendError (now env) "Project not found" 404 Undefined)
  | Some existing =>
      nameConflict <-
        match pu_name b with
        | Some name =>
            if Text.truthy name && negb (name =? p_name existing)%string then
              select_single env "projects" projects
                (fun p => (p_name p =? name)%string && negb (p_id p =? id))
            else ret None
        | None => ret None
        end ;;
      match nameConflict with
      | Some _ =>
          res_status_json 400
            (sendError (now env) "Project with this name already exists" 400 Undefined)
      | None =>
          uploaded <-
            match file req with
            | Some f =>
                r <- uploadToSupabaseStorage env f ;;
                match r with
                | Some u =>
                    (* Delete old image if it exists *)
                    _ <- (if url_truthy (p_image_url existing)
                          then cleanup_image env (default (p_image_url existing) "")
                          else ret tt) ;;
                    ret (inr (Some (publicUrl u)))
                | None => ret (inl tt)
                end
            | None => ret (inr (p_image_url existing))
            end ;;
          match uploaded with
          | inl _ =>
              res_status_json 400
                (sendError (now env)
                   "Failed to upload image. Please ensure the file is a valid image and under 10MB."
                   400 Undefined)
          | inr image_url =>
              updated <- update_project env id (project_updateData b image_url) ;;
              match updated with
              | None =>
                  (* If database update fails, delete newly uploaded image *)
                  _ <- (match file req with
                        | Some _ =>
                            if url_truthy image_url
                            then cleanup_image env (default image_url "")
                            else ret tt
                        | None => ret tt
                        end) ;;
                  res_status_json 500
                    (sendError (now env) "Failed to update project" 500 Undefined)
              | Some data =>
                  res_json (sendSuccess (now env) (project_json data)
                              "Project updated successfully" 200)
              end
          end
      end
  end.

(** [uploadProjectImage] (the controller of POST /upload-image).  A
    thrown upload error reaches the outer [catch]. *)
Definition uploadProjectImage (env : Env) {B : Type} (req : Req B) : M Response :=
  match file req with
  | None => res_status_json 400 (sendError (now env) "No file uploaded" 400 Undefined)
  | Some f =>
      r <- uploadToSupabaseStorage env f ;;
      match r with
      | Some u =>
          res_status_json 201
            (sendSuccess (now env)
               (Obj [("filename", Str (fileName u)); ("originalName", Str (originalname f));
                     ("size", Num (size f)); ("mimetype", Str (mimetype f));
                     ("url", Str (publicUrl u))])
               "Image uploaded successfully" 201)
      | None =>
          res_status_json 500
            (sendError (now env) "Failed to upload image" 500 (Str "Upload failed: "))
      end
  end.

(* ================================================================== *)
(** ** Express: a route is a chain of handlers *)
(* ================================================================== *)

(** The errors the upload middleware passes to [next(err)]. *)
Inductive UploadError : Type :=
| InvalidFileType
| LIMIT_FILE_SIZE
| LIMIT_FILE_COUNT.

(** What a handler does with the request: call [next()], call
    [next(err)], or send the response. *)
Inductive Next (B : Type) : Type :=
| Continue (req : Req B)
| Raise (err : UploadError) (req : Req B)
| Sent (r : Response).
Arguments Continue {B}.
Arguments Raise {B}.
Arguments Sent {B}.

(** [(req, res, next)] handlers and [(err, req, res, next)] handlers. *)
Inductive Handler (B : Type) : Type :=
| Middleware (h : Env -> Req B -> M (Next B))
| ErrorMiddleware (h : Env -> UploadError -> Req B -> M (Next B)).
Arguments Middleware {B}.
Arguments ErrorMiddleware {B}.

(** Express runs the handlers of a route in order; with an error pending
    it skips to the next error handler, without one it skips the error
    handlers.  [None]: nothing in the route answered, the request goes
    on to the handlers of the application. *)
Fixpoint run_route {B : Type} (env : Env) (hs : list (Handler B))
    (pending : option UploadError) (req : Req B) : M (option Response) :=
  match hs with
  | [] => ret None
  | Middleware h :: rest =>
      match pending with
      | Some _ => run_route env rest pending req
      | None =>
          n <- h env req ;;
          match n with
          | Continue req' => run_route env rest None req'
          | Raise e req' => run_route env rest (Some e) req'
          | Sent r => ret (Some r)
          end
      end
  | ErrorMiddleware h :: rest =>
      match pending with
      | None => run_route env rest None req
      | Some e =>
          n <- h env e req ;;
          match n with
          | Continue req' => run_route env rest None req'
          | Raise e' req' => run_route env rest (Some e') req'
          | Sent r => ret (Some r)
          end
      end
  end.

Definition controller {B : Type} (c : Env -> Req B -> M Response) : Handler B :=
  Middleware (fun env req => r <- c env req ;; ret (Sent r)).

Definition set_file {B : Type} (req : Req B) (fs : list File) (f : option File) : Req B :=
  mkReq (params_id req) (body req) fs f (authenticated req) (validation req).

Definition set_body {B : Type} (req : Req B) (b : B) (errs : list (string * string)) : Req B :=
  mkReq (params_id req) b (files req) (file req) (authenticated req)
        (validation req ++ errs)%list.

(* ================================================================== *)
(** ** src/middleware/upload.js: the multipart middleware *)
(* ================================================================== *)

Definition allowedTypes (env : Env) : list string :=
  match ALLOWED_IMAGE_TYPES env with
  | Some s => Text.split "," s
  | None => ["image/jpeg"; "image/png"; "image/gif"; "image/webp"]
  end.

(** [fileFilter]: [true] for [cb(null, true)], [false] for the
    'Invalid file type' error. *)
Definition fileFilter (env : Env) (f : File) : bool :=
  existsb (fun t => (t =? mimetype f)%string) (allowedTypes env).

(** [limits.fileSize]: [parseInt(process.env.MAX_FILE_SIZE) || 10 * 1024 * 1024]. *)
Definition fileSize_limit (env : Env) : Z :=
  match MAX_FILE_SIZE env with
  | Some n => if n =? 0 then 10 * 1024 * 1024 else n
  | None => 10 * 1024 * 1024
  end.

(** multer's [.any()] with [fileFilter] and [limits = { fileSize, files: 1 }]
    over the file parts of the request, in order: a part beyond the
    first is LIMIT_FILE_COUNT, a part the filter refuses is the filter's
    error, a part longer than [fileSize] is LIMIT_FILE_SIZE.  Whether a
    part of exactly [fileSize] bytes is refused depends on the version
    of the parser behind multer (the one of 1.4.5-lts refuses it), and
    the sources pin no version; here such a part is let through. *)
Fixpoint multer_any (env : Env) (accepted : nat) (parts : list File) : option UploadError :=
  match parts with
  | [] => None
  | f :: rest =>
      if (1 <=? accepted)%nat then Some LIMIT_FILE_COUNT
      else if negb (fileFilter env f) then Some InvalidFileType
      else if fileSize_limit env <? size f then Some LIMIT_FILE_SIZE
      else multer_any env (S accepted) rest
  end.

Definition allowed_field (f : File) : bool :=
  (fieldname f =? "image")%string || (fieldname f =? "uploadedFile")%string.

Definition normalize_field (f : File) : File :=
  if (fieldname f =? "uploadedFile")%string
  then mkFile "image" (originalname f) (mimetype f) (size f)
  else f.

(** [file.fieldname = 'image'] on the part [req.files.find(...)]
    returns: the part is renamed where it sits in [req.files]. *)
Fixpoint rename_found (parts : list File) : list File :=
  match parts with
  | [] => []
  | f :: rest =>
      if allowed_field f then normalize_field f :: rest else f :: rename_found rest
  end.

(** [uploadProjectImage] of upload.js (the middleware). *)
Definition uploadProjectImageMiddleware {B : Type} (env : Env) (req : Req B) : M (Next B) :=
  match multer_any env 0 (files req) with
  | Some err => ret (Raise err req)
  | None =>
      let found := option_map normalize_field (find allowed_field (files req)) in
      ret (Continue (set_file req (rename_found (files req)) found))
  end.

Definition handleUploadError {B : Type} (env : Env) (error : UploadError) (req : Req B)
    : M (Next B) :=
  match error with
  | LIMIT_FILE_SIZE =>
      ret (Sent (mkResponse 400
        (Obj [("success", Bool false);
              ("error", Str "File too large. Maximum size allowed is 10MB.")])))
  | LIMIT_FILE_COUNT =>
      ret (Sent (mkResponse 400
        (Obj [("success", Bool false);
              ("error", Str "Too many files. Only one file allowed.")])))
  | InvalidFileType =>
      ret (Sent (mkResponse 400
        (Obj [("success", Bool false);
              ("error", Str "Invalid file type. Only JPEG, PNG, GIF, and WebP images are allowed.")])))
  end.

(* ================================================================== *)
(** ** src/middleware/validateRequest.js and the express-validator chains *)
(* ================================================================== *)

(** [validateRequest]: 400 when the chains recorded an error.  The
    argument handed to [sendValidationError] is express-validator's
    result object, which has no [details] property. *)
Definition validateRequest {B : Type} (env : Env) (req : Req B) : M (Next B) :=
  match validation req with
  | [] => ret (Continue req)
  | _ :: _ => ret (Sent (mkResponse 400 (sendValidationError (now env) None)))
  end.

(** One validator of a chain: its message when the test fails. *)
Definition check (ok : bool) (field message : string) : list (string * string) :=
  if ok then [] else [(field, message)].

(** A chain behind [.optional()] is skipped for an absent field. *)
Definition optional {A : Type} (o : option A) (errs : A -> list (string * string))
    : list (string * string) :=
  match o with
  | Some a => errs a
  | None => []
  end.

(** [param('id').isInt({ min: 1 })]. *)
Definition idValidation {B : Type} (env : Env) (req : Req B) : M (Next B) :=
  ret (Continue (set_body req (body req)
         (check (1 <=? params_id req) "id" "ID must be a positive integer"))).

(** Modelled from the spec: the Auth Gate ([authenticate] of
    src/middleware/auth.js, not among the sources) verifies the bearer
    credential before the operation and answers 401 on failure. *)
Definition authenticate {B : Type} (env : Env) (req : Req B) : M (Next B) :=
  if authenticated req then ret (Continue req)
  else ret (Sent (mkResponse 401 (sendError (now env) "Access token required" 401 Undefined))).

(* ================================================================== *)
(** ** src/routes/projects.js *)
(* ================================================================== *)

Module ProjectRoutes.

Definition name_rules (required too_long : string) (name : string) : list (string * string) :=
  (check (Text.truthy name) "name" required
   ++ check (Text.len name <=? 255) "name" too_long)%list.

Definition details_rules (required : string) (details : string) : list (string * string) :=
  (check (Text.truthy details) "details" required
   ++ check (10 <=? Text.len details) "details"
        "Project details must be at least 10 characters long")%list.

Definition link_rules (env : Env) (field message : string) (link : option string)
    : list (string * string) :=
  optional link (fun l => check (isURL env l) field message).

(** [createProjectValidation]: declared in the file, used by no route.
    (The [isArray] rule on [skills] always holds for the typed body.) *)
Definition createProjectValidation (env : Env) (req : Req ProjectCreateBody)
    : M (Next ProjectCreateBody) :=
  let b := body req in
  let name := Text.trim (pc_name b) in
  let details := Text.trim (pc_details b) in
  ret (Continue
    (set_body req
       (mkProjectCreateBody name details (pc_skills b) (pc_demo_link b) (pc_github_link b))
       (name_rules "Project name is required"
                   "Project name must not exceed 255 characters" name
        ++ details_rules "Project details are required" details
        ++ link_rules env "demo_link" "Demo link must be a valid URL" (pc_demo_link b)
        ++ link_rules env "github_link" "GitHub link must be a valid URL" (pc_github_link b))%list)).

Definition updateProjectValidation (env : Env) (req : Req ProjectUpdateBody)
    : M (Next ProjectUpdateBody) :=
  let b := body req in
  let name := option_map Text.trim (pu_name b) in
  let details := option_map Text.trim (pu_details b) in
  ret (Continue
    (set_body req
       (mkProjectUpdateBody name details (pu_skills b) (pu_demo_link b) (pu_github_link b))
       (optional name (name_rules "Project name cannot be empty"
                                  "Project name must not exceed 255 characters")
        ++ optional details (details_rules "Project details cannot be empty")
        ++ link_rules env "demo_link" "Demo link must be a valid URL" (pu_demo_link b)
        ++ link_rules env "github_link" "GitHub link must be a valid URL" (pu_github_link b))%list)).

(** [router.post('/', ...)] *)
Definition post_root : list (Handler ProjectCreateBody) :=
  [ Middleware uploadProjectImageMiddleware;
    ErrorMiddleware handleUploadError;
    controller createProject ].

(** [router.post('/upload-image', ...)] *)
Definition post_upload_image : list (Handler unit) :=
  [ Middleware authenticate;
    Middleware uploadProjectImageMiddleware;
    ErrorMiddleware handleUploadError;
    controller (fun env req => uploadProjectImage env req) ].

(** [router.put('/:id', ...)] *)
Definition put_id : list (Handler ProjectUpdateBody) :=
  [ Middleware authenticate;
    Middleware idValidation;
    Middleware uploadProjectImageMiddleware;
    ErrorMiddleware handleUploadError;
    Middleware updateProjectValidation;
    Middleware validateRequest;
    controller updateProject ].

End ProjectRoutes.

(* ================================================================== *)
(** ** Dates *)
(* ================================================================== *)

(** A date field of a request body as JavaScript sees it: missing,
    [null], the empty string, or a text.  A text is told apart by what
    [Date] and validator.js's [isISO8601] make of it, which do not
    agree:
    - [DInstant t]: an ISO 8601 text that [Date] parses to the instant
      [t] (milliseconds since the epoch), or a Date object of that
      instant;
    - [DInvalid]: a text that is no ISO 8601 date and that [Date]
      cannot parse;
    - [DIsoUnparsed]: an ISO 8601 text that [Date] cannot parse (a week
      or ordinal date such as 2024-W05);
    - [DLoose t]: a text that is no ISO 8601 date and that [Date]
      parses to [t] (such as March 5, 2024). *)
Inductive DateInput : Type :=
| DUndefined
| DNull
| DEmpty
| DInstant (t : Z)
| DInvalid
| DIsoUnparsed
| DLoose (t : Z).

Definition date_truthy (d : DateInput) : bool :=
  match d with
  | DInstant _ | DInvalid | DIsoUnparsed | DLoose _ => true
  | DUndefined | DNull | DEmpty => false
  end.

(** [new Date(d).getTime()]: [None] is the invalid date. *)
Definition new_Date (d : DateInput) : option Z :=
  match d with
  | DInstant t | DLoose t => Some t
  | DNull => Some 0
  | DUndefined | DEmpty | DInvalid | DIsoUnparsed => None
  end.

Definition ms_per_day : Z := 86400000.

(** [new Date(d).toISOString().split('T')[0]] as a day number; [None]
    is the RangeError thrown for an invalid date. *)
Definition toISODate (d : DateInput) : option Z :=
  option_map (fun t => t / ms_per_day) (new_Date d).

(** A stored [DATE] read back and given to [new Date]: midnight UTC. *)
Definition stored_date (day : Z) : option Z := Some (day * ms_per_day).

(** [new Date(a) <= new Date(b)]: [false] when either side is invalid. *)
Definition date_le (a b : option Z) : bool :=
  match a, b with
  | Some x, Some y => x <=? y
  | _, _ => false
  end.

(* ================================================================== *)
(** ** src/controllers/journeyController.js *)
(* ================================================================== *)

Definition js_day (o : option Z) : value :=
  match o with
  | Some d => Num d
  | None => Null
  end.

(** A row as the store returns it; a date appears as its day number. *)
Definition journey_json (j : JourneyItem) : value :=
  Obj [("id", Num (j_id j)); ("title", Str (j_title j));
       ("company_name", Str (j_company_name j));
       ("start_date", Num (j_start_date j)); ("end_date", js_day (j_end_date j));
       ("details", Str (j_details j)); ("journey_type", Str (j_journey_type j))].

(** [journey_items_view] of the schema:
    [CASE WHEN end_date IS NULL THEN true ELSE false END as is_current]. *)
Definition is_current (j : JourneyItem) : bool :=
  match j_end_date j with
  | None => true
  | Some _ => false
  end.

Definition journey_items_view (j : JourneyItem) : value :=
  match journey_json j with
  | Obj fields => Obj (fields ++ [("is_current", Bool (is_current j))])%list
  | v => v
  end.

Definition getAllJourneyItems : Env -> ListQuery -> M Response :=
  list_controller "journey_items_view" "Failed to fetch journey items"
                  "Journey items retrieved successfully".

Definition getJourneyByType (type : string) : Env -> ListQuery -> M Response :=
  list_controller "journey_items_view" "Failed to fetch journey items by type"
                  (type ++ " items retrieved successfully").

Definition getCurrentJourneyItems : Env -> ListQuery -> M Response :=
  list_controller "journey_items_view" "Failed to fetch current journey items"
                  "Current journey items retrieved successfully".

(** [getJourneyById]: the single row of the view, 404 when the store
    reports that no row matched (PGRST116), 500 on another error. *)
Definition getJourneyById (env : Env) (id : Z) : M Response :=
  _ <- log (DbSelect "journey_items_view") ;;
  rows <- read journey_items ;;
  if negb (db_select_ok env) then
    res_status_json 500 (sendError (now env) "Failed to fetch journey item" 500 Undefined)
  else
    match single (filter (fun j => j_id j =? id) rows) with
    | None => res_status_json 404 (sendError (now env) "Journey item not found" 404 Undefined)
    | Some j =>
        res_json (sendSuccess (now env) (journey_items_view j)
                    "Journey item retrieved successfully" 200)
    end.

Record JourneyCreateBody := mkJourneyCreateBody {
  jc_title : string;
  jc_company_name : string;
  jc_start_date : DateInput;
  jc_end_date : DateInput;
  jc_details : string;
  jc_journey_type : string
}.

Definition insert_journey_item (env : Env) (mk : Z -> JourneyItem) : M (option JourneyItem) :=
  if db_write_ok env then
    id <- fresh_id ;;
    rows <- read journey_items ;;
    _ <- set_journey_items (rows ++ [mk id])%list ;;
    _ <- log (DbInsert "journey_items" true) ;;
    ret (Some (mk id))
  else
    _ <- log (DbInsert "journey_items" false) ;;
    ret None.

(** [end_date ? new Date(end_date).toISOString().split('T')[0] : null];
    the outer [None] is the thrown RangeError. *)
Definition end_date_column (d : DateInput) : option (option Z) :=
  if date_truthy d then option_map Some (toISODate d) else Some None.

Definition createJourneyItem (env : Env) (req : Req JourneyCreateBody) : M Response :=
  let b := body req in
  existingJourneyItem <-
    select_single env "journey_items" journey_items
      (fun j => (j_title j =? jc_title b)%string
                && (j_company_name j =? jc_company_name b)%string) ;;
  match existingJourneyItem with
  | Some _ =>
      res_status_json 400
        (sendError (now env) "Journey item with this title and company already exists" 400 Undefined)
  | None =>
      if date_truthy (jc_end_date b)
         && date_le (new_Date (jc_end_date b)) (new_Date (jc_start_date b))
      then
        res_status_json 400 (sendError (now env) "End date must be after start date" 400 Undefined)
      else
        match toISODate (jc_start_date b), end_date_column (jc_end_date b) with
        | Some start_day, Some end_day =>
            let journeyItemData id :=
              mkJourneyItem id (Text.trim (jc_title b)) (Text.trim (jc_company_name b))
                            start_day end_day (Text.trim (jc_details b)) (jc_journey_type b) in
            inserted <- insert_journey_item env journeyItemData ;;
            match inserted with
            | None =>
                res_status_json 500
                  (sendError (now env) "Failed to create journey item" 500 Undefined)
            | Some data =>
                res_status_json 201
                  (sendSuccess (now env) (journey_json data)
                     "Journey item created successfully" 201)
            end
        | _, _ =>
            (* RangeError: caught by the outer catch *)
            res_status_json 500
              (sendError (now env) "Failed to create journey item" 500
                 (Str "Invalid time value"))
        end
  end.

Record JourneyUpdateBody := mkJourneyUpdateBody {
  ju_title : option string;
  ju_company_name : option string;
  ju_start_date : DateInput;
  ju_end_date : DateInput;
  ju_details : option string;
  ju_journey_type : option string
}.

Definition opt_truthy (o : option string) : bool :=
  match o with
  | Some s => Text.truthy s
  | None => false
  end.

(** [supplied !== stored] for an optional text of the body. *)
Definition differs (o : option string) (stored : string) : bool :=
  match o with
  | Some s => negb (s =? stored)%string
  | None => true
  end.

(** [finalStartDate = start_date || existing.start_date], as an instant. *)
Definition finalStartDate (start_date : DateInput) (existing : JourneyItem) : option Z :=
  if date_truthy start_date then new_Date start_date
  else stored_date (j_start_date existing).

(** [finalEndDate = end_date !== undefined ? end_date : existing.end_date]:
    whether it is truthy, and its instant. *)
Definition finalEndDate (end_date : DateInput) (existing : JourneyItem) : bool * option Z :=
  match end_date with
  | DUndefined =>
      match j_end_date existing with
      | Some day => (true, stored_date day)
      | None => (false, None)
      end
  | d => (date_truthy d, new_Date d)
  end.

(** [updateData] of [updateJourneyItem] applied to a row; [None] is the
    RangeError of [toISOString] on an invalid date. *)
Definition journey_updateData (b : JourneyUpdateBody) : option (JourneyItem -> JourneyItem) :=
  let start :=
    match ju_start_date b with
    | DUndefined => Some None
    | d => option_map Some (toISODate d)
    end in
  let finish :=
    match ju_end_date b with
    | DUndefined => Some None
    | d => option_map Some (end_date_column d)
    end in
  match start, finish with
  | Some start, Some finish =>
      Some (fun j =>
        mkJourneyItem (j_id j)
          (match ju_title b with Some t => Text.trim t | None => j_title j end)
          (match ju_company_name b with Some c => Text.trim c | None => j_company_name j end)
          (default start (j_start_date j))
          (default finish (j_end_date j))
          (match ju_details b with Some d => Text.trim d | None => j_details j end)
          (default (ju_journey_type b) (j_journey_type j)))
  | _, _ => None
  end.

Definition update_journey_item (env : Env) (id : Z) (patch : JourneyItem -> JourneyItem)
    : M (option JourneyItem) :=
  rows <- read journey_items ;;
  match (if db_write_ok env
         then single (filter (fun r => j_id r =? id) (patch_rows j_id id patch rows))
         else None) with
  | Some row =>
      _ <- set_journey_items (patch_rows j_id id patch rows) ;;
      _ <- log (DbUpdate "journey_items" id true) ;;
      ret (Some row)
  | None =>
      _ <- log (DbUpdate "journey_items" id false) ;;
      ret None
  end.

Definition updateJourneyItem (env : Env) (req : Req JourneyUpdateBody) : M Response :=
  let id := params_id req in
  let b := body req in
  existingJourneyItem <- select_single env "journey_items" journey_items (fun j => j_id j =? id) ;;
  match existingJourneyItem with
  | None => res_status_json 404 (sendError (now env) "Journey item not found" 404 Undefined)
  | Some existing =>
      (* Check for duplicate title/company if being changed *)
      duplicateJourneyItem <-
        (if opt_truthy (ju_title b) && opt_truthy (ju_company_name b)
            && (differs (ju_title b) (j_title existing)
                || differs (ju_company_name b) (j_company_name existing))
         then
           select_single env "journey_items" journey_items
             (fun j => (j_title j =? default (ju_title b) "")%string
                       && (j_company_name j =? default (ju_company_name b) "")%string
                       && negb (j_id j =? id))
         else ret None) ;;
      match duplicateJourneyItem with
      | Some _ =>
          res_status_json 400
            (sendError (now env) "Journey item with this title and company already exists"
               400 Undefined)
      | None =>
          let final_start := finalStartDate (ju_start_date b) existing in
          let final_end := finalEndDate (ju_end_date b) existing in
          if fst final_end && date_le (snd final_end) final_start then
            res_status_json 400
              (sendError (now env) "End date must be after start date" 400 Undefined)
          else
            match journey_updateData b with
            | None =>
                res_status_json 500
                  (sendError (now env) "Failed to update journey item" 500
                     (Str "Invalid time value"))
            | Some updateData =>
                updated <- update_journey_item env id updateData ;;
                match updated with
                | None =>
                    res_status_json 500
                      (sendError (now env) "Failed to update journey item" 500 Undefined)
                | Some data =>
                    res_json (sendSuccess (now env) (journey_json data)
                                "Journey item updated successfully" 200)
                end
            end
      end
  end.

(* ================================================================== *)
(** ** src/routes/journey.js *)
(* ================================================================== *)

Module JourneyRoutes.

Definition text_rules (field required too_long : string) (s : string)
    : list (string * string) :=
  (check (Text.truthy s) field required
   ++ check (Text.len s <=? 255) field too_long)%list.

Definition details_rules (required : string) (details : string) : list (string * string) :=
  (check (Text.truthy details) "details" required
   ++ check (10 <=? Text.len details) "details"
        "Details must be at least 10 characters long")%list.

(** [.isISO8601()] of validator.js on the text of the field ([null]
    is checked as the empty text). *)
Definition isISO8601 (d : DateInput) : bool :=
  match d with
  | DInstant _ | DIsoUnparsed => true
  | _ => false
  end.

(** [.toDate()]: the Date of [Date.parse], or [null] when that is NaN. *)
Definition toDate (d : DateInput) : DateInput :=
  match d with
  | DInstant t | DLoose t => DInstant t
  | _ => DNull
  end.

Definition journey_type_ok (t : string) : bool :=
  (t =? "Experience")%string || (t =? "Education")%string || (t =? "Volunteer")%string.

(** [createJourneyValidation]: declared in the file, used by no route. *)
Definition createJourneyValidation (env : Env) (req : Req JourneyCreateBody)
    : M (Next JourneyCreateBody) :=
  let b := body req in
  let title := Text.trim (jc_title b) in
  let company := Text.trim (jc_company_name b) in
  let start := toDate (jc_start_date b) in
  let details := Text.trim (jc_details b) in
  let end_errors :=
    match jc_end_date b with
    | DUndefined => []
    | e =>
        (check (isISO8601 e) "end_date" "End date must be a valid date"
         ++ check (negb (date_truthy (toDate e)
                         && date_le (new_Date (toDate e)) (new_Date start)))
              "end_date" "End date must be after start date")%list
    end in
  ret (Continue
    (set_body req
       (mkJourneyCreateBody title company start
          (match jc_end_date b with DUndefined => DUndefined | e => toDate e end)
          details (jc_journey_type b))
       (text_rules "title" "Title is required" "Title must not exceed 255 characters" title
        ++ text_rules "company_name" "Company name is required"
             "Company name must not exceed 255 characters" company
        ++ check (isISO8601 (jc_start_date b)) "start_date" "Start date must be a valid date"
        ++ end_errors
        ++ details_rules "Details are required" details
        ++ check (journey_type_ok (jc_journey_type b)) "journey_type"
             "Journey type must be Experience, Education, or Volunteer")%list)).

Definition updateJourneyValidation (env : Env) (req : Req JourneyUpdateBody)
    : M (Next JourneyUpdateBody) :=
  let b := body req in
  let title := option_map Text.trim (ju_title b) in
  let company := option_map Text.trim (ju_company_name b) in
  let start := match ju_start_date b with DUndefined => DUndefined | d => toDate d end in
  let details := option_map Text.trim (ju_details b) in
  let start_errors :=
    match ju_start_date b with
    | DUndefined => []
    | d => check (isISO8601 d) "start_date" "Start date must be a valid date"
    end in
  let end_errors :=
    match ju_end_date b with
    | DUndefined => []
    | e =>
        (check (isISO8601 e) "end_date" "End date must be a valid date"
         ++ check (negb (date_truthy (toDate e) && date_truthy start
                         && date_le (new_Date (toDate e)) (new_Date start)))
              "end_date" "End date must be after start date")%list
    end in
  ret (Continue
    (set_body req
       (mkJourneyUpdateBody title company start
          (match ju_end_date b with DUndefined => DUndefined | e => toDate e end)
          details (ju_journey_type b))
       (optional title (text_rules "title" "Title cannot be empty"
                          "Title must not exceed 255 characters")
        ++ optional company (text_rules "company_name" "Company name cannot be empty"
                               "Company name must not exceed 255 characters")
        ++ start_errors
        ++ end_errors
        ++ optional details (details_rules "Details cannot be empty")
        ++ optional (ju_journey_type b)
             (fun t => check (journey_type_ok t) "journey_type"
                         "Journey type must be Experience, Education, or Volunteer"))%list)).

(** [router.post('/', createJourneyItem)] *)
Definition post_root : list (Handler JourneyCreateBody) :=
  [ controller createJourneyItem ].

(** [router.put('/:id', ...)] *)
Definition put_id : list (Handler JourneyUpdateBody) :=
  [ Middleware authenticate;
    Middleware idValidation;
    Middleware updateJourneyValidation;
    Middleware validateRequest;
    controller updateJourneyItem ].

End JourneyRoutes.

(* ================================================================== *)
(** ** src/controllers/certificationsController.js, src/routes/certifications.js *)
(* ================================================================== *)

Definition certification_json (c : Certification) : value :=
  Obj [("id", Num (c_id c)); ("title", Str (c_title c)); ("issuer", Str (c_issuer c));
       ("issued_date", Num (c_issued_date c));
       ("certification_id", js_text (c_certification_id c));
       ("details", js_text (c_details c)); ("link_url", js_text (c_link_url c))].

Definition getAllCertifications : Env -> ListQuery -> M Response :=
  list_controller "certifications_view" "Failed to fetch certifications"
                  "Certifications retrieved successfully".

Definition getCertificationsByIssuer (issuer : string) : Env -> ListQuery -> M Response :=
  list_controller "certifications_view" "Failed to fetch certifications by issuer"
                  ("Certifications from " ++ issuer ++ " retrieved successfully").

Record CertificationUpdateBody := mkCertificationUpdateBody {
  cu_title : option string;
  cu_issuer : option string;
  cu_issued_date : DateInput;
  cu_certification_id : option string;
  cu_details : option string;
  cu_link_url : option string
}.

Definition certification_updateData (b : CertificationUpdateBody)
    : option (Certification -> Certification) :=
  let issued :=
    match cu_issued_date b with
    | DUndefined => Some None
    | d => option_map Some (toISODate d)
    end in
  match issued with
  | Some issued =>
      Some (fun c =>
        mkCertification (c_id c)
          (match cu_title b with Some t => Text.trim t | None => c_title c end)
          (match cu_issuer b with Some i => Text.trim i | None => c_issuer c end)
          (default issued (c_issued_date c))
          (match cu_certification_id b with
           | Some _ => Text.trim_or_null (cu_certification_id b)
           | None => c_certification_id c end)
          (match cu_details b with
           | Some _ => Text.trim_or_null (cu_details b)
           | None => c_details c end)
          (match cu_link_url b with
           | Some _ => Text.trim_or_null (cu_link_url b)
           | None => c_link_url c end))
  | None => None
  end.

Definition update_certification (env : Env) (id : Z) (patch : Certification -> Certification)
    : M (option Certification) :=
  rows <- read certifications ;;
  match (if db_write_ok env
         then single (filter (fun r => c_id r =? id) (patch_rows c_id id patch rows))
         else None) with
  | Some row =>
      _ <- set_certifications (patch_rows c_id id patch rows) ;;
      _ <- log (DbUpdate "certifications" id true) ;;
      ret (Some row)
  | None =>
      _ <- log (DbUpdate "certifications" id false) ;;
      ret None
  end.

Definition updateCertification (env : Env) (req : Req CertificationUpdateBody) : M Response :=
  let id := params_id req in
  let b := body req in
  existingCertification <-
    select_single env "certifications" certifications (fun c => c_id c =? id) ;;
  match existingCertification with
  | None => res_status_json 404 (sendError (now env) "Certification not found" 404 Undefined)
  | Some existing =>
      (* Check for duplicate title/issuer if being changed *)
      duplicateCertification <-
        (if opt_truthy (cu_title b) && opt_truthy (cu_issuer b)
            && (differs (cu_title b) (c_title existing)
                || differs (cu_issuer b) (c_issuer existing))
         then
           select_single env "certifications" certifications
             (fun c => (c_title c =? default (cu_title b) "")%string
                       && (c_issuer c =? default (cu_issuer b) "")%string
                       && negb (c_id c =? id))
         else ret None) ;;
      match duplicateCertification with
      | Some _ =>
          res_status_json 400
            (sendError (now env) "Certification with this title and issuer already exists"
               400 Undefined)
      | None =>
          match certification_updateData b with
          | None =>
              res_status_json 500
                (sendError (now env) "Failed to update certification" 500
                   (Str "Invalid time value"))
          | Some updateData =>
              updated <- update_certification env id updateData ;;
              match updated with
              | None =>
                  res_status_json 500
                    (sendError (now env) "Failed to update certification" 500 Undefined)
              | Some data =>
                  res_json (sendSuccess (now env) (certification_json data)
                              "Certification updated successfully" 200)
              end
          end
      end
  end.

Module CertificationRoutes.

Definition updateCertificationValidation (env : Env) (req : Req CertificationUpdateBody)
    : M (Next CertificationUpdateBody) :=
  let b := body req in
  let title := option_map Text.trim (cu_title b) in
  let issuer := option_map Text.trim (cu_issuer b) in
  let certification_id := option_map Text.trim (cu_certification_id b) in
  let details := option_map Text.trim (cu_details b) in
  let issued_errors :=
    match cu_issued_date b with
    | DUndefined => []
    | d => check (JourneyRoutes.isISO8601 d) "issued_date" "Issued date must be a valid date"
    end in
  ret (Continue
    (set_body req
       (mkCertificationUpdateBody title issuer
          (match cu_issued_date b with DUndefined => DUndefined | d => JourneyRoutes.toDate d end)
          certification_id details (cu_link_url b))
       (optional title (JourneyRoutes.text_rules "title" "Title cannot be empty"
                          "Title must not exceed 255 characters")
        ++ optional issuer (JourneyRoutes.text_rules "issuer" "Issuer cannot be empty"
                              "Issuer must not exceed 255 characters")
        ++ issued_errors
        ++ optional certification_id
             (fun s => check (Text.len s <=? 255) "certification_id"
                         "Certification ID must not exceed 255 characters")
        ++ optional details
             (fun s => check (Text.len s <=? 2000) "details"
                         "Details must not exceed 2000 characters")
        ++ optional (cu_link_url b)
             (fun l => check (isURL env l) "link_url" "Link URL must be a valid URL"))%list)).

(** [router.put('/:id', ...)] *)
Definition put_id : list (Handler CertificationUpdateBody) :=
  [ Middleware authenticate;
    Middleware idValidation;
    Middleware updateCertificationValidation;
    Middleware validateRequest;
    controller updateCertification ].

End CertificationRoutes.

(* ================================================================== *)
(** ** Read, delete and create handlers beside the ones above *)
(* ================================================================== *)

(** [projects_view] of the schema:
    [CASE WHEN image_url IS NOT NULL THEN true ELSE false END as has_image]. *)
Definition has_image (p : Project) : bool :=
  match p_image_url p with
  | Some _ => true
  | None => false
  end.

Definition projects_view (p : Project) : value :=
  match project_json p with
  | Obj fields => Obj (fields ++ [("has_image", Bool (has_image p))])%list
  | v => v
  end.

(** [certifications_view]:
    [CASE WHEN link_url IS NOT NULL THEN true ELSE false END as has_link]. *)
Definition has_link (c : Certification) : bool :=
  match c_link_url c with
  | Some _ => true
  | None => false
  end.

Definition certifications_view (c : Certification) : value :=
  match certification_json c with
  | Obj fields => Obj (fields ++ [("has_link", Bool (has_link c))])%list
  | v => v
  end.

(** [getProjectById]: the single row of the view, 404 when the store
    reports that no row matched (PGRST116), 500 on another error. *)
Definition getProjectById {B : Type} (env : Env) (req : Req B) : M Response :=
  _ <- log (DbSelect "projects_view") ;;
  rows <- read projects ;;
  if negb (db_select_ok env) then
    res_status_json 500 (sendError (now env) "Failed to fetch project" 500 Undefined)
  else
    match single (filter (fun p => p_id p =? params_id req) rows) with
    | None => res_status_json 404 (sendError (now env) "Project not found" 404 Undefined)
    | Some p =>
        res_json (sendSuccess (now env) (projects_view p) "Project retrieved successfully" 200)
    end.

Definition getCertificationById {B : Type} (env : Env) (req : Req B) : M Response :=
  _ <- log (DbSelect "certifications_view") ;;
  rows <- read certifications ;;
  if negb (db_select_ok env) then
    res_status_json 500 (sendError (now env) "Failed to fetch certification" 500 Undefined)
  else
    match single (filter (fun c => c_id c =? params_id req) rows) with
    | None => res_status_json 404 (sendError (now env) "Certification not found" 404 Undefined)
    | Some c =>
        res_json (sendSuccess (now env) (certifications_view c)
                    "Certification retrieved successfully" 200)
    end.

(** The rows a [delete().eq('id', id)] statement leaves. *)
Definition delete_rows {R : Type} (id_of : R -> Z) (id : Z) (rows : list R) : list R :=
  filter (fun r => negb (id_of r =? id)) rows.

(** [delete().eq('id', id)] on each table: [false] is the store's error.
    (The trace has no event for this statement; its effect is the table.) *)
Definition delete_project (env : Env) (id : Z) : M bool :=
  if db_write_ok env then
    rows <- read projects ;;
    _ <- set_projects (delete_rows p_id id rows) ;;
    ret true
  else ret false.

Definition delete_certification (env : Env) (id : Z) : M bool :=
  if db_write_ok env then
    rows <- read certifications ;;
    _ <- set_certifications (delete_rows c_id id rows) ;;
    ret true
  else ret false.

Definition delete_journey_item (env : Env) (id : Z) : M bool :=
  if db_write_ok env then
    rows <- read journey_items ;;
    _ <- set_journey_items (delete_rows j_id id rows) ;;
    ret true
  else ret false.

(** [deleteProjectImage]: nothing for a missing URL, else the clean-up
    block; a failing removal is logged and swallowed. *)
Definition deleteProjectImage (env : Env) (imageUrl : option string) : M unit :=
  if url_truthy imageUrl then cleanup_image env (default imageUrl "") else ret tt.

Definition deleteProject {B : Type} (env : Env) (req : Req B) : M Response :=
  let id := params_id req in
  existingProject <- select_single env "projects" projects (fun p => p_id p =? id) ;;
  match existingProject with
  | None => res_status_json 404 (sendError (now env) "Project not found" 404 Undefined)
  | Some existing =>
      _ <- deleteProjectImage env (p_image_url existing) ;;
      deleted <- delete_project env id ;;
      if deleted
      then res_json (sendDeleteResponse (now env) "Project deleted successfully")
      else res_status_json 500 (sendError (now env) "Failed to delete project" 500 Undefined)
  end.

Definition deleteCertification {B : Type} (env : Env) (req : Req B) : M Response :=
  let id := params_id req in
  existingCertification <-
    select_single env "certifications" certifications (fun c => c_id c =? id) ;;
  match existingCertification with
  | None => res_status_json 404 (sendError (now env) "Certification not found" 404 Undefined)
  | Some _ =>
      deleted <- delete_certification env id ;;
      if deleted
      then res_json (sendDeleteResponse (now env) "Certification deleted successfully")
      else res_status_json 500
             (sendError (now env) "Failed to delete certification" 500 Undefined)
  end.

Definition deleteJourneyItem {B : Type} (env : Env) (req : Req B) : M Response :=
  let id := params_id req in
  existingJourneyItem <-
    select_single env "journey_items" journey_items (fun j => j_id j =? id) ;;
  match existingJourneyItem with
  | None => res_status_json 404 (sendError (now env) "Journey item not found" 404 Undefined)
  | Some _ =>
      deleted <- delete_journey_item env id ;;
      if deleted
      then res_json (sendDeleteResponse (now env) "Journey item deleted successfully")
      else res_status_json 500
             (sendError (now env) "Failed to delete journey item" 500 Undefined)
  end.

(** The body of POST /api/certifications: the texts, and the issued date
    as the calendar day it names (stored as given). *)
Record CertificationCreateBody := mkCertificationCreateBody {
  cc_title : string;
  cc_issuer : string;
  cc_issued_date : Z;
  cc_certification_id : option string;
  cc_details : option string;
  cc_link_url : option string
}.

Definition insert_certification (env : Env) (mk : Z -> Certification)
    : M (option Certification) :=
  if db_write_ok env then
    id <- fresh_id ;;
    rows <- read certifications ;;
    _ <- set_certifications (rows ++ [mk id])%list ;;
    _ <- log (DbInsert "certifications" true) ;;
    ret (Some (mk id))
  else
    _ <- log (DbInsert "certifications" false) ;;
    ret None.

Definition createCertification (env : Env) (req : Req CertificationCreateBody) : M Response :=
  let b := body req in
  existingCertification <-
    select_single env "certifications" certifications
      (fun c => (c_title c =? cc_title b)%string && (c_issuer c =? cc_issuer b)%string) ;;
  match existingCertification with
  | Some _ =>
      res_status_json 400
        (sendError (now env) "Certification with this title and issuer already exists"
           400 Undefined)
  | None =>
      let certificationData id :=
        mkCertification id (cc_title b) (cc_issuer b) (cc_issued_date b)
                        (Text.or_null (cc_certification_id b))
                        (Text.or_null (cc_details b))
                        (Text.or_null (cc_link_url b)) in
      inserted <- insert_certification env certificationData ;;
      match inserted with
      | None =>
          res_status_json 500
            (sendError (now env) "Failed to create certification" 500 Undefined)
      | Some data =>
          res_status_json 201
            (sendSuccess (now env) (certification_json data)
               "Certification created successfully" 201)
      end
  end.

(** The routes that use these handlers. *)
Module MoreRoutes.

(** [router.get('/:id', ...)] of projects.js *)
Definition get_project_id : list (Handler unit) :=
  [ Middleware authenticate;
    Middleware idValidation;
    Middleware validateRequest;
    controller getProjectById ].

(** [router.delete('/:id', ...)] of projects.js *)
Definition delete_project_id : list (Handler unit) :=
  [ Middleware idValidation;
    Middleware validateRequest;
    controller deleteProject ].

(** [router.post('/', validateRequest, createCertification)] *)
Definition post_certification : list (Handler CertificationCreateBody) :=
  [ Middleware validateRequest;
    controller createCertification ].

(** [router.get('/:id', ...)] of certifications.js *)
Definition get_certification_id : list (Handler unit) :=
  [ Middleware idValidation;
    Middleware validateRequest;
    controller getCertificationById ].

(** [router.delete('/:id', ...)] of certifications.js and journey.js *)
Definition delete_certification_id : list (Handler unit) :=
  [ Middleware authenticate;
    Middleware idValidation;
    Middleware validateRequest;
    controller deleteCertification ].

Definition delete_journey_id : list (Handler unit) :=
  [ Middleware authenticate;
    Middleware idValidation;
    Middleware validateRequest;
    controller deleteJourneyItem ].

End MoreRoutes.

(* ================================================================== *)
(** ** Observations on responses, and the scenarios used below *)
(* ================================================================== *)

(** The envelope fields the README documents at the top of every body. *)
Definition top_level_envelope (b : value) : bool :=
  has "success" b && has "message" b && has "timestamp" b.

(** Where the formatter's envelope sits in what the controllers send. *)
Definition envelope (r : Response) : value := get "json" (payload r).

Definition message_of (r : Response) : value := get "message" (envelope r).

(** A field of [pagination] in the body a list controller sends. *)
Definition reported (field : string) (r : Response) : value :=
  get field (get "pagination" (envelope r)).

(** [p] is the ceiling of [total / limit]: the least number of pages of
    [limit] items that hold [total] items. *)
Definition is_ceil (total limit p : Z) : Prop :=
  (p - 1) * limit < total <= p * limit.

(** The events a run added to the trace. *)
Definition added (before after : World) (events : list Event) : Prop :=
  trace after = (trace before ++ events)%list.

Definition same_tables (before after : World) : Prop :=
  projects after = projects before
  /\ certifications after = certifications before
  /\ journey_items after = journey_items before.

(** The answer of [createProject] to an existing name. *)
Definition conflict_answer (env : Env) : Response :=
  mkResponse 400 (sendError (now env) "Project with this name already exists" 400 Undefined).

(** [events] ends with [suffix]. *)
Definition ends_with (events suffix : list Event) : Prop :=
  exists earlier : list Event, events = (earlier ++ suffix)%list.

(** The route answers [req] with status [code] and leaves the world as
    it was: no event, no row, no blob. *)
Definition rejected {B : Type} (env : Env) (route : list (Handler B)) (req : Req B)
    (w : World) (code : Z) : Prop :=
  exists r : Response, run_route env route None req w = (Some r, w) /\ status r = code.


Definition no_write (events : list Event) : Prop :=
  Forall (fun e => is_write e = false) events.

(** The validation errors a chain leaves on the request. *)
Definition recorded {B : Type} (n : Next B) : list (string * string) :=
  match n with
  | Continue req => validation req
  | Raise _ req => validation req
  | Sent _ => []
  end.

(** A file the upload middleware must refuse. *)
Definition refused (env : Env) (f : File) : Prop :=
  fileFilter env f = false \/ fileSize_limit env < size f.

Module Scenario.

Definition bucket : string :=
  "https://x.supabase.co/storage/v1/object/public/project-images/".

(** Everything external works; the list query matched [count] rows. *)
Definition env (count : option Z) (write_ok : bool) : Env :=
  mkEnv "2024-01-15T10:30:00.000Z" true (Arr []) count write_ok true
        (fun _ => true) (fun _ => "0b5e.png") (fun n => bucket ++ n)
        None None (fun _ => true).

Definition env_store_down : Env :=
  mkEnv "2024-01-15T10:30:00.000Z" false Null None false true
        (fun _ => true) (fun _ => "0b5e.png") (fun n => bucket ++ n)
        None None (fun _ => true).

(** As [env], but the blob store refuses to remove anything. *)
Definition env_no_remove : Env :=
  mkEnv "2024-01-15T10:30:00.000Z" true (Arr []) None false true
        (fun _ => false) (fun _ => "0b5e.png") (fun n => bucket ++ n)
        None None (fun _ => true).

Definition empty : World := mkWorld [] [] [] [] 1 [].

Definition first_page : ListQuery := mkListQuery (Some 1) (Some 10).

Definition png : File := mkFile "image" "photo.png" "image/png" 2048.
Definition pdf : File := mkFile "image" "cv.pdf" "application/pdf" 2048.
Definition huge : File := mkFile "image" "big.png" "image/png" (10 * 1024 * 1024 + 1).

(** One project that already has an image in the blob store. *)
Definition site : Project :=
  mkProject 7 "Site" "A portfolio site" [] None None (Some (bucket ++ "old.png")).

Definition with_image : World := mkWorld [site] [] [] ["old.png"] 8 [].

Definition new_picture : Req ProjectUpdateBody :=
  mkReq 7 (mkProjectUpdateBody None None None None None) [png] (Some png) true [].

(** Create bodies that break the field constraints. *)
Definition bad_project : Req ProjectCreateBody :=
  mkReq 0 (mkProjectCreateBody "" "short" None None None) [] None false [].

Definition bad_journey : Req JourneyCreateBody :=
  mkReq 0 (mkJourneyCreateBody "" "Acme" (DInstant 0) DUndefined "short" "Experience")
        [] None false [].

Definition good_project (name : string) (f : option File) : Req ProjectCreateBody :=
  mkReq 0 (mkProjectCreateBody name "A portfolio site" None None None)
        (match f with Some x => [x] | None => [] end) f false [].

(** Two certifications of one issuer, two journey items of one company. *)
Definition aws : Certification := mkCertification 1 "AWS" "Amazon" 19000 None None None.
Definition gcp : Certification := mkCertification 2 "GCP" "Amazon" 19100 None None None.
Definition engineer : JourneyItem :=
  mkJourneyItem 1 "Engineer" "Acme" 19000 None "Builds the product" "Experience".
Definition intern : JourneyItem :=
  mkJourneyItem 2 "Intern" "Acme" 18000 (Some 18500) "Summer internship" "Experience".

Definition records : World := mkWorld [] [aws; gcp] [engineer; intern] [] 3 [].

(** A partial update that sends the title only. *)
Definition retitle_certification : Req CertificationUpdateBody :=
  mkReq 2 (mkCertificationUpdateBody (Some "AWS") None DUndefined None None None)
        [] None true [].

Definition retitle_journey : Req JourneyUpdateBody :=
  mkReq 2 (mkJourneyUpdateBody (Some "Engineer") None DUndefined DUndefined None None)
        [] None true [].

Definition day (n : Z) : DateInput := DInstant (n * ms_per_day).

Definition new_job (finish : DateInput) : Req JourneyCreateBody :=
  mkReq 0 (mkJourneyCreateBody "Lead" "Acme" (day 19500) finish
             "Leads the platform team" "Experience")
        [] None false [].

Definition new_end (finish : DateInput) : Req JourneyUpdateBody :=
  mkReq 2 (mkJourneyUpdateBody None None DUndefined finish None None) [] None true [].

End Scenario.

(* ================================================================== *)
(** ** The window a list controller asks the store for *)
(* ================================================================== *)

(** The query string as express hands it over: texts. *)
Record ListQueryText := mkListQueryText {
  qt_page : option string;
  qt_limit : option string
}.

Definition digit (c : ascii) : option Z :=
  let n := Z.of_nat (nat_of_ascii c) in
  if (48 <=? n) && (n <=? 57) then Some (n - 48) else None.

(** [Number(text)] for a text of decimal digits, read from the left.
    [None]: the text has another form, which is outside the model. *)
Fixpoint number_of_digits (acc : Z) (s : string) : option Z :=
  match s with
  | EmptyString => Some acc
  | String c rest =>
      match digit c with
      | Some d => number_of_digits (10 * acc + d) rest
      | None => None
      end
  end.

Definition ToNumber (s : string) : option Z := number_of_digits 0 s.

Definition digit_char (d : Z) : ascii := ascii_of_nat (Z.to_nat (48 + d)).

(** The decimal digits of [n], most significant first, in front of
    [suffix]; [fuel] bounds the number of digits. *)
Fixpoint digits_of (fuel : nat) (n : Z) (suffix : string) : string :=
  match fuel with
  | O => suffix
  | S fuel' =>
      let text := String (digit_char (n mod 10)) suffix in
      if n / 10 =? 0 then text else digits_of fuel' (n / 10) text
  end.

(** [String(n)] for an integer [0 <= n]. *)
Definition String_of_number (n : Z) : string := digits_of (S (Z.to_nat n)) n "".

(** The arguments of [query.range(offset, offset + limit - 1)] with
    [offset = (page - 1) * limit], for [page] and [limit] taken from the
    query ([page = 1], [limit = 10] when absent).  [-] and [*] convert
    their operands to numbers; [offset + limit] adds two numbers when
    [limit] is the default, and appends the text of [limit] to the text
    of [offset] when [limit] comes from the query. [None]: a parameter
    is no digit text, or the offset is negative (outside the model). *)
Definition range_args (q : ListQueryText) : option (Z * Z) :=
  match match qt_page q with Some t => ToNumber t | None => Some 1 end,
        match qt_limit q with Some t => ToNumber t | None => Some 10 end with
  | Some page, Some limit =>
      let offset := (page - 1) * limit in
      if offset <? 0 then None
      else
        match qt_limit q with
        | None => Some (offset, offset + 10 - 1)
        | Some t =>
            option_map (fun joined => (offset, joined - 1))
                       (ToNumber (String_of_number offset ++ t))
        end
  | _, _ => None
  end.

(* ================================================================== *)
(** ** Further observations *)
(* ================================================================== *)

Fixpoint contains (c : ascii) (s : string) : bool :=
  match s with
  | EmptyString => false
  | String c' rest => Ascii.eqb c' c || contains c rest
  end.

Definition is_blob_call (e : Event) : bool :=
  match e with
  | BlobUpload _ _ | BlobRemove _ _ => true
  | _ => false
  end.

Definition no_blob_call (events : list Event) : Prop :=
  Forall (fun e => is_blob_call e = false) events.

(** The body repeats the HTTP status, and [success] tells its class. *)
Definition coherent (r : Response) : Prop :=
  get "statusCode" (payload r) = Num (status r)
  /\ get "success" (envelope r) = Bool (status r <? 400).

(** Every stored id lies below the next id the store hands out. *)
Definition ids_below_next (w : World) : Prop :=
  (forall p, In p (projects w) -> p_id p < next_id w)
  /\ (forall c, In c (certifications w) -> c_id c < next_id w)
  /\ (forall j, In j (journey_items w) -> j_id j < next_id w).

Definition certification_key (c : Certification) : string * string :=
  (c_title c, c_issuer c).

Definition journey_key (j : JourneyItem) : string * string :=
  (j_title j, j_company_name j).

Definition with_id {B : Type} (req : Req B) (id : Z) : Req unit :=
  mkReq id tt [] None (authenticated req) [].

(** The file parts the upload middleware can let through: none, or one
    part of an accepted type that is not longer than the ceiling. *)
Definition at_most_one_allowed_file (env : Env) (parts : list File) : Prop :=
  parts = []
  \/ exists f : File,
       parts = [f] /\ fileFilter env f = true /\ size f <= fileSize_limit env.

(** No row of [rows] has the id. *)
Definition unknown {R : Type} (id_of : R -> Z) (id : Z) (rows : list R) : Prop :=
  forall r : R, In r rows -> id_of r <> id.

(** The run made one lookup on [table] and nothing else. *)
Definition only_select (table : string) (before after : World) : Prop :=
  added before after [DbSelect table]
  /\ same_tables before after
  /\ blobs after = blobs before.

(* ================================================================== *)
(** * Properties *)
(* ================================================================== *)

(** ** Response envelope *)

Lemma wrap_keys (s : Z) (response : list (string * value)) :
  keys (wrap s response) = ["statusCode"; "json"].
Proof. reflexivity. Qed.

Lemma wrap_not_top_level (s : Z) (response : list (string * value)) :
  top_level_envelope (wrap s response) = false.
Proof. reflexivity. Qed.

Lemma sendError_envelope (t message : string) (s : Z) (errors : value) :
  top_level_envelope (sendError t message s errors) = false
  /\ top_level_envelope (get "json" (sendError t message s errors)) = true
  /\ get "success" (get "json" (sendError t message s errors)) = Bool false.
Proof.
  unfold sendError.
  destruct (truthy match errors with Undefined => Null | _ => errors end);
    repeat split; reflexivity.
Qed.

Lemma sendSuccess_envelope (t : string) (data : value) (message : string) (s : Z) :
  top_level_envelope (sendSuccess t data message s) = false
  /\ top_level_envelope (get "json" (sendSuccess t data message s)) = true.
Proof. unfold sendSuccess. destruct data; split; reflexivity. Qed.

(** C1 (as the code behaves): whatever the store answers, the object
    [getAllProjects] passes to [res.json] has exactly the keys
    [statusCode] and [json]; it has no [success], [message] or
    [timestamp] of its own, the envelope is the value of its [json] key.
    The README documents the envelope at the top of the body. *)
Theorem C1_envelope_is_nested_under_json (env : Env) (q : ListQuery) (w : World) :
  let sent := payload (fst (getAllProjects env q w)) in
  keys sent = ["statusCode"; "json"]
  /\ top_level_envelope sent = false
  /\ get "success" sent = Undefined
  /\ top_level_envelope (get "json" sent) = true.
Proof.
  unfold getAllProjects, list_controller, bind, log, res_status_json, res_json, ret.
  destruct (db_select_ok env); cbn; repeat split; reflexivity.
Qed.

(** ** Pagination *)

Lemma Math_ceil_div_is_ceil (total limit : Z) :
  0 < limit -> is_ceil total limit (Math_ceil_div total limit).
Proof.
  intros Hlimit. unfold is_ceil, Math_ceil_div.
  pose proof (Z.div_mod total limit) as Hdiv.
  pose proof (Z.mod_pos_bound total limit Hlimit) as Hmod.
  destruct (total mod limit =? 0) eqn:Hrem.
  - apply Z.eqb_eq in Hrem. nia.
  - apply Z.eqb_neq in Hrem. nia.
Qed.

Lemma is_ceil_unique (total limit p p' : Z) :
  0 < limit -> is_ceil total limit p -> is_ceil total limit p' -> p = p'.
Proof. unfold is_ceil. intros. nia. Qed.

Lemma ceil_of_positive (total limit p : Z) :
  0 < limit -> 1 <= total -> is_ceil total limit p -> 1 <= p.
Proof. unfold is_ceil. intros. nia. Qed.


Lemma or_Num_positive (n : Z) (d : value) : 1 <= n -> or (Num n) d = Num n.
Proof.
  intros Hn. unfold or, truthy.
  destruct (n =? 0) eqn:Hz; [apply Z.eqb_eq in Hz; lia | reflexivity].
Qed.

Lemma or_Bool_false (b : bool) : or (Bool b) (Bool false) = Bool b.
Proof. destruct b; reflexivity. Qed.

(** What a list controller sends when the store answers. *)
Lemma list_controller_answer (view failure success : string) (env : Env)
    (q : ListQuery) (w : World) :
  db_select_ok env = true ->
  fst (list_controller view failure success env q w)
  = mkResponse 200
      (sendPaginatedResponse (now env) (or (page_rows env) (Arr []))
         (listPagination (default (q_page q) 1) (default (q_limit q) 10) (match_count env))
         success).
Proof.
  intros Hok. unfold list_controller, bind, log, res_json, ret. rewrite Hok. reflexivity.
Qed.

Lemma searchProjects_answer (env : Env) (query : string) (q : ListQuery) (w : World) :
  db_select_ok env = true ->
  fst (searchProjects env query q w)
  = mkResponse 200
      (sendSearchResponse (now env) (or (page_rows env) (Arr []))
         (Obj [("query", Str query)])
         (listPagination (default (q_page q) 1) (default (q_limit q) 10) (match_count env))).
Proof.
  intros Hok. unfold searchProjects, bind, log, res_json, ret. rewrite Hok. reflexivity.
Qed.

(** The controllers' inline block computes what [calculatePagination] does. *)
Lemma listPagination_calculatePagination (page limit : Z) (count : option Z) :
  listPagination page limit count = calculatePagination page limit (default count 0).
Proof. reflexivity. Qed.

(** C6 (amended): a list response over [total >= 1] matching items with
    page size [limit >= 1] reports [pages = ceil(total / limit)],
    [hasNext = (page < pages)] and [hasPrev = (page > 1)], the values
    [calculatePagination] computes; a search response reports the same
    [pages].  For total = 25 and limit = 10, page 1 gives pages = 3,
    hasNext = true, hasPrev = false, and page 3 gives hasNext = false,
    hasPrev = true. *)
Theorem C6_pagination_of_nonempty_lists
    (view failure success query : string) (env : Env) (q : ListQuery) (w : World) :
  let page := default (q_page q) 1 in
  let limit := default (q_limit q) 10 in
  let total := default (match_count env) 0 in
  let listed := fst (list_controller view failure success env q w) in
  let found := fst (searchProjects env query q w) in
  db_select_ok env = true -> 0 < limit -> 1 <= total ->
  (exists pages : Z,
      is_ceil total limit pages
      /\ get "pages" (calculatePagination page limit total) = Num pages
      /\ get "hasNext" (calculatePagination page limit total) = Bool (page <? pages)
      /\ get "hasPrev" (calculatePagination page limit total) = Bool (page >? 1)
      /\ reported "pages" listed = Num pages
      /\ reported "hasNext" listed = Bool (page <? pages)
      /\ reported "hasPrev" listed = Bool (page >? 1)
      /\ reported "pages" found = Num pages)
  /\ (let first := fst (getAllProjects (Scenario.env (Some 25) true)
                          (mkListQuery (Some 1) (Some 10)) Scenario.empty) in
      reported "pages" first = Num 3
      /\ reported "hasNext" first = Bool true
      /\ reported "hasPrev" first = Bool false)
  /\ (let third := fst (getAllProjects (Scenario.env (Some 25) true)
                          (mkListQuery (Some 3) (Some 10)) Scenario.empty) in
      reported "hasNext" third = Bool false
      /\ reported "hasPrev" third = Bool true).
Proof.
  intros page limit total listed found Hstore Hlimit Htotal.
  split; [| split; repeat split; reflexivity].
  exists (Math_ceil_div total limit).
  pose proof (Math_ceil_div_is_ceil total limit Hlimit) as Hceil.
  pose proof (ceil_of_positive _ _ _ Hlimit Htotal Hceil) as Hpos.
  subst listed found.
  rewrite list_controller_answer, searchProjects_answer by assumption.
  unfold reported, envelope, sendPaginatedResponse, sendSearchResponse, wrap,
    listPagination, calculatePagination.
  fold page limit total. cbn.
  rewrite !(or_Num_positive _ _ Hpos), !or_Bool_false.
  repeat split; try reflexivity; apply Hceil.
Qed.

Lemma C6_pagination_of_nonempty_lists_witness :
  let env := Scenario.env (Some 25) true in
  let q := mkListQuery (Some 2) (Some 10) in
  exists pages : Z,
    is_ceil 25 10 pages
    /\ reported "pages" (fst (getAllProjects env q Scenario.empty)) = Num pages.
Proof.
  intros env q.
  destruct (C6_pagination_of_nonempty_lists
              "projects_view" "Failed to fetch projects" "Projects retrieved successfully"
              "" env q Scenario.empty) as [[pages [Hceil [_ [_ [_ [Hpages _]]]]]] _].
  - reflexivity.
  - reflexivity.
  - discriminate.
  - exists pages. split; [exact Hceil | exact Hpages].
Defined.

(** C6 as stated fails when nothing matches: the response reports one
    page, and the ceiling of 0 / 10 is 0. *)
Lemma C6_counterexample_empty_list :
  ~ (forall pages : Z,
       is_ceil 0 10 pages ->
       reported "pages"
         (fst (getAllProjects (Scenario.env (Some 0) true) Scenario.first_page Scenario.empty))
       = Num pages).
Proof.
  intros H. specialize (H 0). cbn in H.
  assert (Hzero : is_ceil 0 10 0) by (unfold is_ceil; lia).
  specialize (H Hzero). discriminate H.
Qed.



(** ** Image replacement in [updateProject] *)

(** C2 (as the code behaves): a project with a stored image receives a
    new picture.  The old image is removed from the blob store right
    after the upload, before the record is updated: with a failing update
    the old image is gone although the record still points to it, and
    with a successful update the removal still precedes the update. *)
Theorem C2_old_image_removed_before_the_update :
  let failed := updateProject (Scenario.env None false) Scenario.new_picture Scenario.with_image in
  let passed := updateProject (Scenario.env None true) Scenario.new_picture Scenario.with_image in
  (status (fst failed) = 500
   /\ trace (snd failed)
      = [DbSelect "projects"; BlobUpload "0b5e.png" true; BlobRemove "old.png" true;
         DbUpdate "projects" 7 false; BlobRemove "0b5e.png" true]
   /\ blobs (snd failed) = []
   /\ projects (snd failed) = [Scenario.site])
  /\ (status (fst passed) = 200
      /\ trace (snd passed)
         = [DbSelect "projects"; BlobUpload "0b5e.png" true; BlobRemove "old.png" true;
            DbUpdate "projects" 7 true]).
Proof. vm_compute. repeat split; reflexivity. Qed.

(** ** Validation on the create routes *)

(** C3 (as the code behaves): POST /api/projects and POST /api/journey
    run no validation chain.  A project with an empty name and five
    characters of details, and a journey item with an empty title and
    the same details, are looked up, inserted and answered with 201,
    although the create rules declared in the route files name the
    violated fields. *)
Theorem C3_create_routes_run_no_validation :
  let env := Scenario.env None true in
  let project := run_route env ProjectRoutes.post_root None Scenario.bad_project Scenario.empty in
  let journey := run_route env JourneyRoutes.post_root None Scenario.bad_journey Scenario.empty in
  (option_map status (fst project) = Some 201
   /\ trace (snd project) = [DbSelect "projects"; DbInsert "projects" true]
   /\ projects (snd project) = [mkProject 1 "" "short" [] None None None]
   /\ recorded (fst (ProjectRoutes.createProjectValidation env Scenario.bad_project Scenario.empty))
      = [("name", "Project name is required");
         ("details", "Project details must be at least 10 characters long")])
  /\ (option_map status (fst journey) = Some 201
      /\ trace (snd journey) = [DbSelect "journey_items"; DbInsert "journey_items" true]
      /\ journey_items (snd journey) = [mkJourneyItem 1 "" "Acme" 0 None "short" "Experience"]
      /\ recorded (fst (JourneyRoutes.createJourneyValidation env Scenario.bad_journey Scenario.empty))
         = [("title", "Title is required");
            ("details", "Details must be at least 10 characters long")]).
Proof. vm_compute. repeat split; reflexivity. Qed.

(** ** Duplicate check on partial updates *)

(** C5 (as the code behaves): an update that sends only the title skips
    the duplicate check ([title && issuer] and [title && company_name]
    are false).  Renaming certification 2 to the title of certification
    1 of the same issuer, and journey item 2 to the title of item 1 of
    the same company, pass the whole PUT route, are written and
    answered with 200: two rows then carry one natural key. *)
Theorem C5_title_only_update_skips_the_duplicate_check :
  let env := Scenario.env None true in
  let certification :=
    run_route env CertificationRoutes.put_id None Scenario.retitle_certification Scenario.records in
  let journey :=
    run_route env JourneyRoutes.put_id None Scenario.retitle_journey Scenario.records in
  (option_map status (fst certification) = Some 200
   /\ trace (snd certification)
      = [DbSelect "certifications"; DbUpdate "certifications" 2 true]
   /\ certifications (snd certification)
      = [Scenario.aws; mkCertification 2 "AWS" "Amazon" 19100 None None None])
  /\ (option_map status (fst journey) = Some 200
      /\ trace (snd journey)
         = [DbSelect "journey_items"; DbUpdate "journey_items" 2 true]
      /\ journey_items (snd journey)
         = [Scenario.engineer;
            mkJourneyItem 2 "Engineer" "Acme" 18000 (Some 18500) "Summer internship" "Experience"]).
Proof. vm_compute. repeat split; reflexivity. Qed.

(** ** Duplicate check of [createProject] *)

Ltac run :=
  unfold select_single, insert_project, update_project, insert_journey_item,
    update_journey_item, update_certification, uploadToSupabaseStorage,
    cleanup_image, deleteFromSupabaseStorage, res_status_json, res_json,
    bind, ret, log, read, fresh_id, set_projects, set_blobs, set_journey_items,
    set_certifications;
  cbn -[sendSuccess sendError extractFilenameFromUrl Text.truthy Text.trim patch_rows].

(** Case analysis on every test the run still branches on. *)
Ltac branches :=
  repeat match goal with
         | |- context [if ?c then _ else _] => destruct c eqn:?; run
         | |- context [match ?c with Some _ => _ | None => _ end] => destruct c eqn:?; run
         end.

Lemma message_of_sendError (t message : string) (s c : Z) (errors : value) :
  message_of (mkResponse c (sendError t message s errors)) = Str message.
Proof.
  unfold message_of, envelope, sendError. cbn.
  destruct (truthy match errors with Undefined => Null | _ => errors end); reflexivity.
Qed.

Lemma message_of_sendSuccess (t message : string) (s c : Z) (data : value) :
  message_of (mkResponse c (sendSuccess t data message s)) = Str message.
Proof. unfold message_of, envelope, sendSuccess. destruct data; reflexivity. Qed.

Lemma filter_none {R : Type} (keep : R -> bool) (rows : list R) :
  (forall r, In r rows -> keep r = false) -> filter keep rows = [].
Proof.
  induction rows as [| r rows IH]; intros Hnone; [reflexivity |].
  cbn. rewrite (Hnone r (or_introl eq_refl)).
  apply IH. intros r' Hin. apply Hnone. right. exact Hin.
Qed.

(** With unique names, the rows named like [p] are [p] alone. *)
Lemma unique_name_single (rows : list Project) (p : Project) :
  NoDup (map p_name rows) -> In p rows ->
  filter (fun r => (p_name r =? p_name p)%string) rows = [p].
Proof.
  induction rows as [| r rows IH]; intros Hnodup Hin; [destruct Hin |].
  cbn in Hnodup. inversion Hnodup as [| x l Hfresh Hrest]; subst.
  cbn. destruct Hin as [Heq | Hin].
  - subst r. rewrite String.eqb_refl. f_equal.
    apply filter_none. intros r' Hin'.
    apply String.eqb_neq. intros Hname.
    apply Hfresh. rewrite <- Hname. apply in_map. exact Hin'.
  - destruct (String.eqb_spec (p_name r) (p_name p)) as [Hname | Hname].
    + exfalso. apply Hfresh. rewrite Hname. apply in_map. exact Hin.
    + apply IH; assumption.
Qed.

Lemma createProject_conflict (env : Env) (req : Req ProjectCreateBody) (w : World)
    (p : Project) :
  db_select_ok env = true ->
  NoDup (map p_name (projects w)) ->
  In p (projects w) -> p_name p = pc_name (body req) ->
  fst (createProject env req w) = conflict_answer env
  /\ added w (snd (createProject env req w)) [DbSelect "projects"]
  /\ same_tables w (snd (createProject env req w))
  /\ blobs (snd (createProject env req w)) = blobs w.
Proof.
  intros Hstore Hunique Hin Hname.
  unfold createProject. run. rewrite Hstore, <- Hname.
  rewrite (unique_name_single _ p Hunique Hin). cbn.
  unfold added, same_tables. cbn. repeat split; reflexivity.
Qed.

Lemma createProject_no_false_conflict (env : Env) (req : Req ProjectCreateBody) (w : World) :
  (forall p : Project, In p (projects w) -> p_name p <> pc_name (body req)) ->
  message_of (fst (createProject env req w)) <> Str "Project with this name already exists".
Proof.
  intros Hfresh.
  unfold createProject. run.
  rewrite filter_none
    by (intros r Hin; apply String.eqb_neq; apply Hfresh; exact Hin).
  replace (if db_select_ok env then single [] else None) with (@None Project)
    by (destruct (db_select_ok env); reflexivity).
  destruct (file req) as [f |]; run; branches;
    rewrite ?message_of_sendSuccess, ?message_of_sendError; discriminate.
Qed.

Lemma unique_name_lookup (rows : list Project) (name : string) :
  NoDup (map p_name rows) ->
  single (filter (fun r => (p_name r =? name)%string) rows) = None ->
  forall p, In p rows -> p_name p <> name.
Proof.
  intros Hunique Hnone p Hin Hname. subst name.
  rewrite (unique_name_single rows p Hunique Hin) in Hnone. discriminate.
Qed.

(** A 201 of [createProject] means the lookup found no row and one row
    with the requested name was appended. *)
Lemma createProject_created (env : Env) (req : Req ProjectCreateBody) (w : World) :
  db_select_ok env = true ->
  status (fst (createProject env req w)) = 201 ->
  single (filter (fun r => (p_name r =? pc_name (body req))%string) (projects w)) = None
  /\ exists row : Project,
       p_name row = pc_name (body req)
       /\ projects (snd (createProject env req w)) = (projects w ++ [row])%list.
Proof.
  intros Hstore. unfold createProject. run. rewrite Hstore.
  destruct (single _) eqn:Hlookup; run; [discriminate |].
  destruct (file req); run; branches; try discriminate;
    intros _; (split; [reflexivity |]); eexists; (split; [| reflexivity]); reflexivity.
Qed.

(** While the store answers its lookups, [createProject] keeps the names
    of the table unique. *)
Lemma createProject_keeps_names_unique (env : Env) (req : Req ProjectCreateBody) (w : World) :
  db_select_ok env = true ->
  NoDup (map p_name (projects w)) ->
  NoDup (map p_name (projects (snd (createProject env req w)))).
Proof.
  intros Hstore Hunique.
  assert (Hcases :
    projects (snd (createProject env req w)) = projects w
    \/ status (fst (createProject env req w)) = 201).
  { unfold createProject. run. branches; destruct (file req); run; branches; auto. }
  destruct Hcases as [Hsame | Hcreated]; [rewrite Hsame; exact Hunique |].
  destruct (createProject_created env req w Hstore Hcreated) as [Hnone [row [Hname Hrows]]].
  rewrite Hrows, map_app. apply NoDup_app; [exact Hunique | |].
  - cbn. constructor; [intros [] | constructor].
  - intros name Hin [Hrow | []]. cbn in Hrow. subst name.
    apply in_map_iff in Hin. destruct Hin as [p [Hp Hin]].
    apply (unique_name_lookup _ _ Hunique Hnone p Hin). congruence.
Qed.

(** C7: on a projects table whose names are unique (the data model's
    invariant), creating a project with the name of an existing project
    answers 400 'Project with this name already exists' after the lookup
    alone: no upload, no insert, no table or blob changes.  A name that
    no existing project carries never gets that answer.  In particular,
    after a project has been created (201), creating a second one with
    the same name is a conflict. *)
Theorem C7_duplicate_project_name_is_a_conflict
    (env : Env) (req : Req ProjectCreateBody) (w : World) :
  let run := createProject env req w in
  db_select_ok env = true ->
  NoDup (map p_name (projects w)) ->
  (forall p : Project,
      In p (projects w) -> p_name p = pc_name (body req) ->
      fst run = conflict_answer env
      /\ added w (snd run) [DbSelect "projects"]
      /\ same_tables w (snd run)
      /\ blobs (snd run) = blobs w)
  /\ ((forall p : Project, In p (projects w) -> p_name p <> pc_name (body req)) ->
      message_of (fst run) <> Str "Project with this name already exists")
  /\ (forall (env' : Env) (again : Req ProjectCreateBody),
      db_select_ok env' = true ->
      status (fst run) = 201 ->
      pc_name (body again) = pc_name (body req) ->
      fst (createProject env' again (snd run)) = conflict_answer env'
      /\ added (snd run) (snd (createProject env' again (snd run))) [DbSelect "projects"]
      /\ same_tables (snd run) (snd (createProject env' again (snd run)))).
Proof.
  intros run Hstore Hunique. subst run.
  split; [| split].
  - intros p Hin Hname. exact (createProject_conflict env req w p Hstore Hunique Hin Hname).
  - exact (createProject_no_false_conflict env req w).
  - intros env' again Hstore' Hcreated Hsame.
    destruct (createProject_created env req w Hstore Hcreated) as [_ [row [Hname Hrows]]].
    pose proof (createProject_keeps_names_unique env req w Hstore Hunique) as Hunique'.
    destruct (createProject_conflict env' again (snd (createProject env req w)) row
                Hstore' Hunique') as [Hanswer [Hadded [Htables _]]].
    + rewrite Hrows. apply in_or_app. right. left. reflexivity.
    + congruence.
    + split; [exact Hanswer | split; [exact Hadded | exact Htables]].
Qed.

Lemma C7_duplicate_project_name_is_a_conflict_witness :
  status (fst (createProject (Scenario.env None true) (Scenario.good_project "Site" None)
                 Scenario.with_image)) = 400.
Proof.
  destruct (C7_duplicate_project_name_is_a_conflict
              (Scenario.env None true) (Scenario.good_project "Site" None) Scenario.with_image)
    as [Hduplicate _].
  - reflexivity.
  - cbn. constructor; [intros [] | constructor].
  - destruct (Hduplicate Scenario.site) as [Hanswer _];
      [left; reflexivity | reflexivity |].
    rewrite Hanswer. reflexivity.
Defined.

(** Outside the invariant: when two rows already carry the name,
    [.single()] yields no row, the check passes and a third row is
    inserted. *)
Lemma createProject_with_two_namesakes :
  let w := mkWorld [Scenario.site; mkProject 8 "Site" "Another site" [] None None None]
                   [] [] [] 9 [] in
  let run := createProject (Scenario.env None true) (Scenario.good_project "Site" None) w in
  status (fst run) = 201 /\ List.length (projects (snd run)) = 3%nat.
Proof. vm_compute. split; reflexivity. Qed.

(** ** Compensation after a failed insert or update *)

Lemma ends_with_refl (l : list Event) : ends_with l l.
Proof. exists []. reflexivity. Qed.

Lemma ends_with_cons (e : Event) (l s : list Event) : ends_with l s -> ends_with (e :: l) s.
Proof. intros [earlier ->]. exists (e :: earlier). reflexivity. Qed.

Lemma not_in_removed (name : string) (l : list string) :
  ~ In name (filter (fun n => negb (n =? name)%string) l).
Proof.
  intros Hin. apply filter_In in Hin. destruct Hin as [_ Hne].
  rewrite String.eqb_refl in Hne. discriminate.
Qed.

Ltac ends :=
  repeat first [apply ends_with_refl | apply ends_with_cons].

(** C4: in [createProject] and [updateProject], when the upload
    succeeded and the insert or update then fails, the handler tries to
    remove the file it has just uploaded (the name the upload generated,
    recovered from the public URL), whatever that removal returns, and
    answers 500 'Failed to create project' / 'Failed to update project'
    without error details; no table changes, and the file is gone when
    the removal succeeds. *)
Theorem C4_failed_persistence_removes_the_new_image
    (env : Env) (w : World) (f : File)
    (create : Req ProjectCreateBody) (update : Req ProjectUpdateBody) (existing : Project) :
  let name := generated_name env (originalname f) in
  let removal := BlobRemove name (storage_remove_ok env name) in
  let created := createProject env create w in
  let updated := updateProject env update w in
  storage_upload_ok env = true -> db_write_ok env = false -> db_select_ok env = true ->
  extractFilenameFromUrl (getPublicUrl env name) = name -> name <> "" ->
  file create = Some f -> file update = Some f ->
  single (filter (fun p => (p_name p =? pc_name (body create))%string) (projects w)) = None ->
  single (filter (fun p => p_id p =? params_id update) (projects w)) = Some existing ->
  (forall n : string,
      pu_name (body update) = Some n ->
      single (filter (fun p => (p_name p =? n)%string && negb (p_id p =? params_id update))
                (projects w)) = None) ->
  (fst created
   = mkResponse 500 (sendError (now env) "Failed to create project" 500 Undefined)
   /\ added w (snd created)
        [DbSelect "projects"; BlobUpload name true; DbInsert "projects" false; removal]
   /\ same_tables w (snd created)
   /\ (storage_remove_ok env name = true -> ~ In name (blobs (snd created))))
  /\ (fst updated
      = mkResponse 500 (sendError (now env) "Failed to update project" 500 Undefined)
      /\ (exists events : list Event,
             added w (snd updated) events
             /\ In (BlobUpload name true) events
             /\ ends_with events [DbUpdate "projects" (params_id update) false; removal])
      /\ same_tables w (snd updated)
      /\ (storage_remove_ok env name = true -> ~ In name (blobs (snd updated)))).
Proof.
  intros name removal created updated Hupload Hwrite Hselect Hurl Hname Hcreate Hupdate
    Hfresh Hfound Hnoconflict.
  assert (Htruthy : Text.truthy name = true).
  { unfold Text.truthy. destruct (String.eqb_spec name ""); [contradiction | reflexivity]. }
  assert (Hurl_truthy : Text.truthy (getPublicUrl env name) = true).
  { unfold Text.truthy.
    destruct (String.eqb_spec (getPublicUrl env name) "") as [Hempty |]; [| reflexivity].
    rewrite Hempty in Hurl. cbn in Hurl. congruence. }
  subst created updated removal name. split.
  - unfold createProject. run.
    rewrite Hselect, Hfresh, Hcreate. run. rewrite Hupload. run. rewrite Hwrite. run.
    rewrite Hurl_truthy. run. rewrite Hurl, Htruthy. run.
    unfold added, same_tables.
    destruct (storage_remove_ok env _) eqn:Hremove; run;
      rewrite <- !app_assoc; cbn; repeat split; try reflexivity;
      [intros _; apply not_in_removed | discriminate].
  - unfold updateProject. run.
    rewrite Hselect, Hfound, Hupdate, Hupload, Hwrite.
    assert (Hlookup :
      forall n : string,
        pu_name (body update) = Some n ->
        (if Text.truthy n && negb (n =? p_name existing)%string
         then single (filter (fun p => (p_name p =? n)%string && negb (p_id p =? params_id update))
                        (projects w))
         else None) = None).
    { intros n Hn. rewrite (Hnoconflict n Hn). destruct (_ && _); reflexivity. }
    destruct (pu_name (body update)) as [n |] eqn:Hn;
      [specialize (Hlookup n eq_refl);
       destruct (Text.truthy n && negb (n =? p_name existing)%string); run;
       rewrite ?Hlookup |]; run; branches; try congruence;
      rewrite ?Hurl in *;
      repeat match goal with
             | H : storage_remove_ok env _ = _ |- _ => rewrite ?H; clear H
             end;
      (split; [reflexivity |]);
      (split; [eexists; split;
                 [unfold added; cbn; rewrite <- !app_assoc; cbn; reflexivity
                 | split; [cbn; tauto | ends]] |]);
      (split; [unfold same_tables; cbn; repeat split; reflexivity |]);
      cbn; intros; try discriminate; apply not_in_removed.
Qed.

Lemma C4_failed_persistence_removes_the_new_image_witness :
  status (fst (createProject (Scenario.env None false)
                 (Scenario.good_project "Blog" (Some Scenario.png)) Scenario.with_image)) = 500
  /\ status (fst (updateProject (Scenario.env None false) Scenario.new_picture
                    Scenario.with_image)) = 500.
Proof.
  destruct (C4_failed_persistence_removes_the_new_image
              (Scenario.env None false) Scenario.with_image Scenario.png
              (Scenario.good_project "Blog" (Some Scenario.png)) Scenario.new_picture
              Scenario.site)
    as [[Hcreated _] [Hupdated _]];
    try reflexivity; try discriminate.
  rewrite Hcreated, Hupdated. split; reflexivity.
Defined.

(** ** Files the upload middleware refuses *)

Lemma multer_refuses (env : Env) (f : File) (parts : list File) (accepted : nat) :
  refused env f -> In f parts -> multer_any env accepted parts <> None.
Proof.
  intros Hrefused. revert accepted.
  induction parts as [| g parts IH]; intros accepted Hin; [destruct Hin |].
  cbn. destruct accepted; [| discriminate].
  destruct Hin as [Heq | Hin].
  - subst g. destruct Hrefused as [Hfilter | Hsize].
    + rewrite Hfilter. discriminate.
    + destruct (fileFilter env f); [| discriminate]. cbn.
      apply Z.ltb_lt in Hsize. rewrite Hsize. discriminate.
  - destruct (negb (fileFilter env g)); [discriminate |].
    destruct (fileSize_limit env <? size g); [discriminate |].
    apply IH. exact Hin.
Qed.

Lemma handleUploadError_400 {B : Type} (env : Env) (e : UploadError) (req : Req B) (w : World) :
  exists r : Response, handleUploadError env e req w = (Sent r, w) /\ status r = 400.
Proof. destruct e; eexists; split; reflexivity. Qed.

(** C8: a request that carries a file whose MIME type is not in the
    allow-list, or whose size exceeds the ceiling, is answered 400 by
    every route that stores images (401 when the route's auth gate
    refuses first) and leaves the world untouched: no blob-store call,
    no store call, no row.  Without configuration the allow-list is
    jpeg, png, gif and webp, so application/pdf is refused, and the
    ceiling is 10 MiB. *)
Theorem C8_refused_file_reaches_no_store
    (env : Env) (w : World) (f : File)
    (create : Req ProjectCreateBody) (upload : Req unit) (update : Req ProjectUpdateBody) :
  refused env f ->
  In f (files create) -> In f (files upload) -> In f (files update) ->
  rejected env ProjectRoutes.post_root create w 400
  /\ rejected env ProjectRoutes.post_upload_image upload w
       (if authenticated upload then 400 else 401)
  /\ rejected env ProjectRoutes.put_id update w
       (if authenticated update then 400 else 401)
  /\ (ALLOWED_IMAGE_TYPES env = None ->
      allowedTypes env = ["image/jpeg"; "image/png"; "image/gif"; "image/webp"]
      /\ forall g : File, mimetype g = "application/pdf" -> refused env g)
  /\ (MAX_FILE_SIZE env = None -> fileSize_limit env = 10 * 1024 * 1024).
Proof.
  intros Hrefused Hcreate Hupload Hupdate.
  split; [| split; [| split; [| split]]].
  - unfold rejected, ProjectRoutes.post_root. cbn.
    unfold uploadProjectImageMiddleware, bind, ret.
    pose proof (multer_refuses env f _ 0 Hrefused Hcreate) as Herr.
    destruct (multer_any env 0 (files create)) as [e |]; [| contradiction].
    destruct (handleUploadError_400 env e create w) as [r [Hrun Hstatus]].
    rewrite Hrun. exists r. split; [reflexivity | exact Hstatus].
  - unfold rejected, ProjectRoutes.post_upload_image. cbn.
    unfold authenticate, uploadProjectImageMiddleware, bind, ret.
    destruct (authenticated upload); [| eexists; split; reflexivity].
    pose proof (multer_refuses env f _ 0 Hrefused Hupload) as Herr.
    destruct (multer_any env 0 (files upload)) as [e |]; [| contradiction].
    destruct (handleUploadError_400 env e upload w) as [r [Hrun Hstatus]].
    rewrite Hrun. exists r. split; [reflexivity | exact Hstatus].
  - unfold rejected, ProjectRoutes.put_id. cbn.
    unfold authenticate, idValidation, uploadProjectImageMiddleware, bind, ret.
    destruct (authenticated update); [| eexists; split; reflexivity].
    cbn.
    pose proof (multer_refuses env f _ 0 Hrefused Hupdate) as Herr.
    destruct (multer_any env 0 (files update)) as [e |]; [| contradiction].
    match goal with
    | |- context [handleUploadError env e ?req w] =>
        destruct (handleUploadError_400 env e req w) as [r [Hrun Hstatus]]
    end.
    rewrite Hrun. exists r. split; [reflexivity | exact Hstatus].
  - intros Hunset. split.
    + unfold allowedTypes. rewrite Hunset. reflexivity.
    + intros g Hpdf. left. unfold fileFilter, allowedTypes. rewrite Hunset, Hpdf. reflexivity.
  - intros Hunset. unfold fileSize_limit. rewrite Hunset. reflexivity.
Qed.

Lemma C8_refused_file_reaches_no_store_witness :
  rejected (Scenario.env None true) ProjectRoutes.post_root
    (Scenario.good_project "Blog" (Some Scenario.pdf)) Scenario.empty 400.
Proof.
  apply (C8_refused_file_reaches_no_store
           (Scenario.env None true) Scenario.empty Scenario.pdf
           (Scenario.good_project "Blog" (Some Scenario.pdf))
           (mkReq 0 tt [Scenario.pdf] None true [])
           (mkReq 7 (mkProjectUpdateBody None None None None None) [Scenario.pdf] None true [])).
  - left. reflexivity.
  - left. reflexivity.
  - left. reflexivity.
  - left. reflexivity.
Defined.

(** ** Date range of journey items *)




Lemma single_inv {R : Type} (rows : list R) (r : R) : single rows = Some r -> rows = [r].
Proof.
  destruct rows as [| a [| b rest]]; cbn; intros H; try discriminate.
  injection H as ->. reflexivity.
Qed.

(** A patch that keeps the id patches exactly the rows the id selects. *)
Lemma filter_patch_rows {R : Type} (id_of : R -> Z) (id : Z) (patch : R -> R) (rows : list R) :
  (forall r, id_of (patch r) = id_of r) ->
  filter (fun r => id_of r =? id) (patch_rows id_of id patch rows)
  = map patch (filter (fun r => id_of r =? id) rows).
Proof.
  intros Hid. induction rows as [| r rows IH]; [reflexivity |].
  cbn. destruct (id_of r =? id) eqn:Hr; cbn.
  - rewrite Hid, Hr. cbn. f_equal. exact IH.
  - rewrite Hr. exact IH.
Qed.



Lemma view_reports_current (j : JourneyItem) :
  j_end_date j = None -> get "is_current" (journey_items_view j) = Bool true.
Proof. intros Hopen. unfold journey_items_view, is_current. rewrite Hopen. reflexivity. Qed.





(** ** Further observations on the bodies the handlers send *)

(** Every answer of [createProject] has the same two top-level keys. *)
Lemma createProject_payload_keys (env : Env) (req : Req ProjectCreateBody) (w : World) :
  keys (payload (fst (createProject env req w))) = ["statusCode"; "json"].
Proof.
  unfold createProject. run. branches; destruct (file req); run; branches; reflexivity.
Qed.

(** The bodies of [handleUploadError] carry [success] and [error] only. *)
Lemma handleUploadError_body {B : Type} (env : Env) (e : UploadError) (req : Req B) (w : World) :
  exists r : Response,
    handleUploadError env e req w = (Sent r, w)
    /\ keys (payload r) = ["success"; "error"]
    /\ top_level_envelope (payload r) = false.
Proof. destruct e; eexists; repeat split; reflexivity. Qed.

(** Where a route does validate, the 400 body names no field:
    [validateRequest] hands [sendValidationError] an object without
    [details], so [errors] is the empty object. *)
Lemma validateRequest_names_no_field {B : Type} (env : Env) (req : Req B) (w : World) :
  validation req <> [] ->
  exists r : Response,
    validateRequest env req w = (Sent r, w)
    /\ status r = 400
    /\ get "errors" (envelope r) = Obj [].
Proof.
  intros Herrors. unfold validateRequest.
  destruct (validation req); [contradiction |].
  eexists. repeat split; reflexivity.
Qed.

(** ** Worked examples *)

(** The store is down: the 500 body of the list route is nested too. *)
Example getAllProjects_store_down :
  fst (getAllProjects Scenario.env_store_down Scenario.first_page Scenario.empty)
  = mkResponse 500
      (Obj [("statusCode", Num 500);
            ("json", Obj [("success", Bool false);
                          ("message", Str "Failed to fetch projects");
                          ("timestamp", Str "2024-01-15T10:30:00.000Z")])]).
Proof. reflexivity. Qed.

(** The insert fails and the blob store refuses the removal: the answer
    is still the persistence error, the upload stays in the bucket. *)
Example createProject_removal_refused :
  let run := createProject Scenario.env_no_remove
               (Scenario.good_project "Blog" (Some Scenario.png)) Scenario.empty in
  fst run = mkResponse 500
              (sendError "2024-01-15T10:30:00.000Z" "Failed to create project" 500 Undefined)
  /\ trace (snd run)
     = [DbSelect "projects"; BlobUpload "0b5e.png" true; DbInsert "projects" false;
        BlobRemove "0b5e.png" false]
  /\ blobs (snd run) = ["0b5e.png"]
  /\ projects (snd run) = [].
Proof. vm_compute. repeat split; reflexivity. Qed.

(** One byte over 10 MiB, and a PDF, on the create route. *)
Example post_root_refuses_huge_and_pdf :
  let env := Scenario.env None true in
  run_route env ProjectRoutes.post_root None
    (Scenario.good_project "Blog" (Some Scenario.huge)) Scenario.empty
  = (Some (mkResponse 400
             (Obj [("success", Bool false);
                   ("error", Str "File too large. Maximum size allowed is 10MB.")])),
     Scenario.empty)
  /\ run_route env ProjectRoutes.post_root None
       (Scenario.good_project "Blog" (Some Scenario.pdf)) Scenario.empty
     = (Some (mkResponse 400
                (Obj [("success", Bool false);
                      ("error",
                       Str "Invalid file type. Only JPEG, PNG, GIF, and WebP images are allowed.")])),
        Scenario.empty).
Proof. vm_compute. split; reflexivity. Qed.

(** A file one byte under 10 MiB with an allowed type is stored. *)
Example post_root_accepts_under_the_ceiling :
  let env := Scenario.env None true in
  let run := run_route env ProjectRoutes.post_root None
               (Scenario.good_project "Blog"
                  (Some (mkFile "uploadedFile" "big.png" "image/png" (10 * 1024 * 1024 - 1))))
               Scenario.empty in
  option_map status (fst run) = Some 201
  /\ trace (snd run)
     = [DbSelect "projects"; BlobUpload "0b5e.png" true; DbInsert "projects" true].
Proof. vm_compute. split; reflexivity. Qed.

(** The date rule compares instants, the table keeps days: an end date
    twelve hours after the start is accepted and stored as the same day. *)
Example createJourneyItem_same_day :
  let noon := DInstant (19500 * ms_per_day + 43200000) in
  let run := createJourneyItem (Scenario.env None true) (Scenario.new_job noon)
               Scenario.records in
  status (fst run) = 201
  /\ journey_items (snd run)
     = [Scenario.engineer; Scenario.intern;
        mkJourneyItem 3 "Lead" "Acme" 19500 (Some 19500) "Leads the platform team"
                      "Experience"].
Proof. vm_compute. split; reflexivity. Qed.

(** ** The same behaviours for every request *)

(** POST /api/projects without a file part is [createProject], whatever
    the body: no rule is evaluated on the way. *)
Lemma post_root_runs_createProject (env : Env) (req : Req ProjectCreateBody) (w : World) :
  files req = [] ->
  run_route env ProjectRoutes.post_root None req w
  = (Some (fst (createProject env (set_file req [] None) w)),
     snd (createProject env (set_file req [] None) w)).
Proof.
  intros Hnone.
  unfold ProjectRoutes.post_root, run_route, uploadProjectImageMiddleware, controller, bind, ret.
  rewrite Hnone. cbn -[createProject].
  destruct (createProject env (set_file req [] None) w). reflexivity.
Qed.

(** POST /api/journey is [createJourneyItem]. *)
Lemma journey_post_root_runs_createJourneyItem
    (env : Env) (req : Req JourneyCreateBody) (w : World) :
  run_route env JourneyRoutes.post_root None req w
  = (Some (fst (createJourneyItem env req w)), snd (createJourneyItem env req w)).
Proof.
  unfold JourneyRoutes.post_root, run_route, controller, bind, ret.
  destruct (createJourneyItem env req w). reflexivity.
Qed.

(** A certification update that sends the title alone makes one lookup
    (the row itself) and writes the new title, whatever the other rows. *)
Lemma updateCertification_title_only
    (env : Env) (req : Req CertificationUpdateBody) (w : World)
    (existing : Certification) (title : string) :
  db_select_ok env = true -> db_write_ok env = true ->
  single (filter (fun c => c_id c =? params_id req) (certifications w)) = Some existing ->
  body req = mkCertificationUpdateBody (Some title) None DUndefined None None None ->
  let run := updateCertification env req w in
  status (fst run) = 200
  /\ added w (snd run)
       [DbSelect "certifications"; DbUpdate "certifications" (params_id req) true]
  /\ single (filter (fun c => c_id c =? params_id req) (certifications (snd run)))
     = Some (mkCertification (c_id existing) (Text.trim title) (c_issuer existing)
               (c_issued_date existing) (c_certification_id existing)
               (c_details existing) (c_link_url existing)).
Proof.
  intros Hstore Hwrite Hfound Hbody run. subst run.
  unfold updateCertification. run. rewrite Hstore, Hfound, Hbody, Hwrite.
  cbn -[patch_rows Text.trim]. rewrite andb_false_r. cbn -[patch_rows Text.trim].
  rewrite !filter_patch_rows by (intros; reflexivity).
  rewrite (single_inv _ _ Hfound). cbn -[patch_rows Text.trim].
  rewrite ?filter_patch_rows by (intros; reflexivity).
  rewrite ?(single_inv _ _ Hfound). cbn -[patch_rows Text.trim].
  unfold added. cbn. rewrite <- !app_assoc. repeat split; reflexivity.
Qed.

(** In [updateProject] the removal of the old image follows the upload
    and precedes the update statement, whether that statement succeeds
    ([ok]) or not. *)
Lemma updateProject_removes_old_image_first
    (env : Env) (req : Req ProjectUpdateBody) (w : World)
    (existing : Project) (f : File) (old : string) :
  db_select_ok env = true -> storage_upload_ok env = true ->
  single (filter (fun p => p_id p =? params_id req) (projects w)) = Some existing ->
  pu_name (body req) = None ->
  file req = Some f ->
  p_image_url existing = Some old ->
  Text.truthy old = true ->
  Text.truthy (extractFilenameFromUrl old) = true ->
  exists (ok : bool) (after : list Event),
    added w (snd (updateProject env req w))
      ([DbSelect "projects";
        BlobUpload (generated_name env (originalname f)) true;
        BlobRemove (extractFilenameFromUrl old)
                   (storage_remove_ok env (extractFilenameFromUrl old));
        DbUpdate "projects" (params_id req) ok] ++ after).
Proof.
  intros Hstore Hupload Hfound Hname Hfile Hold Hurl Hlast.
  unfold updateProject. run.
  rewrite Hstore, Hfound, Hname, Hfile, Hupload. run.
  rewrite Hold. cbn -[sendSuccess sendError extractFilenameFromUrl Text.truthy Text.trim patch_rows].
  rewrite Hurl, Hlast. run.
  branches; eexists; eexists; unfold added; cbn -[extractFilenameFromUrl];
    rewrite <- !app_assoc; cbn -[extractFilenameFromUrl];
    repeat match goal with
           | H : storage_remove_ok env _ = _ |- _ => rewrite ?H; clear H
           end;
    reflexivity.
Qed.

(* ================================================================== *)
(** * Further properties of the handlers, the middleware and the routes *)
(* ================================================================== *)

(** * Further properties *)

(** ** File names and URLs *)

Lemma split_not_nil (sep : ascii) (s : string) : Text.split sep s <> [].
Proof.
  destruct s as [| c rest]; cbn; [discriminate |].
  destruct (Ascii.eqb c sep); [discriminate |].
  destruct (Text.split sep rest); discriminate.
Qed.

Lemma split_without_separator (sep : ascii) (s : string) :
  contains sep s = false -> Text.split sep s = [s].
Proof.
  induction s as [| c rest IH]; cbn; [reflexivity |].
  intros Hnone. apply orb_false_elim in Hnone. destruct Hnone as [Hc Hrest].
  rewrite Hc, (IH Hrest). reflexivity.
Qed.

Lemma split_at_separator (sep : ascii) (before after : string) :
  Text.split sep (before ++ String sep after)
  = (Text.split sep before ++ Text.split sep after)%list.
Proof.
  induction before as [| c rest IH]; cbn.
  - rewrite Ascii.eqb_refl. reflexivity.
  - destruct (Ascii.eqb c sep); rewrite IH; [reflexivity |].
    pose proof (split_not_nil sep rest) as Hsome.
    destruct (Text.split sep rest); [contradiction | reflexivity].
Qed.

Lemma split_single (sep : ascii) (s piece : string) :
  Text.split sep s = [piece] -> piece = s.
Proof.
  revert piece. induction s as [| c rest IH]; cbn; intros piece Hsplit.
  - injection Hsplit as <-. reflexivity.
  - pose proof (split_not_nil sep rest) as Hsome.
    destruct (Ascii.eqb c sep).
    + destruct (Text.split sep rest); [contradiction | discriminate].
    + destruct (Text.split sep rest) as [| first [| next others]];
        [contradiction | | discriminate].
      injection Hsplit as <-. f_equal. apply IH. reflexivity.
Qed.

Lemma last_of_split (sep : ascii) (s : string) :
  contains sep (last (Text.split sep s) "") = false
  /\ exists front : string, s = front ++ last (Text.split sep s) "".
Proof.
  induction s as [| c rest [IHfree [front IHfront]]]; cbn.
  - split; [reflexivity | exists ""; reflexivity].
  - pose proof (split_not_nil sep rest) as Hsome.
    destruct (Ascii.eqb c sep) eqn:Hc.
    + destruct (Text.split sep rest) as [| piece pieces]; [contradiction |].
      split; [exact IHfree |].
      exists (String c front). cbn. f_equal. exact IHfront.
    + destruct (Text.split sep rest) as [| piece [| next pieces]] eqn:Hsplit;
        [contradiction | |].
      * cbn in *. split; [rewrite Hc; exact IHfree |].
        exists "". cbn. f_equal. symmetry. apply (split_single sep). exact Hsplit.
      * split; [exact IHfree |].
        exists (String c front). cbn. f_equal. exact IHfront.
Qed.

Lemma last_separator (sep : ascii) (s : string) :
  contains sep s = true ->
  exists base rest : string, s = base ++ String sep rest /\ contains sep rest = false.
Proof.
  induction s as [| c s IH]; cbn; [discriminate |].
  destruct (contains sep s) eqn:Hlater.
  - intros _. destruct (IH eq_refl) as [base [rest [Hs Hrest]]].
    exists (String c base), rest. split; [cbn; f_equal; exact Hs | exact Hrest].
  - rewrite orb_false_r. intros Hc. apply Ascii.eqb_eq in Hc. subst c.
    exists "", s. split; [reflexivity | exact Hlater].
Qed.

(** X1: the file name taken from a URL is the whole text when the URL
    has no slash, and otherwise what follows its last slash: the URL is
    some text, a slash, and the name, and the name has no slash. *)
Theorem extractFilenameFromUrl_is_the_last_segment (url : string) :
  (contains "/" url = false /\ extractFilenameFromUrl url = url)
  \/ (exists base : string,
        url = base ++ "/" ++ extractFilenameFromUrl url
        /\ contains "/" (extractFilenameFromUrl url) = false).
Proof.
  unfold extractFilenameFromUrl.
  destruct (contains "/" url) eqn:Hslash.
  - right. destruct (last_separator "/" url Hslash) as [base [rest [Hurl Hrest]]].
    assert (Hname : last (Text.split "/" url) "" = rest).
    { rewrite Hurl, split_at_separator, (split_without_separator _ _ Hrest).
      apply last_last. }
    rewrite Hname. exists base. split; [exact Hurl | exact Hrest].
  - left. split; [reflexivity |].
    rewrite (split_without_separator _ _ Hslash). reflexivity.
Qed.

(** X2: a name without a slash is recovered from any URL that ends
    with a slash and that name. *)
Theorem extractFilenameFromUrl_round_trip (base name : string) :
  contains "/" name = false ->
  extractFilenameFromUrl (base ++ "/" ++ name) = name.
Proof.
  intros Hname. unfold extractFilenameFromUrl.
  change (base ++ "/" ++ name) with (base ++ String "/" name).
  rewrite split_at_separator, (split_without_separator _ _ Hname).
  apply last_last.
Qed.

Lemma extractFilenameFromUrl_round_trip_witness :
  extractFilenameFromUrl (Scenario.bucket ++ "/" ++ "0b5e.png") = "0b5e.png".
Proof. apply extractFilenameFromUrl_round_trip. reflexivity. Defined.

(** ** The upload middleware *)

Lemma multer_any_lets_through (env : Env) (parts : list File) :
  multer_any env 0 parts = None -> at_most_one_allowed_file env parts.
Proof.
  destruct parts as [| f rest]; [left; reflexivity |].
  cbn. destruct (fileFilter env f) eqn:Hfilter; cbn; [| discriminate].
  destruct (fileSize_limit env <? size f) eqn:Hsize; [discriminate |].
  destruct rest as [| g rest]; cbn; [| discriminate].
  intros _. right. exists f. apply Z.ltb_ge in Hsize. repeat split; assumption.
Qed.

(** X3: every route that takes an upload answers 400 and leaves the
    world untouched (no store call, no blob-store call) unless the
    request carries no file part, or exactly one part whose type the
    filter accepts and whose size does not exceed the ceiling; so a
    second file part is refused whatever the parts are.  The routes
    behind [authenticate] do so for the requests it lets through. *)
Theorem upload_routes_refuse_all_but_one_allowed_file
    (env : Env) (w : World)
    (create : Req ProjectCreateBody) (upload : Req unit) (update : Req ProjectUpdateBody) :
  ~ at_most_one_allowed_file env (files create) ->
  ~ at_most_one_allowed_file env (files upload) ->
  ~ at_most_one_allowed_file env (files update) ->
  rejected env ProjectRoutes.post_root create w 400
  /\ (authenticated upload = true ->
      rejected env ProjectRoutes.post_upload_image upload w 400)
  /\ (authenticated update = true ->
      rejected env ProjectRoutes.put_id update w 400).
Proof.
  intros Hcreate Hupload Hupdate.
  split; [| split].
  - unfold rejected, ProjectRoutes.post_root. cbn.
    unfold uploadProjectImageMiddleware, bind, ret.
    destruct (multer_any env 0 (files create)) as [e |] eqn:Hparts;
      [| exfalso; apply Hcreate; apply multer_any_lets_through; exact Hparts].
    destruct (handleUploadError_400 env e create w) as [r [Hrun Hstatus]].
    rewrite Hrun. exists r. split; [reflexivity | exact Hstatus].
  - intros Hauth. unfold rejected, ProjectRoutes.post_upload_image. cbn.
    unfold authenticate, uploadProjectImageMiddleware, bind, ret. rewrite Hauth.
    destruct (multer_any env 0 (files upload)) as [e |] eqn:Hparts;
      [| exfalso; apply Hupload; apply multer_any_lets_through; exact Hparts].
    destruct (handleUploadError_400 env e upload w) as [r [Hrun Hstatus]].
    rewrite Hrun. exists r. split; [reflexivity | exact Hstatus].
  - intros Hauth. unfold rejected, ProjectRoutes.put_id. cbn.
    unfold authenticate, idValidation, uploadProjectImageMiddleware, bind, ret.
    rewrite Hauth. cbn.
    destruct (multer_any env 0 (files update)) as [e |] eqn:Hparts;
      [| exfalso; apply Hupdate; apply multer_any_lets_through; exact Hparts].
    match goal with
    | |- context [handleUploadError env e ?req w] =>
        destruct (handleUploadError_400 env e req w) as [r [Hrun Hstatus]]
    end.
    rewrite Hrun. exists r. split; [reflexivity | exact Hstatus].
Qed.

Lemma upload_routes_refuse_all_but_one_allowed_file_witness :
  let two := [Scenario.png; Scenario.png] in
  rejected (Scenario.env None true) ProjectRoutes.post_root
           (mkReq 0 (mkProjectCreateBody "Blog" "A portfolio site" None None None)
                  two None false [])
           Scenario.empty 400.
Proof.
  intros two.
  assert (Htwo : ~ at_most_one_allowed_file (Scenario.env None true) two).
  { intros [Hnone | [f [Hone _]]]; discriminate. }
  destruct (upload_routes_refuse_all_but_one_allowed_file
              (Scenario.env None true) Scenario.empty
              (mkReq 0 (mkProjectCreateBody "Blog" "A portfolio site" None None None)
                     two None false [])
              (mkReq 0 tt two None true [])
              (mkReq 7 (mkProjectUpdateBody None None None None None) two None true [])
              Htwo Htwo Htwo) as [Hcreate _].
  exact Hcreate.
Defined.

(** What the middleware hands on for one accepted file part. *)
Lemma uploadProjectImageMiddleware_single
    {B : Type} (env : Env) (req : Req B) (w : World) (f : File) :
  files req = [f] -> fileFilter env f = true -> size f <= fileSize_limit env ->
  uploadProjectImageMiddleware env req w
  = (Continue
       (mkReq (params_id req) (body req)
          (if allowed_field f
           then [mkFile "image" (originalname f) (mimetype f) (size f)]
           else [f])
          (if allowed_field f
           then Some (mkFile "image" (originalname f) (mimetype f) (size f))
           else None)
          (authenticated req) (validation req)),
     w).
Proof.
  intros Hfiles Hfilter Hsize.
  unfold uploadProjectImageMiddleware, ret, set_file. rewrite Hfiles.
  cbn [multer_any Nat.leb]. rewrite Hfilter. cbn [negb].
  apply Z.ltb_ge in Hsize. rewrite Hsize. cbn [find option_map rename_found].
  assert (Hnormal : allowed_field f = true ->
                    normalize_field f = mkFile "image" (originalname f) (mimetype f) (size f)).
  { unfold allowed_field, normalize_field.
    destruct (fieldname f =? "uploadedFile")%string; [reflexivity |].
    rewrite orb_false_r. intros Himage. apply String.eqb_eq in Himage.
    destruct f as [fn on mt sz]. cbn in *. subst fn. reflexivity. }
  destruct (allowed_field f); [| reflexivity].
  cbn [option_map]. rewrite (Hnormal eq_refl). reflexivity.
Qed.

(** X4: an accepted file part (allowed type, size below the ceiling)
    sent as [image] or [uploadedFile] reaches the controller as
    [req.file] with the field name [image], and is renamed where it sits
    in [req.files]; sent under another field name it stays in
    [req.files] as it is and [req.file] is empty.  The body and the rest
    of the request stay. *)
Theorem upload_middleware_normalises_the_field
    {B : Type} (env : Env) (req : Req B) (w : World) (f : File) :
  files req = [f] -> fileFilter env f = true -> size f < fileSize_limit env ->
  exists (parts : list File) (handed : option File),
    uploadProjectImageMiddleware env req w
    = (Continue (mkReq (params_id req) (body req) parts handed
                       (authenticated req) (validation req)), w)
    /\ (allowed_field f = true ->
        handed = Some (mkFile "image" (originalname f) (mimetype f) (size f))
        /\ parts = [mkFile "image" (originalname f) (mimetype f) (size f)])
    /\ (allowed_field f = false -> handed = None /\ parts = [f]).
Proof.
  intros Hfiles Hfilter Hsize.
  rewrite (uploadProjectImageMiddleware_single env req w f Hfiles Hfilter
             ltac:(apply Z.lt_le_incl; exact Hsize)).
  eexists. eexists. split; [reflexivity |].
  destruct (allowed_field f); split; intros H; try discriminate; split; reflexivity.
Qed.

Lemma upload_middleware_normalises_the_field_witness :
  let f := mkFile "uploadedFile" "a.png" "image/png" 10 in
  let req := Scenario.good_project "Blog" (Some f) in
  exists (parts : list File) (handed : option File),
    uploadProjectImageMiddleware (Scenario.env None true) req Scenario.empty
    = (Continue (mkReq 0 (body req) parts handed false []), Scenario.empty)
    /\ handed = Some (mkFile "image" "a.png" "image/png" 10)
    /\ parts = [mkFile "image" "a.png" "image/png" 10].
Proof.
  intros f req.
  destruct (upload_middleware_normalises_the_field (Scenario.env None true) req
              Scenario.empty f) as [parts [handed [Hrun [Hkept _]]]].
  - reflexivity.
  - reflexivity.
  - cbn. lia.
  - exists parts, handed. split; [exact Hrun | apply Hkept; reflexivity].
Defined.




(** ** Projects: create, read, update, delete *)

Lemma filter_fresh_id {R : Type} (id_of : R -> Z) (next : Z) (rows : list R) :
  (forall r, In r rows -> id_of r < next) ->
  filter (fun r => id_of r =? next) rows = [].
Proof.
  intros Hbelow. apply filter_none. intros r Hin.
  apply Z.eqb_neq. specialize (Hbelow r Hin). lia.
Qed.

(** X6: a project that [createProject] answers with 201 is returned by
    [getProjectById] under the id it was given: the fields are the ones
    of the body ([skills] empty when omitted, empty links as null), and
    [has_image] tells whether a file was uploaded. *)
Theorem created_project_is_fetched_by_its_id
    (env env' : Env) (req : Req ProjectCreateBody) (w : World) :
  let run := createProject env req w in
  db_select_ok env' = true ->
  (forall p, In p (projects w) -> p_id p < next_id w) ->
  status (fst run) = 201 ->
  exists row : Project,
    fst run = mkResponse 201
                (sendSuccess (now env) (project_json row) "Project created successfully" 201)
    /\ p_id row = next_id w
    /\ p_name row = pc_name (body req)
    /\ p_details row = pc_details (body req)
    /\ p_skills row = default (pc_skills (body req)) []
    /\ p_demo_link row = Text.or_null (pc_demo_link (body req))
    /\ p_github_link row = Text.or_null (pc_github_link (body req))
    /\ has_image row = (match file req with Some _ => true | None => false end)
    /\ fst (getProjectById env' (with_id req (next_id w)) (snd run))
       = mkResponse 200
           (sendSuccess (now env') (projects_view row) "Project retrieved successfully" 200).
Proof.
  intros run Hstore Hbelow. subst run.
  pose proof (filter_fresh_id p_id (next_id w) (projects w) Hbelow) as Hfresh.
  remember (getProjectById env' (with_id req (next_id w))) as fetch eqn:Hfetch.
  unfold createProject. run.
  destruct (file req) as [f |]; run; branches; try discriminate; intros _;
    eexists; repeat split; try reflexivity;
    rewrite Hfetch; unfold getProjectById; run; rewrite Hstore;
    cbn -[sendSuccess projects_view];
    rewrite filter_app, Hfresh; cbn -[sendSuccess projects_view];
    rewrite Z.eqb_refl; reflexivity.
Qed.

Lemma created_project_is_fetched_by_its_id_witness :
  let req := Scenario.good_project "Blog" (Some Scenario.png) in
  let env := Scenario.env None true in
  status (fst (getProjectById env (with_id req (next_id Scenario.with_image))
                 (snd (createProject env req Scenario.with_image)))) = 200.
Proof.
  intros req env.
  destruct (created_project_is_fetched_by_its_id env env req Scenario.with_image)
    as [row [_ [_ [_ [_ [_ [_ [_ [_ Hfetched]]]]]]]]].
  - reflexivity.
  - intros p [<- | []]. cbn. lia.
  - reflexivity.
  - rewrite Hfetched. reflexivity.
Defined.

Lemma lookup_is_only {R : Type} (keep : R -> bool) (rows : list R) (x r : R) :
  single (filter keep rows) = Some x -> In r rows -> keep r = true -> r = x.
Proof.
  intros Hsingle Hin Hkeep. apply single_inv in Hsingle.
  assert (Hfiltered : In r (filter keep rows)) by (apply filter_In; split; assumption).
  rewrite Hsingle in Hfiltered. destruct Hfiltered as [<- | []]. reflexivity.
Qed.

Lemma patch_rows_keeps {R A : Type} (id_of : R -> Z) (id : Z) (patch : R -> R)
    (g : R -> A) (rows : list R) :
  (forall r, In r rows -> id_of r = id -> g (patch r) = g r) ->
  map g (patch_rows id_of id patch rows) = map g rows.
Proof.
  induction rows as [| r rows IH]; intros Hkeep; [reflexivity |].
  cbn. destruct (Z.eqb_spec (id_of r) id) as [Hid | Hid].
  - rewrite (Hkeep r (or_introl eq_refl) Hid). f_equal.
    apply IH. intros r' Hin. apply Hkeep. right. exact Hin.
  - f_equal. apply IH. intros r' Hin. apply Hkeep. right. exact Hin.
Qed.

Lemma patch_rows_others {R : Type} (id_of : R -> Z) (id : Z) (patch : R -> R)
    (rows : list R) :
  (forall r, id_of (patch r) = id_of r) ->
  delete_rows id_of id (patch_rows id_of id patch rows) = delete_rows id_of id rows.
Proof.
  intros Hid. unfold delete_rows. induction rows as [| r rows IH]; [reflexivity |].
  cbn. destruct (id_of r =? id) eqn:Hr; cbn.
  - rewrite Hid, Hr. cbn. exact IH.
  - rewrite Hr. cbn. f_equal. exact IH.
Qed.

(** X7: [updateProject] without a file never calls blob storage and
    leaves every [image_url] as it was; the rows with another id are
    untouched and no id changes. *)
Theorem updateProject_without_file_keeps_the_image
    (env : Env) (req : Req ProjectUpdateBody) (w : World) :
  let run := updateProject env req w in
  file req = None ->
  blobs (snd run) = blobs w
  /\ (exists events : list Event, added w (snd run) events /\ no_blob_call events)
  /\ map p_image_url (projects (snd run)) = map p_image_url (projects w)
  /\ map p_id (projects (snd run)) = map p_id (projects w)
  /\ delete_rows p_id (params_id req) (projects (snd run))
     = delete_rows p_id (params_id req) (projects w).
Proof.
  intros run Hfile. subst run.
  unfold updateProject. run. rewrite Hfile.
  destruct (db_select_ok env); cbn -[sendSuccess sendError Text.truthy Text.trim patch_rows].
  2:{ repeat split; try reflexivity. eexists. split; [reflexivity | repeat constructor]. }
  destruct (single (filter (fun p => p_id p =? params_id req) (projects w)))
    as [existing |] eqn:Hfound;
    cbn -[sendSuccess sendError Text.truthy Text.trim patch_rows].
  2:{ repeat split; try reflexivity. eexists. split; [reflexivity | repeat constructor]. }
  assert (Himage :
    map p_image_url
      (patch_rows p_id (params_id req)
         (project_updateData (body req) (p_image_url existing)) (projects w))
    = map p_image_url (projects w)).
  { apply patch_rows_keeps. intros r Hin Hid. cbn.
    rewrite (lookup_is_only _ _ existing r Hfound Hin); [reflexivity |].
    apply Z.eqb_eq. exact Hid. }
  assert (Hids :
    map p_id
      (patch_rows p_id (params_id req)
         (project_updateData (body req) (p_image_url existing)) (projects w))
    = map p_id (projects w)).
  { apply patch_rows_keeps. intros r Hin Hid. reflexivity. }
  assert (Hothers :
    delete_rows p_id (params_id req)
      (patch_rows p_id (params_id req)
         (project_updateData (body req) (p_image_url existing)) (projects w))
    = delete_rows p_id (params_id req) (projects w)).
  { apply patch_rows_others. intros r. reflexivity. }
  branches;
    (split; [reflexivity |]);
    (split; [eexists; split;
               [unfold added; cbn; rewrite <- ?app_assoc; cbn; reflexivity
               | repeat constructor] |]);
    cbn -[patch_rows]; repeat split; try reflexivity; assumption.
Qed.

Lemma updateProject_without_file_keeps_the_image_witness :
  map p_image_url
    (projects (snd (updateProject (Scenario.env None true)
                      (mkReq 7 (mkProjectUpdateBody (Some "Shop") None None None None)
                             [] None true [])
                      Scenario.with_image)))
  = [Some (Scenario.bucket ++ "old.png")].
Proof.
  destruct (updateProject_without_file_keeps_the_image (Scenario.env None true)
              (mkReq 7 (mkProjectUpdateBody (Some "Shop") None None None None) [] None true [])
              Scenario.with_image) as [_ [_ [Himage _]]].
  - reflexivity.
  - rewrite Himage. reflexivity.
Defined.

Lemma filter_both {R : Type} (f g : R -> bool) (rows : list R) :
  filter (fun r => f r && g r) rows = filter g (filter f rows).
Proof.
  induction rows as [| r rows IH]; [reflexivity |].
  cbn. destruct (f r); cbn; [destruct (g r); rewrite IH; reflexivity | exact IH].
Qed.

(** X8: with unique project names, renaming a project to the name of
    another project is answered 400 'Project with this name already
    exists' after the two lookups: nothing is uploaded, even when a file
    is attached, and no table or blob changes. *)
Theorem updateProject_rename_to_taken_name
    (env : Env) (req : Req ProjectUpdateBody) (w : World)
    (existing other : Project) (name : string) :
  let run := updateProject env req w in
  db_select_ok env = true ->
  NoDup (map p_name (projects w)) ->
  single (filter (fun p => p_id p =? params_id req) (projects w)) = Some existing ->
  pu_name (body req) = Some name -> name <> "" ->
  In other (projects w) -> p_name other = name -> p_id other <> params_id req ->
  fst run = conflict_answer env
  /\ added w (snd run) [DbSelect "projects"; DbSelect "projects"]
  /\ same_tables w (snd run)
  /\ blobs (snd run) = blobs w.
Proof.
  intros run Hstore Hunique Hfound Hname Hnonempty Hin Hother Hid. subst run.
  assert (Hexisting : In existing (projects w) /\ p_id existing = params_id req).
  { pose proof (single_inv _ _ Hfound) as Hrows.
    assert (Hmember : In existing (filter (fun p => p_id p =? params_id req) (projects w)))
      by (rewrite Hrows; left; reflexivity).
    apply filter_In in Hmember. destruct Hmember as [Hmember Heq].
    split; [exact Hmember | apply Z.eqb_eq; exact Heq]. }
  destruct Hexisting as [Hexisting Hsame].
  assert (Hdiffers : (name =? p_name existing)%string = false).
  { apply String.eqb_neq. intros Heq. apply Hid.
    assert (Hrows : filter (fun r => (p_name r =? p_name other)%string) (projects w) = [other])
      by (apply unique_name_single; assumption).
    assert (Hmember : In existing (filter (fun r => (p_name r =? p_name other)%string)
                                     (projects w))).
    { apply filter_In. split; [exact Hexisting |]. apply String.eqb_eq. congruence. }
    rewrite Hrows in Hmember. destruct Hmember as [<- | []]. exact Hsame. }
  assert (Htruthy : Text.truthy name = true).
  { unfold Text.truthy. destruct (String.eqb_spec name ""); [contradiction | reflexivity]. }
  assert (Hconflict :
    single (filter (fun p => (p_name p =? name)%string && negb (p_id p =? params_id req))
              (projects w)) = Some other).
  { rewrite filter_both. rewrite <- Hother.
    rewrite (unique_name_single _ other Hunique Hin). cbn.
    destruct (Z.eqb_spec (p_id other) (params_id req)); [contradiction | reflexivity]. }
  unfold updateProject. run.
  rewrite Hstore, Hfound, Hname. cbn -[sendSuccess sendError Text.truthy Text.trim patch_rows].
  rewrite Htruthy, Hdiffers. run. rewrite Hconflict. run.
  unfold added, same_tables, conflict_answer. cbn. rewrite <- !app_assoc.
  repeat split; reflexivity.
Qed.

Lemma updateProject_rename_to_taken_name_witness :
  let w := mkWorld [Scenario.site; mkProject 8 "Shop" "An online shop" [] None None None]
                   [] [] ["old.png"] 9 [] in
  let req := mkReq 7 (mkProjectUpdateBody (Some "Shop") None None None None)
                   [Scenario.png] (Some Scenario.png) true [] in
  status (fst (updateProject (Scenario.env None true) req w)) = 400
  /\ blobs (snd (updateProject (Scenario.env None true) req w)) = ["old.png"].
Proof.
  intros w req.
  destruct (updateProject_rename_to_taken_name (Scenario.env None true) req w
              Scenario.site (mkProject 8 "Shop" "An online shop" [] None None None) "Shop")
    as [Hanswer [_ [_ Hblobs]]].
  - reflexivity.
  - cbn. repeat constructor; cbn; intuition discriminate.
  - reflexivity.
  - reflexivity.
  - discriminate.
  - right. left. reflexivity.
  - reflexivity.
  - cbn. lia.
  - rewrite Hanswer, Hblobs. split; reflexivity.
Defined.

(** The world a handler leaves when it only looked a table up. *)
Lemma only_looked_up (w : World) (table : string) :
  let w' := mkWorld (projects w) (certifications w) (journey_items w) (blobs w)
                    (next_id w) (trace w ++ [DbSelect table]) in
  added w w' [DbSelect table] /\ same_tables w w' /\ blobs w' = blobs w.
Proof. unfold added, same_tables. cbn. repeat split; reflexivity. Qed.

Lemma unknown_lookup {R : Type} (id_of : R -> Z) (id : Z) (rows : list R) :
  unknown id_of id rows -> filter (fun r => id_of r =? id) rows = [].
Proof.
  intros Hunknown. apply filter_none. intros r Hin.
  apply Z.eqb_neq. apply Hunknown. exact Hin.
Qed.

Ltac not_found Hstore Hunknown :=
  run; rewrite ?Hstore; cbn -[sendSuccess sendError];
  rewrite (unknown_lookup _ _ _ Hunknown); cbn -[sendSuccess sendError];
  unfold only_select, added, same_tables; cbn; repeat split; reflexivity.

(** X9: with the store answering, every handler that takes an id
    answers 404 for an id no row has, after one lookup and without any
    other effect: the three updates, the three deletes and the three
    reads, whatever the body or the attached file. *)
Theorem unknown_id_is_not_found (env : Env) (w : World) :
  db_select_ok env = true ->
  (forall req : Req ProjectUpdateBody,
      unknown p_id (params_id req) (projects w) ->
      status (fst (updateProject env req w)) = 404
      /\ only_select "projects" w (snd (updateProject env req w)))
  /\ (forall req : Req unit,
      unknown p_id (params_id req) (projects w) ->
      (status (fst (deleteProject env req w)) = 404
       /\ only_select "projects" w (snd (deleteProject env req w)))
      /\ (status (fst (getProjectById env req w)) = 404
          /\ only_select "projects_view" w (snd (getProjectById env req w))))
  /\ (forall req : Req CertificationUpdateBody,
      unknown c_id (params_id req) (certifications w) ->
      status (fst (updateCertification env req w)) = 404
      /\ only_select "certifications" w (snd (updateCertification env req w)))
  /\ (forall req : Req unit,
      unknown c_id (params_id req) (certifications w) ->
      (status (fst (deleteCertification env req w)) = 404
       /\ only_select "certifications" w (snd (deleteCertification env req w)))
      /\ (status (fst (getCertificationById env req w)) = 404
          /\ only_select "certifications_view" w (snd (getCertificationById env req w))))
  /\ (forall req : Req JourneyUpdateBody,
      unknown j_id (params_id req) (journey_items w) ->
      status (fst (updateJourneyItem env req w)) = 404
      /\ only_select "journey_items" w (snd (updateJourneyItem env req w)))
  /\ (forall req : Req unit,
      unknown j_id (params_id req) (journey_items w) ->
      (status (fst (deleteJourneyItem env req w)) = 404
       /\ only_select "journey_items" w (snd (deleteJourneyItem env req w)))
      /\ (status (fst (getJourneyById env (params_id req) w)) = 404
          /\ only_select "journey_items_view" w (snd (getJourneyById env (params_id req) w)))).
Proof.
  intros Hstore.
  split; [| split; [| split; [| split; [| split]]]]; intros req Hunknown.
  - unfold updateProject. not_found Hstore Hunknown.
  - split.
    + unfold deleteProject. not_found Hstore Hunknown.
    + unfold getProjectById. not_found Hstore Hunknown.
  - unfold updateCertification. not_found Hstore Hunknown.
  - split.
    + unfold deleteCertification. not_found Hstore Hunknown.
    + unfold getCertificationById. not_found Hstore Hunknown.
  - unfold updateJourneyItem. not_found Hstore Hunknown.
  - split.
    + unfold deleteJourneyItem. not_found Hstore Hunknown.
    + unfold getJourneyById. not_found Hstore Hunknown.
Qed.

Lemma unknown_id_is_not_found_witness :
  status (fst (updateProject (Scenario.env None true)
                 (mkReq 99 (mkProjectUpdateBody None None None None None)
                        [Scenario.png] (Some Scenario.png) true [])
                 Scenario.with_image)) = 404
  /\ status (fst (deleteJourneyItem (Scenario.env None true)
                    (mkReq 99 tt [] None true []) Scenario.records)) = 404.
Proof.
  destruct (unknown_id_is_not_found (Scenario.env None true) Scenario.with_image eq_refl)
    as [Hupdate _].
  destruct (unknown_id_is_not_found (Scenario.env None true) Scenario.records eq_refl)
    as [_ [_ [_ [_ [_ Hjourney]]]]].
  split.
  - apply Hupdate. intros r [<- | []]. cbn. lia.
  - apply Hjourney. intros r [<- | [<- | []]]; cbn; lia.
Defined.

(** X10: the error of a lookup is ignored.  When the store cannot
    answer, the update and delete handlers answer 404 as for a missing
    row and change nothing, while the read handlers answer 500; and
    [createProject] skips its duplicate check: with the insert accepted
    it appends a row whatever names the table holds. *)
Theorem failed_lookup_is_taken_for_no_row (env : Env) (w : World) :
  db_select_ok env = false ->
  (forall req : Req ProjectUpdateBody, status (fst (updateProject env req w)) = 404)
  /\ (forall req : Req CertificationUpdateBody,
        status (fst (updateCertification env req w)) = 404)
  /\ (forall req : Req JourneyUpdateBody, status (fst (updateJourneyItem env req w)) = 404)
  /\ (forall req : Req unit,
        status (fst (deleteProject env req w)) = 404
        /\ status (fst (deleteCertification env req w)) = 404
        /\ status (fst (deleteJourneyItem env req w)) = 404
        /\ projects (snd (deleteProject env req w)) = projects w
        /\ blobs (snd (deleteProject env req w)) = blobs w)
  /\ (forall req : Req unit,
        status (fst (getProjectById env req w)) = 500
        /\ status (fst (getCertificationById env req w)) = 500
        /\ status (fst (getJourneyById env (params_id req) w)) = 500)
  /\ (forall req : Req ProjectCreateBody,
        db_write_ok env = true -> file req = None ->
        status (fst (createProject env req w)) = 201
        /\ exists row : Project,
             p_name row = pc_name (body req)
             /\ projects (snd (createProject env req w)) = (projects w ++ [row])%list).
Proof.
  intros Hdown.
  split; [| split; [| split; [| split; [| split]]]]; intros req.
  - unfold updateProject. run. rewrite Hdown. reflexivity.
  - unfold updateCertification. run. rewrite Hdown. reflexivity.
  - unfold updateJourneyItem. run. rewrite Hdown. reflexivity.
  - unfold deleteProject, deleteCertification, deleteJourneyItem. run. rewrite Hdown.
    repeat split; reflexivity.
  - unfold getProjectById, getCertificationById, getJourneyById. run. rewrite Hdown.
    repeat split; reflexivity.
  - intros Hwrite Hfile. unfold createProject. run. rewrite Hdown, Hfile. run.
    rewrite Hwrite. run. split; [reflexivity |].
    eexists. split; [| reflexivity]. reflexivity.
Qed.

Lemma failed_lookup_is_taken_for_no_row_witness :
  status (fst (updateProject Scenario.env_store_down Scenario.new_picture
                 Scenario.with_image)) = 404.
Proof.
  destruct (failed_lookup_is_taken_for_no_row Scenario.env_store_down Scenario.with_image
              eq_refl) as [Hupdate _].
  apply Hupdate.
Defined.

Lemma delete_rows_spec {R : Type} (id_of : R -> Z) (id : Z) (rows : list R) (r : R) :
  In r (delete_rows id_of id rows) <-> In r rows /\ id_of r <> id.
Proof.
  unfold delete_rows. rewrite filter_In. split; intros [Hin Hid]; split; try exact Hin.
  - intros Heq. rewrite Heq, Z.eqb_refl in Hid. discriminate.
  - destruct (Z.eqb_spec (id_of r) id); [contradiction | reflexivity].
Qed.

Lemma delete_rows_lookup {R : Type} (id_of : R -> Z) (id : Z) (rows : list R) :
  filter (fun r => id_of r =? id) (delete_rows id_of id rows) = [].
Proof.
  apply filter_none. intros r Hin. apply delete_rows_spec in Hin.
  apply Z.eqb_neq. apply Hin.
Qed.

(** X11: deleting an existing project, with the store accepting the
    statement, answers 200, removes exactly the rows with that id
    (every other row stays), calls blob storage at most once, to remove
    the file named by the last segment of the project's image URL, and
    whatever that removal returns; a later [getProjectById] for the id
    answers 404. *)
Theorem deleteProject_removes_the_row_and_its_image
    (env env' : Env) (req : Req unit) (w : World) (existing : Project) :
  let run := deleteProject env req w in
  db_select_ok env = true -> db_write_ok env = true -> db_select_ok env' = true ->
  single (filter (fun p => p_id p =? params_id req) (projects w)) = Some existing ->
  status (fst run) = 200
  /\ (forall p : Project,
        In p (projects (snd run)) <-> In p (projects w) /\ p_id p <> params_id req)
  /\ (added w (snd run) [DbSelect "projects"]
      \/ exists url : string,
           p_image_url existing = Some url
           /\ added w (snd run)
                [DbSelect "projects";
                 BlobRemove (extractFilenameFromUrl url)
                            (storage_remove_ok env (extractFilenameFromUrl url))])
  /\ status (fst (getProjectById env' req (snd run))) = 404.
Proof.
  intros run Hstore Hwrite Hstore' Hfound. subst run.
  remember (getProjectById env' req) as fetch eqn:Hfetch.
  unfold deleteProject, deleteProjectImage, delete_project. run.
  rewrite Hstore, Hfound, Hwrite.
  assert (Hgone : forall w', projects w' = delete_rows p_id (params_id req) (projects w) ->
                  status (fst (fetch w')) = 404).
  { intros w' Hrows. rewrite Hfetch. unfold getProjectById. run.
    rewrite Hstore', Hrows, delete_rows_lookup. reflexivity. }
  destruct (p_image_url existing) as [url |] eqn:Hurl;
    cbn -[sendSuccess sendError extractFilenameFromUrl Text.truthy delete_rows];
    branches;
    (split; [reflexivity |]);
    (split; [intros p; apply delete_rows_spec |]);
    (split; [| apply Hgone; reflexivity]);
    try (left; unfold added; cbn; reflexivity);
    right; exists url; (split; [reflexivity |]);
    unfold added; cbn -[extractFilenameFromUrl]; rewrite <- ?app_assoc;
    cbn -[extractFilenameFromUrl];
    repeat match goal with
           | H : storage_remove_ok env _ = _ |- _ => rewrite ?H; clear H
           end;
    reflexivity.
Qed.

Lemma deleteProject_removes_the_row_and_its_image_witness :
  let run := deleteProject (Scenario.env None true) (mkReq 7 tt [] None false [])
               Scenario.with_image in
  status (fst run) = 200
  /\ status (fst (getProjectById (Scenario.env None true) (mkReq 7 tt [] None false [])
                    (snd run))) = 404.
Proof.
  intros run. subst run.
  destruct (deleteProject_removes_the_row_and_its_image
              (Scenario.env None true) (Scenario.env None true)
              (mkReq 7 tt [] None false []) Scenario.with_image Scenario.site)
    as [Hdeleted [_ [_ Hgone]]]; try reflexivity.
  split; assumption.
Defined.

(** X12: [deleteProject] removes the image before it deletes the row.
    When the store then refuses the delete statement the answer is 500
    'Failed to delete project', every row is still there, and the image
    file of the project is gone from blob storage. *)
Theorem deleteProject_failed_delete_has_removed_the_image
    (env : Env) (req : Req unit) (w : World) (existing : Project) (url : string) :
  let run := deleteProject env req w in
  let name := extractFilenameFromUrl url in
  db_select_ok env = true -> db_write_ok env = false ->
  single (filter (fun p => p_id p =? params_id req) (projects w)) = Some existing ->
  p_image_url existing = Some url -> name <> "" ->
  storage_remove_ok env name = true ->
  fst run = mkResponse 500 (sendError (now env) "Failed to delete project" 500 Undefined)
  /\ projects (snd run) = projects w
  /\ ~ In name (blobs (snd run))
  /\ added w (snd run) [DbSelect "projects"; BlobRemove name true].
Proof.
  intros run name Hstore Hwrite Hfound Hurl Hname Hremove. subst run.
  assert (Htruthy : Text.truthy name = true).
  { unfold Text.truthy. destruct (String.eqb_spec name ""); [contradiction | reflexivity]. }
  assert (Hurl_truthy : Text.truthy url = true).
  { unfold Text.truthy. destruct (String.eqb_spec url "") as [Hempty |]; [| reflexivity].
    subst name. rewrite Hempty in Hname. cbn in Hname. contradiction. }
  subst name.
  unfold deleteProject, deleteProjectImage, delete_project. run.
  rewrite Hstore, Hfound, Hwrite, Hurl.
  cbn -[sendSuccess sendError extractFilenameFromUrl Text.truthy].
  rewrite Hurl_truthy.
  cbn -[sendSuccess sendError extractFilenameFromUrl Text.truthy].
  rewrite Htruthy, Hremove.
  cbn -[sendSuccess sendError extractFilenameFromUrl Text.truthy].
  unfold added. cbn -[extractFilenameFromUrl]. rewrite <- !app_assoc.
  repeat split; try reflexivity. apply not_in_removed.
Qed.

Lemma deleteProject_failed_delete_has_removed_the_image_witness :
  let run := deleteProject (Scenario.env None false) (mkReq 7 tt [] None false [])
               Scenario.with_image in
  projects (snd run) = [Scenario.site] /\ ~ In "old.png" (blobs (snd run)).
Proof.
  intros run. subst run.
  destruct (deleteProject_failed_delete_has_removed_the_image
              (Scenario.env None false) (mkReq 7 tt [] None false []) Scenario.with_image
              Scenario.site (Scenario.bucket ++ "old.png"))
    as [_ [Hrows [Hgone _]]]; try reflexivity; try discriminate.
  split; assumption.
Defined.

(** X13: when the upload of the attached file fails, [createProject]
    and [updateProject] stop before persistence: the answer is 400 (404
    from [updateProject] for an unknown id), no insert or update is
    attempted, no table and no blob changes; in particular the old
    image of the project is kept. *)
Theorem failed_upload_stops_before_persistence
    (env : Env) (w : World) (f : File)
    (create : Req ProjectCreateBody) (update : Req ProjectUpdateBody) :
  let created := createProject env create w in
  let updated := updateProject env update w in
  storage_upload_ok env = false ->
  file create = Some f -> file update = Some f ->
  (status (fst created) = 400
   /\ same_tables w (snd created)
   /\ blobs (snd created) = blobs w
   /\ exists events : list Event, added w (snd created) events /\ no_write events)
  /\ ((status (fst updated) = 400 \/ status (fst updated) = 404)
      /\ same_tables w (snd updated)
      /\ blobs (snd updated) = blobs w
      /\ exists events : list Event, added w (snd updated) events /\ no_write events).
Proof.
  intros created updated Hupload Hcreate Hupdate. subst created updated.
  split.
  - unfold createProject. run. rewrite Hcreate, Hupload. run.
    branches; unfold same_tables; cbn; repeat split; try reflexivity;
      eexists; (split; [unfold added; cbn; rewrite <- ?app_assoc; cbn; reflexivity
                       | repeat constructor]).
  - unfold updateProject. run. rewrite Hupdate, Hupload. run.
    branches; unfold same_tables; cbn;
      (split; [auto |]); repeat split; try reflexivity;
      eexists; (split; [unfold added; cbn; rewrite <- ?app_assoc; cbn; reflexivity
                       | repeat constructor]).
Qed.

Lemma failed_upload_stops_before_persistence_witness :
  let env := mkEnv "2024-01-15T10:30:00.000Z" true (Arr []) None true false
                   (fun _ => true) (fun _ => "0b5e.png") (fun n => Scenario.bucket ++ n)
                   None None (fun _ => true) in
  status (fst (createProject env (Scenario.good_project "Blog" (Some Scenario.png))
                 Scenario.with_image)) = 400
  /\ blobs (snd (updateProject env Scenario.new_picture Scenario.with_image)) = ["old.png"].
Proof.
  intros env.
  destruct (failed_upload_stops_before_persistence env Scenario.with_image Scenario.png
              (Scenario.good_project "Blog" (Some Scenario.png)) Scenario.new_picture)
    as [[Hcreated _] [_ [_ [Hblobs _]]]]; try reflexivity.
  split; assumption.
Defined.

(** ** Status and body *)

Lemma coherent_sendError (t message : string) (s : Z) (errors : value) :
  400 <= s -> coherent (mkResponse s (sendError t message s errors)).
Proof.
  intros Hs. unfold coherent, envelope, sendError. cbn.
  replace (s <? 400) with false by (symmetry; apply Z.ltb_ge; exact Hs).
  destruct (truthy match errors with Undefined => Null | _ => errors end);
    split; reflexivity.
Qed.

Lemma coherent_sendSuccess (t message : string) (s : Z) (data : value) :
  s < 400 -> coherent (mkResponse s (sendSuccess t data message s)).
Proof.
  intros Hs. unfold coherent, envelope, sendSuccess. cbn.
  replace (s <? 400) with true by (symmetry; apply Z.ltb_lt; exact Hs).
  destruct data; split; reflexivity.
Qed.

Ltac coherence :=
  run; branches;
  repeat match goal with
         | |- context [match ?o with Some _ => _ | None => _ end] => destruct o; run; branches
         end;
  first [ apply coherent_sendError; lia
        | apply coherent_sendSuccess; lia
        | unfold coherent, envelope; cbn; split; reflexivity ].

(** X14: in every answer of the project, journey and certification
    handlers the [statusCode] written in the body is the HTTP status of
    the response, and [success] is true exactly for a status below 400. *)
Theorem handlers_answer_coherently (env : Env) (w : World) :
  (forall (q : ListQuery) (view failure success query : string),
      coherent (fst (list_controller view failure success env q w))
      /\ coherent (fst (searchProjects env query q w)))
  /\ (forall req : Req ProjectCreateBody, coherent (fst (createProject env req w)))
  /\ (forall req : Req ProjectUpdateBody, coherent (fst (updateProject env req w)))
  /\ (forall req : Req unit,
        coherent (fst (getProjectById env req w))
        /\ coherent (fst (deleteProject env req w))
        /\ coherent (fst (uploadProjectImage env req w)))
  /\ (forall req : Req JourneyCreateBody, coherent (fst (createJourneyItem env req w)))
  /\ (forall req : Req JourneyUpdateBody, coherent (fst (updateJourneyItem env req w)))
  /\ (forall req : Req unit,
        coherent (fst (getJourneyById env (params_id req) w))
        /\ coherent (fst (deleteJourneyItem env req w)))
  /\ (forall req : Req CertificationCreateBody, coherent (fst (createCertification env req w)))
  /\ (forall req : Req CertificationUpdateBody, coherent (fst (updateCertification env req w)))
  /\ (forall req : Req unit,
        coherent (fst (getCertificationById env req w))
        /\ coherent (fst (deleteCertification env req w))).
Proof.
  repeat (intros; match goal with |- _ /\ _ => split end); intros.
  - unfold list_controller. run.
    destruct (db_select_ok env); unfold coherent, envelope; cbn; split; reflexivity.
  - unfold searchProjects. run.
    destruct (db_select_ok env); unfold coherent, envelope; cbn; split; reflexivity.
  - unfold createProject. coherence.
  - unfold updateProject. coherence.
  - unfold getProjectById. coherence.
  - unfold deleteProject, deleteProjectImage, delete_project. coherence.
  - unfold uploadProjectImage. coherence.
  - unfold createJourneyItem. coherence.
  - unfold updateJourneyItem. coherence.
  - unfold getJourneyById. coherence.
  - unfold deleteJourneyItem, delete_journey_item. coherence.
  - unfold createCertification, insert_certification. coherence.
  - unfold updateCertification. coherence.
  - unfold getCertificationById. coherence.
  - unfold deleteCertification, delete_certification. coherence.
Qed.

(** ** Certifications *)

(** X15: POST /api/certifications puts [validateRequest] in front of
    the controller but no rule: a request arrives without recorded
    errors and always reaches [createCertification], whatever its body. *)
Theorem post_certification_runs_no_rule
    (env : Env) (req : Req CertificationCreateBody) (w : World) :
  validation req = [] ->
  run_route env MoreRoutes.post_certification None req w
  = (Some (fst (createCertification env req w)), snd (createCertification env req w)).
Proof.
  intros Hclean.
  unfold MoreRoutes.post_certification, run_route, validateRequest, controller, bind, ret.
  rewrite Hclean. destruct (createCertification env req w). reflexivity.
Qed.

Lemma post_certification_runs_no_rule_witness :
  let req := mkReq 0 (mkCertificationCreateBody "" "" 19000 None None None)
                   [] None false [] in
  option_map status
    (fst (run_route (Scenario.env None true) MoreRoutes.post_certification None req
            Scenario.records)) = Some 201.
Proof.
  intros req.
  rewrite (post_certification_runs_no_rule (Scenario.env None true) req Scenario.records
             eq_refl).
  reflexivity.
Defined.

(** With unique keys, the rows a key test selects are the row with that
    key alone. *)
Lemma unique_key_filter {R K : Type} (key : R -> K) (keep : R -> bool) (k : K)
    (rows : list R) (p : R) :
  (forall r, keep r = true <-> key r = k) ->
  NoDup (map key rows) -> In p rows -> key p = k ->
  filter keep rows = [p].
Proof.
  intros Hkeep. induction rows as [| r rows IH]; intros Hunique Hin Hp; [destruct Hin |].
  cbn in Hunique. apply NoDup_cons_iff in Hunique. destruct Hunique as [Hfresh Hrest].
  cbn. destruct Hin as [Heq | Hin].
  - subst r. replace (keep p) with true by (symmetry; apply Hkeep; exact Hp).
    f_equal. apply filter_none. intros r Hin'.
    destruct (keep r) eqn:Hr; [| reflexivity].
    exfalso. apply Hfresh. apply Hkeep in Hr. rewrite Hp, <- Hr. apply in_map. exact Hin'.
  - destruct (keep r) eqn:Hr.
    + exfalso. apply Hfresh. apply Hkeep in Hr. rewrite Hr, <- Hp. apply in_map. exact Hin.
    + apply IH; assumption.
Qed.

Lemma certification_key_test (title issuer : string) (c : Certification) :
  (c_title c =? title)%string && (c_issuer c =? issuer)%string = true
  <-> certification_key c = (title, issuer).
Proof.
  unfold certification_key. rewrite andb_true_iff, !String.eqb_eq.
  split; [intros [-> ->]; reflexivity | intros [= -> ->]; split; reflexivity].
Qed.

Lemma journey_key_test (title company : string) (j : JourneyItem) :
  (j_title j =? title)%string && (j_company_name j =? company)%string = true
  <-> journey_key j = (title, company).
Proof.
  unfold journey_key. rewrite andb_true_iff, !String.eqb_eq.
  split; [intros [-> ->]; reflexivity | intros [= -> ->]; split; reflexivity].
Qed.

(** X16: on a certifications table whose (title, issuer) pairs are
    unique, [createCertification] answers 400 for a pair some row has,
    after the lookup alone; and after any run the pairs are still
    unique: a 201 appended one row with the pair of the body, which no
    row had. *)
Theorem createCertification_keeps_the_pairs_unique
    (env : Env) (req : Req CertificationCreateBody) (w : World) :
  let run := createCertification env req w in
  let pair := (cc_title (body req), cc_issuer (body req)) in
  db_select_ok env = true ->
  NoDup (map certification_key (certifications w)) ->
  (In pair (map certification_key (certifications w)) ->
   status (fst run) = 400 /\ only_select "certifications" w (snd run))
  /\ (status (fst run) = 201 ->
      ~ In pair (map certification_key (certifications w))
      /\ exists row : Certification,
           certification_key row = pair
           /\ certifications (snd run) = (certifications w ++ [row])%list)
  /\ NoDup (map certification_key (certifications (snd run))).
Proof.
  intros run pair Hstore Hunique. subst run pair.
  assert (Hlookup : forall c : Certification,
            In c (certifications w) ->
            certification_key c = (cc_title (body req), cc_issuer (body req)) ->
            filter (fun c => (c_title c =? cc_title (body req))%string
                             && (c_issuer c =? cc_issuer (body req))%string)
                   (certifications w) = [c]).
  { intros c Hin Hkey.
    apply (unique_key_filter certification_key _ (cc_title (body req), cc_issuer (body req)));
      try assumption.
    intros r. apply certification_key_test. }
  assert (Hcases :
    In (cc_title (body req), cc_issuer (body req)) (map certification_key (certifications w))
    \/ filter (fun c => (c_title c =? cc_title (body req))%string
                        && (c_issuer c =? cc_issuer (body req))%string)
              (certifications w) = []).
  { destruct (filter _ (certifications w)) as [| c rest] eqn:Hfilter; [right; reflexivity |].
    left. assert (Hc : In c (filter (fun c => (c_title c =? cc_title (body req))%string
                                              && (c_issuer c =? cc_issuer (body req))%string)
                               (certifications w))) by (rewrite Hfilter; left; reflexivity).
    apply filter_In in Hc. destruct Hc as [Hin Htest].
    apply certification_key_test in Htest. rewrite <- Htest. apply in_map. exact Hin. }
  unfold createCertification, insert_certification. run. rewrite Hstore.
  destruct Hcases as [Htaken | Hfree].
  - apply in_map_iff in Htaken. destruct Htaken as [c [Hkey Hin]].
    rewrite (Hlookup c Hin Hkey). cbn.
    split; [intros _; unfold only_select, added, same_tables; cbn; repeat split; reflexivity |].
    split; [discriminate | exact Hunique].
  - rewrite Hfree. cbn.
    assert (Hnew : ~ In (cc_title (body req), cc_issuer (body req))
                        (map certification_key (certifications w))).
    { intros Htaken. apply in_map_iff in Htaken. destruct Htaken as [c [Hkey Hin]].
      rewrite (Hlookup c Hin Hkey) in Hfree. discriminate. }
    split; [intros Htaken; contradiction |].
    destruct (db_write_ok env); run.
    + split.
      * intros _. split; [exact Hnew |]. eexists. split; [| reflexivity]. reflexivity.
      * rewrite map_app. apply NoDup_app; [exact Hunique | |].
        -- cbn. constructor; [intros [] | constructor].
        -- intros k Hin [Hk | []]. apply Hnew. subst k. exact Hin.
    + split; [discriminate | exact Hunique].
Qed.

Lemma createCertification_keeps_the_pairs_unique_witness :
  let req := mkReq 0 (mkCertificationCreateBody "AWS" "Amazon" 19200 None None None)
                   [] None false [] in
  status (fst (createCertification (Scenario.env None true) req Scenario.records)) = 400.
Proof.
  intros req.
  destruct (createCertification_keeps_the_pairs_unique (Scenario.env None true) req
              Scenario.records) as [Htaken _].
  - reflexivity.
  - cbn. repeat constructor; cbn; intuition discriminate.
  - apply Htaken. left. reflexivity.
Defined.

(** ** Journey items *)

Lemma journey_lookup_none (title company : string) (rows : list JourneyItem) :
  (forall j, In j rows -> journey_key j <> (title, company)) ->
  filter (fun j => (j_title j =? title)%string && (j_company_name j =? company)%string) rows
  = [].
Proof.
  intros Hfree. apply filter_none. intros j Hin.
  destruct ((j_title j =? title)%string && (j_company_name j =? company)%string) eqn:Htest;
    [| reflexivity].
  apply journey_key_test in Htest. exfalso. exact (Hfree j Hin Htest).
Qed.

(** X17: [createJourneyItem] looks for a duplicate with the title and
    company as sent and stores them trimmed. A pair that no row has as
    sent is inserted (201) under its trimmed form; when a row already
    has that trimmed pair, two rows hold the same title and company
    afterwards. *)
Theorem createJourneyItem_trims_after_the_duplicate_check
    (env : Env) (req : Req JourneyCreateBody) (w : World) (s : Z) :
  let run := createJourneyItem env req w in
  let title := jc_title (body req) in
  let company := jc_company_name (body req) in
  db_write_ok env = true ->
  (forall j, In j (journey_items w) -> journey_key j <> (title, company)) ->
  jc_start_date (body req) = DInstant s ->
  date_truthy (jc_end_date (body req)) = false ->
  status (fst run) = 201
  /\ (exists row : JourneyItem,
        journey_items (snd run) = (journey_items w ++ [row])%list
        /\ journey_key row = (Text.trim title, Text.trim company))
  /\ (In (Text.trim title, Text.trim company) (map journey_key (journey_items w)) ->
      ~ NoDup (map journey_key (journey_items (snd run)))).
Proof.
  intros run title company Hwrite Hfree Hstart Hend. subst run title company.
  unfold createJourneyItem, end_date_column. run.
  rewrite (journey_lookup_none _ _ _ Hfree).
  replace (if db_select_ok env then single [] else None) with (@None JourneyItem)
    by (destruct (db_select_ok env); reflexivity).
  rewrite Hstart, Hend. cbn -[Text.trim]. run. rewrite Hwrite. run.
  split; [reflexivity |].
  split; [eexists; split; reflexivity |].
  intros Htaken Hunique. rewrite map_app in Hunique.
  apply NoDup_remove_2 in Hunique. apply Hunique.
  rewrite app_nil_r. exact Htaken.
Qed.

Lemma createJourneyItem_trims_after_the_duplicate_check_witness :
  let req := mkReq 0 (mkJourneyCreateBody "Engineer " "Acme" (DInstant 0) DUndefined
                        "Builds the product" "Experience") [] None false [] in
  let run := createJourneyItem (Scenario.env None true) req Scenario.records in
  status (fst run) = 201 /\ ~ NoDup (map journey_key (journey_items (snd run))).
Proof.
  intros req run. subst run.
  destruct (createJourneyItem_trims_after_the_duplicate_check (Scenario.env None true) req
              Scenario.records 0) as [Hcreated [_ Hdouble]].
  - reflexivity.
  - intros j [<- | [<- | []]]; cbn; discriminate.
  - reflexivity.
  - reflexivity.
  - split; [exact Hcreated |]. apply Hdouble. left. reflexivity.
Defined.

(** X18: a start date that denotes no instant is not refused as bad
    input: when no row has the title and company, [createJourneyItem]
    answers 500 with the error text of the thrown RangeError, after the
    lookup alone. *)
Theorem createJourneyItem_invalid_start_date
    (env : Env) (req : Req JourneyCreateBody) (w : World) :
  let run := createJourneyItem env req w in
  (forall j, In j (journey_items w) ->
             journey_key j <> (jc_title (body req), jc_company_name (body req))) ->
  new_Date (jc_start_date (body req)) = None ->
  fst run = mkResponse 500
              (sendError (now env) "Failed to create journey item" 500
                 (Str "Invalid time value"))
  /\ only_select "journey_items" w (snd run).
Proof.
  intros run Hfree Hstart. subst run.
  unfold createJourneyItem, toISODate. run.
  rewrite (journey_lookup_none _ _ _ Hfree).
  replace (if db_select_ok env then single [] else None) with (@None JourneyItem)
    by (destruct (db_select_ok env); reflexivity).
  rewrite Hstart. cbn.
  replace (date_le (new_Date (jc_end_date (body req))) None) with false
    by (destruct (new_Date (jc_end_date (body req))); reflexivity).
  rewrite andb_false_r.
  unfold only_select, added, same_tables. cbn. repeat split; reflexivity.
Qed.

Lemma createJourneyItem_invalid_start_date_witness :
  let req := mkReq 0 (mkJourneyCreateBody "Lead" "Acme" DInvalid DUndefined
                        "Leads the platform team" "Experience") [] None false [] in
  status (fst (createJourneyItem (Scenario.env None true) req Scenario.records)) = 500.
Proof.
  intros req.
  destruct (createJourneyItem_invalid_start_date (Scenario.env None true) req
              Scenario.records) as [Hanswer _].
  - intros j [<- | [<- | []]]; cbn; discriminate.
  - reflexivity.
  - rewrite Hanswer. reflexivity.
Defined.

(** An item whose stored end day is not after its stored start day
    fails the date rule of [updateJourneyItem] whenever the update sends
    no date: the rule is evaluated on the stored dates. *)
Lemma updateJourneyItem_checks_the_stored_dates
    (env : Env) (req : Req JourneyUpdateBody) (w : World)
    (existing : JourneyItem) (finish : Z) :
  db_select_ok env = true ->
  single (filter (fun j => j_id j =? params_id req) (journey_items w)) = Some existing ->
  j_end_date existing = Some finish ->
  finish <= j_start_date existing ->
  ju_start_date (body req) = DUndefined ->
  ju_end_date (body req) = DUndefined ->
  let run := updateJourneyItem env req w in
  status (fst run) = 400 /\ same_tables w (snd run) /\ blobs (snd run) = blobs w.
Proof.
  intros Hstore Hfound Hfinish Hle Hstart Hend run. subst run.
  unfold updateJourneyItem, finalStartDate, finalEndDate, stored_date. run.
  rewrite Hstore, Hfound, Hstart, Hend, Hfinish. cbn.
  replace (finish * ms_per_day <=? j_start_date existing * ms_per_day) with true
    by (symmetry; apply Z.leb_le; unfold ms_per_day; lia).
  branches; unfold same_tables; cbn; repeat split; reflexivity.
Qed.

(** X19: the date rule of [createJourneyItem] compares instants and the
    table keeps days. An item created (201) with an end later than its
    start on the same day is stored with equal days, and from then on
    [updateJourneyItem] answers 400 to every update of it that sends no
    date, whatever else the update changes. *)
Theorem same_day_item_refuses_dateless_updates
    (env env' : Env) (create : Req JourneyCreateBody) (update : Req JourneyUpdateBody)
    (w : World) (s e : Z) :
  let created := createJourneyItem env create w in
  let updated := updateJourneyItem env' update (snd created) in
  db_select_ok env' = true ->
  (forall j, In j (journey_items w) -> j_id j < next_id w) ->
  jc_start_date (body create) = DInstant s ->
  jc_end_date (body create) = DInstant e ->
  s < e -> e / ms_per_day = s / ms_per_day ->
  status (fst created) = 201 ->
  params_id update = next_id w ->
  ju_start_date (body update) = DUndefined ->
  ju_end_date (body update) = DUndefined ->
  status (fst updated) = 400 /\ same_tables (snd created) (snd updated).
Proof.
  intros created updated Hstore Hbelow Hstart Hend Hlt Hday Hcreated Hid Hnostart Hnoend.
  subst created updated.
  pose proof (filter_fresh_id j_id (next_id w) (journey_items w) Hbelow) as Hfresh.
  assert (Hrow : exists row : JourneyItem,
            journey_items (snd (createJourneyItem env create w))
            = (journey_items w ++ [row])%list
            /\ j_id row = next_id w
            /\ j_start_date row = s / ms_per_day
            /\ j_end_date row = Some (e / ms_per_day)).
  { revert Hcreated. unfold createJourneyItem, toISODate, end_date_column. run.
    rewrite Hstart, Hend. cbn.
    branches; try discriminate; intros _; eexists; repeat split; reflexivity. }
  destruct Hrow as [row [Hrows [Hrowid [Hrowstart Hrowend]]]].
  destruct (updateJourneyItem_checks_the_stored_dates env' update
              (snd (createJourneyItem env create w)) row (e / ms_per_day))
    as [Hstatus [Hsame _]]; try assumption.
  - rewrite Hrows, filter_app, Hid, Hfresh. cbn. rewrite Hrowid, Z.eqb_refl. reflexivity.
  - rewrite Hrowstart, Hday. lia.
  - split; assumption.
Qed.

Lemma same_day_item_refuses_dateless_updates_witness :
  let env := Scenario.env None true in
  let noon := DInstant (19500 * ms_per_day + 43200000) in
  let retitle := mkReq 3 (mkJourneyUpdateBody (Some "Principal") None DUndefined DUndefined
                            None None) [] None true [] in
  status (fst (updateJourneyItem env retitle
                 (snd (createJourneyItem env (Scenario.new_job noon) Scenario.records))))
  = 400.
Proof.
  intros env noon retitle.
  destruct (same_day_item_refuses_dateless_updates env env (Scenario.new_job noon) retitle
              Scenario.records (19500 * ms_per_day) (19500 * ms_per_day + 43200000))
    as [Hstatus _].
  - reflexivity.
  - intros j [<- | [<- | []]]; cbn; lia.
  - reflexivity.
  - reflexivity.
  - lia.
  - reflexivity.
  - reflexivity.
  - reflexivity.
  - reflexivity.
  - reflexivity.
  - exact Hstatus.
Defined.

(** ** What the routes let through *)

Lemma check_failed (field message : string) : check false field message <> [].
Proof. discriminate. Qed.

Lemma app_not_nil_l {A : Type} (l l' : list A) : l <> [] -> (l ++ l')%list <> [].
Proof. intros Hl Happ. apply app_eq_nil in Happ. apply Hl. apply Happ. Qed.

Lemma app_not_nil_r {A : Type} (l l' : list A) : l' <> [] -> (l ++ l')%list <> [].
Proof. intros Hl Happ. apply app_eq_nil in Happ. apply Hl. apply Happ. Qed.

(** [validateRequest] answers 400 and touches nothing once an error is
    recorded. *)
Lemma validateRequest_refuses {B : Type} (env : Env) (rest : list (Handler B))
    (req : Req B) (w : World) :
  validation req <> [] ->
  rejected env (Middleware validateRequest :: rest) req w 400.
Proof.
  intros Herrors. unfold rejected, run_route, validateRequest, bind, ret.
  destruct (validation req); [contradiction |].
  eexists. split; reflexivity.
Qed.

(** X20: an id below 1 is answered 400 by [idValidation] and
    [validateRequest] before any store is called, on every route that
    takes an id; the routes behind [authenticate] do so for the requests
    it lets through. *)
Theorem id_below_one_is_refused (env : Env) (req : Req unit) (w : World) :
  params_id req < 1 ->
  rejected env MoreRoutes.delete_project_id req w 400
  /\ rejected env MoreRoutes.get_certification_id req w 400
  /\ (authenticated req = true ->
      rejected env MoreRoutes.get_project_id req w 400
      /\ rejected env MoreRoutes.delete_certification_id req w 400
      /\ rejected env MoreRoutes.delete_journey_id req w 400).
Proof.
  intros Hid. apply Z.leb_gt in Hid.
  assert (Hnext : forall rest : list (Handler unit),
            rejected env (Middleware idValidation :: Middleware validateRequest :: rest)
                     req w 400).
  { intros rest.
    destruct (validateRequest_refuses env rest
                (set_body req (body req)
                   (check (1 <=? params_id req) "id" "ID must be a positive integer")) w)
      as [r [Hrun Hstatus]].
    - cbn. rewrite Hid. apply app_not_nil_r. apply check_failed.
    - exists r. split; [| exact Hstatus]. exact Hrun. }
  split; [apply Hnext |]. split; [apply Hnext |].
  intros Hauth.
  assert (Hbehind : forall rest : list (Handler unit),
            rejected env (Middleware authenticate :: Middleware idValidation
                          :: Middleware validateRequest :: rest) req w 400).
  { intros rest. destruct (Hnext rest) as [r [Hrun Hstatus]].
    exists r. split; [| exact Hstatus].
    unfold run_route at 1. unfold authenticate, bind, ret. rewrite Hauth. exact Hrun. }
  repeat split; apply Hbehind.
Qed.

Lemma id_below_one_is_refused_witness :
  rejected (Scenario.env None true) MoreRoutes.delete_project_id
           (mkReq 0 tt [] None false []) Scenario.with_image 400.
Proof.
  apply (id_below_one_is_refused (Scenario.env None true) (mkReq 0 tt [] None false [])
           Scenario.with_image).
  cbn. lia.
Defined.

(** X21: DELETE /api/projects/:id has no [authenticate] in its chain:
    with a positive id the request reaches [deleteProject] whether or
    not it is authenticated. *)
Theorem delete_project_needs_no_authentication (env : Env) (req : Req unit) (w : World) :
  1 <= params_id req ->
  validation req = [] ->
  run_route env MoreRoutes.delete_project_id None req w
  = (Some (fst (deleteProject env req w)), snd (deleteProject env req w)).
Proof.
  intros Hid Hclean. apply Z.leb_le in Hid.
  unfold MoreRoutes.delete_project_id, run_route, idValidation, validateRequest, controller,
    bind, ret.
  cbn -[deleteProject]. rewrite Hid, Hclean. cbn -[deleteProject].
  change (deleteProject env (set_body req (body req) _) w) with (deleteProject env req w).
  destruct (deleteProject env req w). reflexivity.
Qed.

Lemma delete_project_needs_no_authentication_witness :
  let run := run_route (Scenario.env None true) MoreRoutes.delete_project_id None
               (mkReq 7 tt [] None false []) Scenario.with_image in
  option_map status (fst run) = Some 200 /\ projects (snd run) = [].
Proof.
  intros run. subst run.
  rewrite (delete_project_needs_no_authentication (Scenario.env None true)
             (mkReq 7 tt [] None false []) Scenario.with_image); [| cbn; lia | reflexivity].
  split; reflexivity.
Defined.

Ltac errors_recorded :=
  match goal with
  | |- context [match ?l with [] => _ | _ :: _ => _ end] =>
      let Hlist := fresh "Hlist" in
      destruct l eqn:Hlist;
      [ exfalso;
        repeat match goal with
               | H : (_ ++ _)%list = [] |- _ => apply app_eq_nil in H; destruct H
               end;
        try discriminate
      | ]
  end.

(** X22: PUT /api/journey/:id answers 400, before any store call, to
    an [end_date] that is sent and is no ISO 8601 date for
    validator.js: [null], the empty text, or a text of another form
    (whether or not [Date] can parse it). *)
Theorem put_journey_refuses_a_non_iso_end_date
    (env : Env) (req : Req JourneyUpdateBody) (w : World) :
  authenticated req = true ->
  ju_end_date (body req) <> DUndefined ->
  JourneyRoutes.isISO8601 (ju_end_date (body req)) = false ->
  rejected env JourneyRoutes.put_id req w 400.
Proof.
  intros Hauth Hsent Hform.
  unfold rejected, JourneyRoutes.put_id, run_route, authenticate, idValidation,
    JourneyRoutes.updateJourneyValidation, validateRequest, bind, ret.
  rewrite Hauth. cbn -[Text.trim Text.truthy Text.len].
  destruct (ju_end_date (body req)) eqn:Hend; try contradiction; try discriminate;
    cbn -[Text.trim Text.truthy Text.len];
    errors_recorded; eexists; split; reflexivity.
Qed.

Lemma put_journey_refuses_a_non_iso_end_date_witness :
  rejected (Scenario.env None true) JourneyRoutes.put_id (Scenario.new_end DNull)
           Scenario.records 400.
Proof.
  apply (put_journey_refuses_a_non_iso_end_date (Scenario.env None true)
           (Scenario.new_end DNull) Scenario.records).
  - reflexivity.
  - cbn. discriminate.
  - reflexivity.
Defined.

(** An ISO 8601 text that [Date] cannot parse passes the rule,
    [.toDate()] turns it into [null], and the controller stores [null]:
    over the route the end date of item 2 is cleared. *)
Example put_journey_week_date_clears_the_end_date :
  let run := run_route (Scenario.env None true) JourneyRoutes.put_id None
               (Scenario.new_end DIsoUnparsed) Scenario.records in
  option_map status (fst run) = Some 200
  /\ map j_end_date (journey_items (snd run)) = [None; None].
Proof. vm_compute. split; reflexivity. Qed.

(** X23: PUT /api/projects/:id answers 400 before any store or
    blob-store call when the body sends details shorter than ten
    characters after trimming, or a name that is blank after trimming,
    whatever file parts come with it. *)
Theorem put_project_refuses_short_details_and_blank_names
    (env : Env) (req : Req ProjectUpdateBody) (w : World) :
  authenticated req = true ->
  (exists d : string, pu_details (body req) = Some d /\ Text.len (Text.trim d) < 10)
  \/ (exists n : string, pu_name (body req) = Some n /\ Text.truthy (Text.trim n) = false) ->
  rejected env ProjectRoutes.put_id req w 400.
Proof.
  intros Hauth Hbad.
  unfold rejected, ProjectRoutes.put_id, run_route, authenticate, idValidation,
    uploadProjectImageMiddleware, ProjectRoutes.updateProjectValidation, validateRequest,
    bind, ret.
  rewrite Hauth. cbn -[Text.trim Text.truthy Text.len handleUploadError].
  destruct (multer_any env 0 (files req)) as [e |].
  - match goal with
    | |- context [handleUploadError env e ?r w] =>
        destruct (handleUploadError_400 env e r w) as [r' [Hrun Hstatus]]
    end.
    rewrite Hrun. exists r'. split; [reflexivity | exact Hstatus].
  - cbn -[Text.trim Text.truthy Text.len].
    destruct Hbad as [[d [Hd Hshort]] | [n [Hn Hblank]]].
    + rewrite Hd. apply Z.leb_gt in Hshort.
      unfold ProjectRoutes.details_rules. cbn -[Text.trim Text.truthy Text.len].
      rewrite Hshort. cbn -[Text.trim Text.truthy Text.len].
      errors_recorded. eexists. split; reflexivity.
    + rewrite Hn. unfold ProjectRoutes.name_rules. cbn -[Text.trim Text.truthy Text.len].
      rewrite Hblank. cbn -[Text.trim Text.truthy Text.len].
      errors_recorded. eexists. split; reflexivity.
Qed.

Lemma put_project_refuses_short_details_and_blank_names_witness :
  rejected (Scenario.env None true) ProjectRoutes.put_id
           (mkReq 7 (mkProjectUpdateBody None (Some "  short   ") None None None)
                  [Scenario.png] None true [])
           Scenario.with_image 400.
Proof.
  apply (put_project_refuses_short_details_and_blank_names (Scenario.env None true)
           (mkReq 7 (mkProjectUpdateBody None (Some "  short   ") None None None)
                  [Scenario.png] None true [])
           Scenario.with_image).
  - reflexivity.
  - left. exists "  short   ". split; [reflexivity | vm_compute; reflexivity].
Defined.

(** ** The window of a list query *)

Lemma number_of_digits_app (s t : string) (acc : Z) :
  number_of_digits acc (s ++ t)
  = match number_of_digits acc s with
    | Some a => number_of_digits a t
    | None => None
    end.
Proof.
  revert acc. induction s as [| c s IH]; intros acc; [reflexivity |].
  cbn. destruct (digit c); [apply IH | reflexivity].
Qed.

Lemma digit_of_digit_char (d : Z) : 0 <= d <= 9 -> digit (digit_char d) = Some d.
Proof.
  intros Hd.
  assert (Hcases : d = 0 \/ d = 1 \/ d = 2 \/ d = 3 \/ d = 4 \/ d = 5 \/ d = 6 \/ d = 7
                   \/ d = 8 \/ d = 9) by lia.
  repeat (destruct Hcases as [-> | Hcases]; [reflexivity |]). subst d. reflexivity.
Qed.

Lemma append_assoc (s t u : string) : ((s ++ t) ++ u = s ++ (t ++ u))%string.
Proof. induction s as [| c s IH]; [reflexivity |]. cbn. rewrite IH. reflexivity. Qed.

Lemma digits_of_suffix (fuel : nat) (n : Z) (suffix : string) :
  digits_of fuel n suffix = (digits_of fuel n "" ++ suffix)%string.
Proof.
  revert n suffix. induction fuel as [| fuel IH]; intros n suffix; [reflexivity |].
  cbn [digits_of]. destruct (n / 10 =? 0); [reflexivity |].
  rewrite (IH (n / 10) (String _ suffix)), (IH (n / 10) (String _ "")).
  rewrite append_assoc. reflexivity.
Qed.

(** Reading the text of [n] after [acc] shifts [acc] by the number of
    digits of [n]. *)
Lemma number_of_digits_of (fuel : nat) (n : Z) :
  0 <= n -> (Z.to_nat n < fuel)%nat ->
  exists k : Z,
    1 <= k
    /\ forall acc : Z,
         number_of_digits acc (digits_of fuel n "") = Some (acc * 10 ^ k + n).
Proof.
  revert n. induction fuel as [| fuel IH]; intros n Hn Hfuel; [lia |].
  cbn [digits_of]. destruct (n / 10 =? 0) eqn:Hsmall.
  - apply Z.eqb_eq in Hsmall.
    assert (Hdigit : 0 <= n <= 9).
    { pose proof (Z.div_mod n 10 ltac:(lia)) as Hdm.
      pose proof (Z.mod_pos_bound n 10 ltac:(lia)). lia. }
    exists 1. split; [lia |]. intros acc. cbn [number_of_digits].
    rewrite Z.mod_small by lia. rewrite (digit_of_digit_char n Hdigit).
    f_equal. lia.
  - apply Z.eqb_neq in Hsmall.
    pose proof (Z.div_mod n 10 ltac:(lia)) as Hdm.
    pose proof (Z.mod_pos_bound n 10 ltac:(lia)) as Hmod.
    assert (Hquot : 0 <= n / 10) by (apply Z.div_pos; lia).
    destruct (IH (n / 10) Hquot ltac:(lia)) as [k [Hk Hread]].
    exists (k + 1). split; [lia |]. intros acc.
    rewrite digits_of_suffix, number_of_digits_app, Hread. cbn [number_of_digits].
    rewrite (digit_of_digit_char (n mod 10)) by lia.
    f_equal. rewrite Z.pow_add_r by lia. lia.
Qed.

Lemma ToNumber_of_String (n : Z) : 0 <= n -> ToNumber (String_of_number n) = Some n.
Proof.
  intros Hn. unfold ToNumber, String_of_number.
  destruct (number_of_digits_of (S (Z.to_nat n)) n Hn ltac:(lia)) as [k [_ Hread]].
  rewrite Hread. f_equal; lia.
Qed.

(** X24: the window a list controller asks the store for.  With [page]
    and [limit] taken from the query string (texts, in the range where
    numbers are exact), [offset + limit - 1] appends the digits of
    [limit] to those of [offset]: the window starts at
    [(page - 1) * limit] and ends at [offset * 10^k + limit - 1], [k]
    the number of digits of [limit]; that is the intended end
    [offset + limit - 1] on the first page only.  With [limit] absent
    (the default 10, a number) the end is [offset + 9]. *)
Theorem range_of_a_list_query (page limit : Z) :
  1 <= page <= 1000000000 -> 1 <= limit <= 100 ->
  let offset := (page - 1) * limit in
  (exists k : Z,
      1 <= k
      /\ range_args (mkListQueryText (Some (String_of_number page))
                                     (Some (String_of_number limit)))
         = Some (offset, offset * 10 ^ k + limit - 1)
      /\ (offset * 10 ^ k + limit - 1 = offset + limit - 1 <-> page = 1))
  /\ range_args (mkListQueryText (Some (String_of_number page)) None)
     = Some ((page - 1) * 10, (page - 1) * 10 + 10 - 1).
Proof.
  intros Hpage Hlimit offset. split.
  - destruct (number_of_digits_of (S (Z.to_nat limit)) limit ltac:(lia) ltac:(lia))
      as [k [Hk Hread]].
    exists k. split; [exact Hk |]. split.
    + unfold range_args. cbn [qt_page qt_limit].
      rewrite !ToNumber_of_String by lia. fold offset.
      replace (offset <? 0) with false by (symmetry; apply Z.ltb_ge; subst offset; nia).
      unfold ToNumber. rewrite number_of_digits_app.
      fold (ToNumber (String_of_number offset)).
      rewrite ToNumber_of_String by (subst offset; nia).
      unfold String_of_number at 1. rewrite Hread. reflexivity.
    + assert (Hpow : 10 <= 10 ^ k).
      { replace 10 with (10 ^ 1) at 1 by reflexivity.
        apply Z.pow_le_mono_r; lia. }
      subst offset. split; intros H; [nia | subst page; lia].
  - unfold range_args. cbn [qt_page qt_limit].
    rewrite ToNumber_of_String by lia.
    replace ((page - 1) * 10 <? 0) with false by (symmetry; apply Z.ltb_ge; lia).
    reflexivity.
Qed.

Lemma range_of_a_list_query_witness :
  exists k : Z,
    1 <= k
    /\ range_args (mkListQueryText (Some (String_of_number 2)) (Some (String_of_number 10)))
       = Some ((2 - 1) * 10, (2 - 1) * 10 * 10 ^ k + 10 - 1).
Proof.
  destruct (range_of_a_list_query 2 10) as [[k [Hk [Hrange _]]] _]; [lia | lia |].
  exists k. split; [exact Hk | exact Hrange].
Defined.

Example range_of_the_second_page :
  range_args (mkListQueryText (Some "2") (Some "10")) = Some (10, 1009)
  /\ range_args (mkListQueryText (Some "2") None) = Some (10, 19)
  /\ range_args (mkListQueryText None (Some "10")) = Some (0, 9).
Proof. vm_compute. repeat split; reflexivity. Qed.

(** ** The formatter of validation errors *)

Lemma assoc_set_own_same (k : string) (v : Js.value) (fields : list (string * Js.value)) :
  Js.assoc k (Js.set_own k v fields) = Some v.
Proof.
  induction fields as [| [k' v'] fields IH]; cbn.
  - rewrite String.eqb_refl. reflexivity.
  - destruct (k =? k')%string eqn:Hk; cbn.
    + rewrite String.eqb_refl. reflexivity.
    + rewrite Hk. exact IH.
Qed.

Lemma assoc_set_own_other (k k' : string) (v : Js.value) (fields : list (string * Js.value)) :
  k' <> k -> Js.assoc k' (Js.set_own k v fields) = Js.assoc k' fields.
Proof.
  intros Hother. induction fields as [| [k0 v0] fields IH]; cbn.
  - apply String.eqb_neq in Hother. rewrite Hother. reflexivity.
  - destruct (k =? k0)%string eqn:Hk; cbn.
    + apply String.eqb_eq in Hk. subst k0.
      apply String.eqb_neq in Hother. rewrite Hother. reflexivity.
    + destruct (k' =? k0)%string; [reflexivity | exact IH].
Qed.

Lemma keys_set_own (k : string) (v : Js.value) (fields : list (string * Js.value)) :
  map fst (Js.set_own k v fields)
  = if existsb (String.eqb k) (map fst fields) then map fst fields
    else (map fst fields ++ [k])%list.
Proof.
  induction fields as [| [k' v'] fields IH]; [reflexivity |].
  cbn. destruct (k =? k')%string eqn:Hk; cbn.
  - apply String.eqb_eq in Hk. subst k'. reflexivity.
  - rewrite IH. destruct (existsb (String.eqb k) (map fst fields)); reflexivity.
Qed.

Lemma assoc_set_same (k : string) (v : Js.value) (fields : list (string * Js.value)) :
  k <> "__proto__" -> Js.assoc k (Js.set k v fields) = Some v.
Proof.
  intros Hk. unfold Js.set. apply String.eqb_neq in Hk. rewrite Hk.
  apply assoc_set_own_same.
Qed.

Lemma assoc_set_other (k k' : string) (v : Js.value) (fields : list (string * Js.value)) :
  k' <> k -> Js.assoc k' (Js.set k v fields) = Js.assoc k' fields.
Proof.
  intros Hother. unfold Js.set.
  destruct (k =? "__proto__")%string; [reflexivity | apply assoc_set_own_other; exact Hother].
Qed.

Lemma keys_set_in (k : string) (v : Js.value) (fields : list (string * Js.value)) (x : string) :
  In x (map fst (Js.set k v fields))
  <-> In x (map fst fields) \/ (x = k /\ k <> "__proto__").
Proof.
  unfold Js.set. destruct (String.eqb_spec k "__proto__") as [Hproto | Hplain].
  - split; [intros H; left; exact H | intros [H | [_ H]]; [exact H | contradiction]].
  - rewrite keys_set_own.
    destruct (existsb (String.eqb k) (map fst fields)) eqn:Hin.
    + apply existsb_exists in Hin. destruct Hin as [k' [Hin Heq]].
      apply String.eqb_eq in Heq. subst k'.
      split; [intros H; left; exact H | intros [H | [-> _]]; assumption].
    + rewrite in_app_iff. cbn. intuition congruence.
Qed.

Lemma keys_set_NoDup (k : string) (v : Js.value) (fields : list (string * Js.value)) :
  NoDup (map fst fields) -> NoDup (map fst (Js.set k v fields)).
Proof.
  intros Hunique. unfold Js.set.
  destruct (k =? "__proto__")%string; [exact Hunique |].
  rewrite keys_set_own.
  destruct (existsb (String.eqb k) (map fst fields)) eqn:Hin; [exact Hunique |].
  apply NoDup_app; [exact Hunique | constructor; [intros [] | constructor] |].
  intros x Hx [<- | []].
  assert (Hfound : existsb (String.eqb k) (map fst fields) = true).
  { apply existsb_exists. exists k. split; [exact Hx | apply String.eqb_refl]. }
  rewrite Hfound in Hin. discriminate.
Qed.

(** The object [errors] that the loop of [sendValidationError] builds
    from the details [ds], starting from the fields [acc]. *)
Lemma sendValidationError_loop (ds : list (list string * string))
    (acc : list (string * Js.value)) :
  let path d := String.concat "." (fst d) in
  let errors :=
    fold_left (fun errors d => Js.set (path d) (Js.Str (snd d)) errors) ds acc in
  NoDup (map fst acc) ->
  NoDup (map fst errors)
  /\ (forall k, In k (map fst errors)
                <-> In k (map fst acc) \/ (In k (map path ds) /\ k <> "__proto__"))
  /\ (forall k, ~ In k (map path ds) -> Js.assoc k errors = Js.assoc k acc)
  /\ (forall earlier d later,
         ds = (earlier ++ d :: later)%list -> ~ In (path d) (map path later) ->
         path d <> "__proto__" ->
         Js.assoc (path d) errors = Some (Js.Str (snd d))).
Proof.
  intros path. revert acc. induction ds as [| d0 ds IH]; intros acc errors Hunique.
  - subst errors. cbn. split; [exact Hunique |]. split; [intuition |].
    split; [reflexivity |]. intros [| ? ?] d later Hsplit; discriminate.
  - subst errors. cbn [fold_left].
    destruct (IH (Js.set (path d0) (Js.Str (snd d0)) acc)
                 (keys_set_NoDup _ _ _ Hunique)) as [Hnodup [Hkeys [Hkept Hlast]]].
    split; [exact Hnodup |]. split; [| split].
    + intros k. rewrite Hkeys, keys_set_in. cbn.
      split.
      * intros [[Hacc | [-> Hplain]] | [Hin Hplain]]; auto.
      * intros [Hacc | [[<- | Hin] Hplain]]; auto.
    + intros k Hout. cbn in Hout. rewrite Hkept by intuition.
      apply assoc_set_other. intuition.
    + intros earlier d later Hsplit Hfresh Hplain. destruct earlier as [| e earlier].
      * cbn in Hsplit. injection Hsplit as -> ->.
        rewrite Hkept by exact Hfresh. apply assoc_set_same. exact Hplain.
      * cbn in Hsplit. injection Hsplit as -> ->.
        apply (Hlast earlier d later eq_refl Hfresh Hplain).
Qed.

(** X25: [sendValidationError] answers 400 with an [errors] object that
    has one own key for each path among the details, the dotted path,
    except the path [__proto__], which adds none; when a path occurs
    more than once, its message is the one of the last detail with that
    path. *)
Theorem sendValidationError_reports_each_path_once
    (now : string) (ds : list (list string * string)) :
  let path d := String.concat "." (fst d) in
  let answer := sendValidationError now (Some ds) in
  let errors := Js.get "errors" (Js.get "json" answer) in
  Js.get "statusCode" answer = Js.Num 400
  /\ NoDup (Js.keys errors)
  /\ (forall k, In k (Js.keys errors) <-> In k (map path ds) /\ k <> "__proto__")
  /\ (forall earlier d later,
         ds = (earlier ++ d :: later)%list -> ~ In (path d) (map path later) ->
         path d <> "__proto__" ->
         Js.get (path d) errors = Js.Str (snd d)).
Proof.
  intros path answer errors.
  destruct (sendValidationError_loop ds [] (NoDup_nil _)) as [Hnodup [Hkeys [_ Hlast]]].
  subst answer errors. unfold sendValidationError, sendError. cbn.
  split; [reflexivity |]. split; [exact Hnodup |]. split.
  - intros k. rewrite Hkeys. cbn. intuition.
  - intros earlier d later Hsplit Hfresh Hplain.
    pose proof (Hlast earlier d later Hsplit Hfresh Hplain) as Hfound.
    subst path. cbn in Hfound |- *. rewrite Hfound. reflexivity.
Qed.
